(** * CapstoneWebApp frontend: API client, session store and view handlers

    A shallow embedding of the React single-page application:
    - [services/api.js]: [parseError] and the fetch wrappers of [apiService];
    - [context/AuthContext.jsx]: [login] and [logout];
    - [components/OnePageApp.jsx]: [saveProfile] (the version that patches
      the changed fields);
    - [components/Views.jsx]: the action buttons of an uploads row, the retry
      and delete handlers of [UploadsView], and [send] of [ChatView].

    JavaScript values are an inductive type.  A handler is a function in a
    state-and-exception monad over the component's state and a [World] that
    records, in order, every observable effect (requests, dialogs, toasts,
    console lines) and holds [localStorage].  The backend and the user in
    front of a [window.confirm] dialog are oracles of an environment [Env],
    and the theorems hold for every environment.  A handler is followed from
    its call to its end, each [await] continuing with the oracle's answer;
    what other handlers do in between is outside the embedding, except for
    [send], which is split at its [await]. *)

From Stdlib Require Import ZArith String Ascii List Bool Lia.
From stdpp Require Import base option list strings gmap pretty.

Local Open Scope string_scope.
Local Open Scope Z_scope.

(** ** JavaScript values *)

(** The values the handlers compute with: [undefined], [null], booleans,
    numbers, strings, arrays and plain objects.  Numbers are the integers (no
    handler does arithmetic on a number it received); strings are sequences of
    [ascii] code units; an object is the list of its own properties in
    insertion order, read through [obj_get] (first binding of the key). *)
#[warnings="-register-all"] Inductive JsVal : Type :=
  | JUndefined
  | JNull
  | JBool (b : bool)
  | JNum (n : Z)
  | JStr (s : string)
  | JArr (items : list JsVal)
  | JObj (props : list (string * JsVal)).

(** ToBoolean. *)
Definition truthy (v : JsVal) : bool :=
  match v with
  | JUndefined | JNull => false
  | JBool b => b
  | JNum n => negb (n =? 0)
  | JStr s => negb (String.eqb s "")
  | JArr _ | JObj _ => true
  end.

(** [a || b] on values and on strings. *)
Definition js_or (a b : JsVal) : JsVal := if truthy a then a else b.
Definition str_or (a b : string) : string := if String.eqb a "" then b else a.

(** [typeof v === 'string'] together with the string itself. *)
Definition as_string (v : JsVal) : option string :=
  match v with JStr s => Some s | _ => None end.

(** [a === b].  Primitives compare by value.  Arrays and objects compare by
    identity in JavaScript; the embedding has no heap and compares them
    structurally, which agrees with identity wherever the application compares
    two such values: [profile] and [originalProfile] are set from the same
    fetched object and an edit replaces a whole field by a string. *)
Fixpoint strict_eq (a b : JsVal) : bool :=
  match a, b with
  | JUndefined, JUndefined => true
  | JNull, JNull => true
  | JBool x, JBool y => Bool.eqb x y
  | JNum x, JNum y => x =? y
  | JStr x, JStr y => String.eqb x y
  | JArr xs, JArr ys =>
      (fix items_eq (xs ys : list JsVal) : bool :=
         match xs, ys with
         | [], [] => true
         | x :: xs', y :: ys' => strict_eq x y && items_eq xs' ys'
         | _, _ => false
         end) xs ys
  | JObj ps, JObj qs =>
      (fix props_eq (ps qs : list (string * JsVal)) : bool :=
         match ps, qs with
         | [], [] => true
         | (k, x) :: ps', (l, y) :: qs' =>
             String.eqb k l && strict_eq x y && props_eq ps' qs'
         | _, _ => false
         end) ps qs
  | _, _ => false
  end.

(** Own property [k] of a property list; [undefined] when absent. *)
Fixpoint obj_get (props : list (string * JsVal)) (k : string) : JsVal :=
  match props with
  | [] => JUndefined
  | (k', v) :: rest => if String.eqb k' k then v else obj_get rest k
  end.

(** [o[k] = v] on a property list: overwrite in place, else append. *)
Fixpoint obj_set (props : list (string * JsVal)) (k : string) (v : JsVal)
  : list (string * JsVal) :=
  match props with
  | [] => [(k, v)]
  | (k', v') :: rest =>
      if String.eqb k' k then (k', v) :: rest else (k', v') :: obj_set rest k v
  end.

Definition index_key (i : nat) : string := pretty (Z.of_nat i).

(** The own enumerable string-keyed properties of a value that is neither
    [null] nor [undefined], in enumeration order: the properties of an object
    (in insertion order; the objects of this application have no integer
    keys, which would come first), the indices of an array or of a string,
    nothing for a number or boolean. *)
Definition own_props (v : JsVal) : list (string * JsVal) :=
  match v with
  | JObj props => props
  | JArr items => imap (fun i x => (index_key i, x)) items
  | JStr s =>
      imap (fun i c => (index_key i, JStr (String c EmptyString)))
           (list_ascii_of_string s)
  | _ => []
  end.

Definition is_nullish (v : JsVal) : bool :=
  match v with JUndefined | JNull => true | _ => false end.

(** [v?.k]: [undefined] on [null] and [undefined], else the data property
    (inherited methods are not data and are not modelled). *)
Definition get_opt (v : JsVal) (k : string) : JsVal :=
  match v with
  | JArr items =>
      if String.eqb k "length" then JNum (Z.of_nat (length items))
      else obj_get (own_props v) k
  | JStr s =>
      if String.eqb k "length" then JNum (Z.of_nat (String.length s))
      else obj_get (own_props v) k
  | _ => obj_get (own_props v) k
  end.

(** ** ToString and JSON.stringify *)

(** ToString, as applied by template literals and [localStorage.setItem]. *)
Fixpoint ToString (v : JsVal) : string :=
  match v with
  | JUndefined => "undefined"
  | JNull => "null"
  | JBool true => "true"
  | JBool false => "false"
  | JNum n => pretty n
  | JStr s => s
  | JArr items =>
      (fix join (xs : list JsVal) : string :=
         match xs with
         | [] => ""
         | [x] => if is_nullish x then "" else ToString x
         | x :: rest =>
             (if is_nullish x then "" else ToString x) ++ "," ++ join rest
         end) items
  | JObj _ => "[object Object]"
  end.

(** The double-quote character, code unit 34. *)
Definition dquote : ascii := ascii_of_nat 34.

Definition hex_digit (n : N) : ascii :=
  match n with
  | 0 => "0" | 1 => "1" | 2 => "2" | 3 => "3" | 4 => "4" | 5 => "5"
  | 6 => "6" | 7 => "7" | 8 => "8" | 9 => "9" | 10 => "a" | 11 => "b"
  | 12 => "c" | 13 => "d" | 14 => "e" | _ => "f"
  end%N%char.

(** QuoteJSONString on one code unit. *)
Definition json_escape (c : ascii) : string :=
  let n := N_of_ascii c in
  if (n =? 34)%N then "\" ++ String c ""
  else if (n =? 92)%N then "\\"
  else if (n =? 8)%N then "\b"
  else if (n =? 9)%N then "\t"
  else if (n =? 10)%N then "\n"
  else if (n =? 12)%N then "\f"
  else if (n =? 13)%N then "\r"
  else if (n <? 32)%N then
    "\u00" ++ String (hex_digit (n / 16)) (String (hex_digit (n mod 16)) "")
  else String c "".

Fixpoint json_escape_all (s : string) : string :=
  match s with
  | EmptyString => ""
  | String c rest => json_escape c ++ json_escape_all rest
  end.

Definition json_quote (s : string) : string :=
  String dquote (json_escape_all s ++ String dquote "").

(** [JSON.stringify(v)] without indentation.  An [undefined] array item prints
    as [null] and an [undefined] property is left out.  At top level
    JavaScript yields [undefined] for [undefined]; that is the empty string
    here, which is as falsy as it at the one place the client uses it. *)
Fixpoint JSON_stringify (v : JsVal) : string :=
  match v with
  | JUndefined => ""
  | JNull => "null"
  | JBool true => "true"
  | JBool false => "false"
  | JNum n => pretty n
  | JStr s => json_quote s
  | JArr items =>
      "[" ++
      (fix elems (xs : list JsVal) : string :=
         match xs with
         | [] => ""
         | [x] => if is_nullish x then "null" else JSON_stringify x
         | x :: rest =>
             (if is_nullish x then "null" else JSON_stringify x)
               ++ "," ++ elems rest
         end) items
      ++ "]"
  | JObj props =>
      "{" ++
      (fix members (ps : list (string * JsVal)) (first : bool) : string :=
         match ps with
         | [] => ""
         | (k, JUndefined) :: rest => members rest first
         | (k, x) :: rest =>
             (if first then "" else ",") ++ json_quote k ++ ":"
               ++ JSON_stringify x ++ members rest false
         end) props true
      ++ "}"
  end.


(** ** Exceptions, the world and the handler monad *)

(** The outcome of a computation that may throw.  Every exception the client
    sees is an [Error] (or [TypeError], [SyntaxError]) that is only ever read
    through its [message]. *)
Inductive Except (A : Type) : Type :=
  | Throw (message : string)
  | Return (a : A).
Arguments Throw {A} message.
Arguments Return {A} a.

Inductive Method := GET | POST | PUT | PATCH | DELETE.

(** A request body: none, [JSON.stringify(v)] (kept as the value [v] that is
    serialised), the url-encoded [URLSearchParams] of the login form, or the
    multipart [FormData] of an upload. *)
Inductive Body :=
  | NoBody
  | JsonBody (v : JsVal)
  | FormBody (fields : list (string * string))
  | MultipartBody (parts : list (string * string)).

Record Request := mkRequest {
  method : Method;
  url : string;
  authorization : option string;
  body : Body
}.

(** What the client reads of a [Response]: [status], [statusText] and the
    outcome of [response.json()], which throws a [SyntaxError] (with the
    engine's message) when the body is not JSON. *)
Record Response := mkResponse {
  status : Z;
  statusText : string;
  json : Except JsVal
}.

(** [response.ok]. *)
Definition ok (r : Response) : bool := (200 <=? status r) && (status r <=? 299).

(** [fetch] resolves with a response or rejects with a [TypeError]. *)
Inductive FetchResult :=
  | NetworkError (message : string)
  | Resp (r : Response).

Inductive ToastKind := ToastSuccess | ToastError.
Inductive ConsoleLevel := ConsoleWarn | ConsoleError.

(** Observable effects, in the order the handler performs them. *)
Inductive Event :=
  | EvFetch (rq : Request)
  | EvConfirm (prompt : string) (answer : bool)
  | EvAlert (text : string)
  | EvToast (kind : ToastKind) (text : string)
  | EvConsole (level : ConsoleLevel) (text : string)
  | EvDispatch (event : string).

Record World := mkWorld {
  log : list Event;
  localStorage : gmap string string
}.

(** The environment of the page: the resolved base URL, the backend (its
    answer may depend on everything that happened before) and the user in
    front of a [window.confirm] dialog. *)
Record Env := mkEnv {
  API_BASE_URL : string;
  net : list Event -> Request -> FetchResult;
  confirm_answer : list Event -> string -> bool
}.

(** A computation over a state [S] that may throw; effects performed before a
    throw stay performed. *)
Definition JS (S A : Type) : Type := S -> Except A * S.

Definition ret {S A} (a : A) : JS S A := fun s => (Return a, s).
Definition throw {S A} (message : string) : JS S A := fun s => (Throw message, s).
Definition bind {S A B} (m : JS S A) (k : A -> JS S B) : JS S B :=
  fun s => match m s with
           | (Return a, s') => k a s'
           | (Throw e, s') => (Throw e, s')
           end.
(** [try { m } catch (err) { h err }]. *)
Definition try_catch {S A} (m : JS S A) (h : string -> JS S A) : JS S A :=
  fun s => match m s with
           | (Return a, s') => (Return a, s')
           | (Throw e, s') => h e s'
           end.
(** [try { m } finally { f }], for a block [f] of state setters. *)
Definition finally {S A} (m : JS S A) (f : S -> S) : JS S A :=
  fun s => match m s with (r, s') => (r, f s') end.
Definition lift {S A} (r : Except A) : JS S A := fun s => (r, s).

Declare Scope js_scope.
Delimit Scope js_scope with js.
Notation "x <- m ;; k" := (bind m (fun x => k))
  (at level 100, m at next level, right associativity) : js_scope.
Notation "m ;;; k" := (bind m (fun _ => k))
  (at level 100, right associativity) : js_scope.
Local Open Scope js_scope.

(** A component handler runs over the component's React state [S] and the
    world; [in_world] runs a computation that only touches the world and
    [setState] applies a state setter. *)
Definition in_world {S A} (m : JS World A) : JS (S * World) A :=
  fun sw => match m (snd sw) with (r, w') => (r, (fst sw, w')) end.
Definition setState {S} (f : S -> S) : JS (S * World) unit :=
  fun sw => (Return tt, (f (fst sw), snd sw)).

(** A block of state setters, as the [finally] of a handler runs it. *)
Definition on_state {S} (f : S -> S) (sw : S * World) : S * World :=
  (f (fst sw), snd sw).

(** The world after one more observable effect. *)
Definition logged (e : Event) (w : World) : World :=
  {| log := log w ++ [e]; localStorage := localStorage w |}.

Definition emit (e : Event) : JS World unit :=
  fun w => (Return tt, logged e w).

Definition alert (text : string) : JS World unit := emit (EvAlert text).
Definition toast_success (text : string) : JS World unit :=
  emit (EvToast ToastSuccess text).
Definition toast_error (text : string) : JS World unit :=
  emit (EvToast ToastError text).
Definition console_warn (text : string) : JS World unit :=
  emit (EvConsole ConsoleWarn text).
Definition console_error (text : string) : JS World unit :=
  emit (EvConsole ConsoleError text).
Definition dispatchEvent (event : string) : JS World unit :=
  emit (EvDispatch event).

(** [window.confirm(prompt)]: the dialog is shown and the user answers. *)
Definition window_confirm (env : Env) (prompt : string) : JS World bool :=
  fun w =>
    let answer := confirm_answer env (log w) prompt in
    (Return answer, logged (EvConfirm prompt answer) w).

Definition localStorage_setItem (k : string) (v : JsVal) : JS World unit :=
  fun w => (Return tt,
            {| log := log w; localStorage := <[k := ToString v]> (localStorage w) |}).
Definition localStorage_removeItem (k : string) : JS World unit :=
  fun w => (Return tt,
            {| log := log w; localStorage := delete k (localStorage w) |}).

(** The requests among a list of events, oldest first. *)
Definition requests (l : list Event) : list Request :=
  omap (fun e => match e with EvFetch rq => Some rq | _ => None end) l.

(** A write to the backend. *)
Definition is_write (rq : Request) : bool :=
  match method rq with GET => false | _ => true end.

(** [v.k] and the destructuring [const { k } = v]: a [TypeError] on [null]
    and [undefined] (the message is the engine's). *)
Definition get_prop (v : JsVal) (k : string) : Except JsVal :=
  if is_nullish v
  then Throw ("Cannot read properties of " ++ ToString v ++ " (reading '" ++ k ++ "')")
  else Return (get_opt v k).

(** ** fetch *)

(** The call [fetch(url, init)] puts the request on the wire; the promise it
    returns settles later with the backend's answer. *)
Definition fetch_issue (env : Env) (rq : Request) : JS World FetchResult :=
  fun w => (Return (net env (log w) rq), logged (EvFetch rq) w).

(** [await] on the promise: the response, or the rejection thrown. *)
Definition fetch_settle (res : FetchResult) : Except Response :=
  match res with
  | NetworkError e => Throw e
  | Resp r => Return r
  end.

(** [await fetch(url, init)]. *)
Definition fetch (env : Env) (rq : Request) : JS World Response :=
  res <- fetch_issue env rq ;;
  lift (fetch_settle res).

(** ** services/api.js *)

(** [parseError]: the message carried by a failed response.  The whole body
    of the function sits in a [try]; its [catch] yields the status text. *)
Definition parseError (response : Response) : string :=
  match json response with
  | Return data =>
      match as_string (get_opt data "detail") with
      | Some detail => detail
      | None =>
          match as_string (get_opt data "error") with
          | Some error => error
          | None => JSON_stringify data
          end
      end
  | Throw _ => str_or (statusText response) "Request failed"
  end.

Module apiService.
Section WithEnv.
Variable env : Env.

Definition bearer (token : JsVal) : option string :=
  Some ("Bearer " ++ ToString token).

Definition getMe_request (token : JsVal) : Request :=
  mkRequest GET (API_BASE_URL env ++ "/auth/me") (bearer token) NoBody.
Definition getMe (token : JsVal) : JS World JsVal :=
  response <- fetch env (getMe_request token) ;;
  if negb (ok response)
  then throw (str_or (parseError response) "Failed to fetch current user")
  else lift (json response).

Definition register_request (userData : JsVal) : Request :=
  mkRequest POST (API_BASE_URL env ++ "/auth/register") None (JsonBody userData).
Definition register (userData : JsVal) : JS World JsVal :=
  response <- fetch env (register_request userData) ;;
  if negb (ok response)
  then errorData <- lift (json response) ;;
       detail <- lift (get_prop errorData "detail") ;;
       throw (ToString (js_or detail (JStr "Registration failed")))
  else lift (json response).

Definition login_request (email password : string) : Request :=
  mkRequest POST (API_BASE_URL env ++ "/auth/login") None
            (FormBody [("username", email); ("password", password)]).
Definition login (email password : string) : JS World JsVal :=
  response <- fetch env (login_request email password) ;;
  if negb (ok response)
  then throw (str_or (parseError response) "Login failed")
  else lift (json response).

Definition uploadDocument_request (formData : list (string * string))
    (token : JsVal) : Request :=
  mkRequest POST (API_BASE_URL env ++ "/files/upload") (bearer token)
            (MultipartBody formData).
Definition uploadDocument (formData : list (string * string)) (token : JsVal)
  : JS World JsVal :=
  response <- fetch env (uploadDocument_request formData token) ;;
  if negb (ok response)
  then throw (str_or (parseError response) "Document upload failed")
  else lift (json response).

Definition getFiles_request (token : JsVal) : Request :=
  mkRequest GET (API_BASE_URL env ++ "/files/") (bearer token) NoBody.
Definition getFiles (token : JsVal) : JS World JsVal :=
  response <- fetch env (getFiles_request token) ;;
  if negb (ok response)
  then throw (str_or (parseError response) "Failed to fetch files")
  else lift (json response).

Definition presignFile_request (fileId token : JsVal) : Request :=
  mkRequest GET (API_BASE_URL env ++ "/files/" ++ ToString fileId ++ "/presign")
            (bearer token) NoBody.
Definition presignFile (fileId token : JsVal) : JS World JsVal :=
  response <- fetch env (presignFile_request fileId token) ;;
  if negb (ok response)
  then throw (str_or (parseError response) "Failed to get presigned URL")
  else lift (json response).

Definition getMedicalProfile_request (token : JsVal) : Request :=
  mkRequest GET (API_BASE_URL env ++ "/profile/medical-profile") (bearer token)
            NoBody.
Definition getMedicalProfile (token : JsVal) : JS World JsVal :=
  response <- fetch env (getMedicalProfile_request token) ;;
  if status response =? 404 then ret JNull
  else if negb (ok response)
  then throw (str_or (parseError response) "Failed to fetch medical profile")
  else lift (json response).

Definition createMedicalProfile_request (profileData token : JsVal) : Request :=
  mkRequest POST (API_BASE_URL env ++ "/profile/medical-profile") (bearer token)
            (JsonBody profileData).
Definition createMedicalProfile (profileData token : JsVal) : JS World JsVal :=
  response <- fetch env (createMedicalProfile_request profileData token) ;;
  if negb (ok response)
  then throw (str_or (parseError response) "Failed to create medical profile")
  else lift (json response).

Definition updateMedicalProfile_request (profileData token : JsVal) : Request :=
  mkRequest PUT (API_BASE_URL env ++ "/profile/medical-profile") (bearer token)
            (JsonBody profileData).
Definition updateMedicalProfile (profileData token : JsVal) : JS World JsVal :=
  response <- fetch env (updateMedicalProfile_request profileData token) ;;
  if negb (ok response)
  then throw (str_or (parseError response) "Failed to update medical profile")
  else lift (json response).

Definition patchMedicalProfile_request (partialData token : JsVal) : Request :=
  mkRequest PATCH (API_BASE_URL env ++ "/profile/medical-profile") (bearer token)
            (JsonBody partialData).
Definition patchMedicalProfile (partialData token : JsVal) : JS World JsVal :=
  response <- fetch env (patchMedicalProfile_request partialData token) ;;
  if negb (ok response)
  then throw (str_or (parseError response) "Failed to patch medical profile")
  else lift (json response).

Definition getExtraction_request (fileId token : JsVal) : Request :=
  mkRequest GET (API_BASE_URL env ++ "/files/" ++ ToString fileId ++ "/extraction")
            (bearer token) NoBody.
Definition getExtraction (fileId token : JsVal) : JS World JsVal :=
  response <- fetch env (getExtraction_request fileId token) ;;
  if negb (ok response)
  then throw (str_or (parseError response) "Failed to fetch extraction")
  else lift (json response).

Definition acceptExtraction_request (fileId token payload : JsVal) : Request :=
  mkRequest POST
            (API_BASE_URL env ++ "/files/" ++ ToString fileId ++ "/extraction/accept")
            (bearer token)
            (JsonBody (if truthy payload then JObj [("payload", payload)]
                       else JObj [])).
Definition acceptExtraction (fileId token payload : JsVal) : JS World JsVal :=
  response <- fetch env (acceptExtraction_request fileId token payload) ;;
  if negb (ok response)
  then throw (str_or (parseError response) "Failed to accept extraction")
  else lift (json response).

Definition retryExtraction_request (fileId token : JsVal) : Request :=
  mkRequest POST (API_BASE_URL env ++ "/files/" ++ ToString fileId ++ "/retry")
            (bearer token) NoBody.
Definition retryExtraction (fileId token : JsVal) : JS World JsVal :=
  response <- fetch env (retryExtraction_request fileId token) ;;
  if negb (ok response)
  then throw (str_or (parseError response) "Failed to retry extraction")
  else lift (json response).

Definition deleteFile_request (fileId token : JsVal) : Request :=
  mkRequest DELETE (API_BASE_URL env ++ "/files/" ++ ToString fileId)
            (bearer token) NoBody.
Definition deleteFile (fileId token : JsVal) : JS World JsVal :=
  response <- fetch env (deleteFile_request fileId token) ;;
  if negb (ok response)
  then throw (str_or (parseError response) "Failed to delete file")
  else lift (json response).

Definition getSchedule_request (token : JsVal) : Request :=
  mkRequest GET (API_BASE_URL env ++ "/files/schedule") (bearer token) NoBody.
Definition getSchedule (token : JsVal) : JS World JsVal :=
  response <- fetch env (getSchedule_request token) ;;
  if negb (ok response)
  then throw (str_or (parseError response) "Failed to fetch schedule")
  else lift (json response).
End WithEnv.
End apiService.

(** The operations of the client, by name and arguments. *)
Inductive Operation :=
  | OpGetMe (token : JsVal)
  | OpRegister (userData : JsVal)
  | OpLogin (email password : string)
  | OpUploadDocument (formData : list (string * string)) (token : JsVal)
  | OpGetFiles (token : JsVal)
  | OpPresignFile (fileId token : JsVal)
  | OpGetMedicalProfile (token : JsVal)
  | OpCreateMedicalProfile (profileData token : JsVal)
  | OpUpdateMedicalProfile (profileData token : JsVal)
  | OpPatchMedicalProfile (partialData token : JsVal)
  | OpGetExtraction (fileId token : JsVal)
  | OpAcceptExtraction (fileId token payload : JsVal)
  | OpRetryExtraction (fileId token : JsVal)
  | OpDeleteFile (fileId token : JsVal)
  | OpGetSchedule (token : JsVal).

Definition perform (env : Env) (op : Operation) : JS World JsVal :=
  match op with
  | OpGetMe t => apiService.getMe env t
  | OpRegister u => apiService.register env u
  | OpLogin e p => apiService.login env e p
  | OpUploadDocument fd t => apiService.uploadDocument env fd t
  | OpGetFiles t => apiService.getFiles env t
  | OpPresignFile f t => apiService.presignFile env f t
  | OpGetMedicalProfile t => apiService.getMedicalProfile env t
  | OpCreateMedicalProfile p t => apiService.createMedicalProfile env p t
  | OpUpdateMedicalProfile p t => apiService.updateMedicalProfile env p t
  | OpPatchMedicalProfile p t => apiService.patchMedicalProfile env p t
  | OpGetExtraction f t => apiService.getExtraction env f t
  | OpAcceptExtraction f t p => apiService.acceptExtraction env f t p
  | OpRetryExtraction f t => apiService.retryExtraction env f t
  | OpDeleteFile f t => apiService.deleteFile env f t
  | OpGetSchedule t => apiService.getSchedule env t
  end.

Definition request_of (env : Env) (op : Operation) : Request :=
  match op with
  | OpGetMe t => apiService.getMe_request env t
  | OpRegister u => apiService.register_request env u
  | OpLogin e p => apiService.login_request env e p
  | OpUploadDocument fd t => apiService.uploadDocument_request env fd t
  | OpGetFiles t => apiService.getFiles_request env t
  | OpPresignFile f t => apiService.presignFile_request env f t
  | OpGetMedicalProfile t => apiService.getMedicalProfile_request env t
  | OpCreateMedicalProfile p t => apiService.createMedicalProfile_request env p t
  | OpUpdateMedicalProfile p t => apiService.updateMedicalProfile_request env p t
  | OpPatchMedicalProfile p t => apiService.patchMedicalProfile_request env p t
  | OpGetExtraction f t => apiService.getExtraction_request env f t
  | OpAcceptExtraction f t p => apiService.acceptExtraction_request env f t p
  | OpRetryExtraction f t => apiService.retryExtraction_request env f t
  | OpDeleteFile f t => apiService.deleteFile_request env f t
  | OpGetSchedule t => apiService.getSchedule_request env t
  end.

(** The literal each operation falls back to when [parseError] is empty. *)
Definition fallback_message (op : Operation) : string :=
  match op with
  | OpGetMe _ => "Failed to fetch current user"
  | OpRegister _ => "Registration failed"
  | OpLogin _ _ => "Login failed"
  | OpUploadDocument _ _ => "Document upload failed"
  | OpGetFiles _ => "Failed to fetch files"
  | OpPresignFile _ _ => "Failed to get presigned URL"
  | OpGetMedicalProfile _ => "Failed to fetch medical profile"
  | OpCreateMedicalProfile _ _ => "Failed to create medical profile"
  | OpUpdateMedicalProfile _ _ => "Failed to update medical profile"
  | OpPatchMedicalProfile _ _ => "Failed to patch medical profile"
  | OpGetExtraction _ _ => "Failed to fetch extraction"
  | OpAcceptExtraction _ _ _ => "Failed to accept extraction"
  | OpRetryExtraction _ _ => "Failed to retry extraction"
  | OpDeleteFile _ _ => "Failed to delete file"
  | OpGetSchedule _ => "Failed to fetch schedule"
  end.

Definition is_register (op : Operation) : bool :=
  match op with OpRegister _ => true | _ => false end.

(** ** context/AuthContext.jsx *)

Module AuthContext.

(** The provider's state: [user] and [token], both [null] initially. *)
Record State := mkState {
  user : JsVal;
  token : JsVal
}.

Definition setToken (v : JsVal) (st : State) : State :=
  {| user := user st; token := v |}.
Definition setUser (v : JsVal) (st : State) : State :=
  {| user := v; token := token st |}.

(** [login(email, password)]. *)
Definition login (env : Env) (email password : string) : JS (State * World) JsVal :=
  try_catch
    (tokenData <- in_world (apiService.login env email password) ;;
     access_token <- lift (get_prop tokenData "access_token") ;;
     userObject <-
       try_catch
         (me <- in_world (apiService.getMe env access_token) ;;
          ret (js_or me (JObj [("email", JStr email)])))
         (fun _err =>
            in_world (console_warn
              "[Auth] Unable to fetch /auth/me, using minimal user object") ;;;
            ret (JObj [("email", JStr email)])) ;;
     setState (setToken access_token) ;;;
     setState (setUser userObject) ;;;
     in_world (localStorage_setItem "token" access_token) ;;;
     let emailToStore := js_or (get_opt userObject "email") (JStr "") in
     in_world (localStorage_setItem "user" emailToStore) ;;;
     ret tokenData)
    (fun error =>
       in_world (console_error "[Auth] Login failed:") ;;;
       throw (str_or error "Login failed. Please check your credentials.")).

(** [logout()]. *)
Definition logout : JS (State * World) unit :=
  in_world (console_warn
    "[Auth] Logging out – clearing token and user from localStorage") ;;;
  setState (setToken JNull) ;;;
  setState (setUser JNull) ;;;
  in_world (localStorage_removeItem "token") ;;;
  in_world (localStorage_removeItem "user").

End AuthContext.

(** ** components/OnePageApp.jsx *)

Module OnePageApp.

Definition defaultProfile : JsVal :=
  JObj [("present_conditions", JStr ""); ("diagnosed_conditions", JStr "");
        ("medications_past", JStr ""); ("medications_current", JStr "");
        ("allergies", JStr ""); ("medical_history", JStr "");
        ("family_history", JStr ""); ("surgeries", JStr "");
        ("immunizations", JStr ""); ("lifestyle_factors", JStr "")].

(** The part of the component state that [saveProfile] reads and sets. *)
Record State := mkState {
  view : string;
  profile : JsVal;
  originalProfile : JsVal;
  busy : bool;
  profileExists : bool
}.

Definition setView (v : string) (st : State) : State :=
  mkState v (profile st) (originalProfile st) (busy st) (profileExists st).
Definition setProfile (v : JsVal) (st : State) : State :=
  mkState (view st) v (originalProfile st) (busy st) (profileExists st).
Definition setOriginalProfile (v : JsVal) (st : State) : State :=
  mkState (view st) (profile st) v (busy st) (profileExists st).
Definition setBusy (b : bool) (st : State) : State :=
  mkState (view st) (profile st) (originalProfile st) b (profileExists st).
Definition setProfileExists (b : bool) (st : State) : State :=
  mkState (view st) (profile st) (originalProfile st) (busy st) b.

(** [Object.keys(v)]: a [TypeError] on [null] and [undefined]. *)
Definition Object_keys (v : JsVal) : Except (list string) :=
  if is_nullish v then Throw "Cannot convert undefined or null to object"
  else Return (map fst (own_props v)).

(** The [forEach] over the keys of [profile], threading the object [changes]
    it fills: [if (profile[k] !== originalProfile[k]) changes[k] = profile[k]]. *)
Fixpoint collect_changes (keys : list string) (profile originalProfile : JsVal)
    (changes : list (string * JsVal)) : Except (list (string * JsVal)) :=
  match keys with
  | [] => Return changes
  | k :: rest =>
      match get_prop profile k with
      | Throw e => Throw e
      | Return edited =>
          match get_prop originalProfile k with
          | Throw e => Throw e
          | Return original =>
              collect_changes rest profile originalProfile
                (if negb (strict_eq edited original)
                 then obj_set changes k edited else changes)
          end
      end
  end.

(** [profile[k] !== originalProfile[k]] on two objects. *)
Definition differs (profile originalProfile : JsVal) (k : string) : bool :=
  negb (strict_eq (get_opt profile k) (get_opt originalProfile k)).

(** One round of the callback when neither read throws. *)
Definition record_change (profile originalProfile : JsVal)
    (changes : list (string * JsVal)) (k : string) : list (string * JsVal) :=
  if differs profile originalProfile k
  then obj_set changes k (get_opt profile k) else changes.

Definition changed_fields (profile originalProfile : JsVal)
  : Except (list (string * JsVal)) :=
  match Object_keys profile with
  | Throw e => Throw e
  | Return keys => collect_changes keys profile originalProfile []
  end.

(** [saveProfile], run with the [token] of the auth context and the state the
    handler closed over. *)
Definition saveProfile (env : Env) (token : JsVal) : JS (State * World) unit :=
  fun sw =>
    let st := fst sw in
    (if negb (truthy token) then in_world (toast_error "Sign in first")
     else
       setState (setBusy true) ;;;
       finally
         (try_catch
            ((if negb (profileExists st)
              then _ <- in_world (apiService.createMedicalProfile env (profile st) token) ;;
                   ret tt
              else changes <- lift (changed_fields (profile st) (originalProfile st)) ;;
                   if (0 <? length changes)%nat
                   then _ <- in_world (apiService.patchMedicalProfile env (JObj changes) token) ;;
                        ret tt
                   else ret tt) ;;;
             pf <- in_world (apiService.getMedicalProfile env token) ;;
             setState (setProfile (js_or pf defaultProfile)) ;;;
             setState (setOriginalProfile (js_or pf defaultProfile)) ;;;
             setState (setProfileExists (truthy pf)) ;;;
             in_world (toast_success "Profile saved") ;;;
             setState (setView "profile"))
            (fun err => in_world (toast_error (str_or err "Save failed"))))
         (on_state (setBusy false))) sw.

End OnePageApp.

(** ** components/Views.jsx *)

Module Views.

(** A record of the files list, as the rows read it. *)
Record File := mkFile {
  id : JsVal;
  filename : JsVal;
  display_name : JsVal;
  upload_date : JsVal;
  status : JsVal;
  s3_url : JsVal
}.

(** [UploadsView]: the files array it was handed (the handlers change it in
    place) and its per-row busy flags, objects keyed by the row's id. *)
Record UploadsState := mkUploads {
  filesList : list File;
  loadingMap : gmap string bool;
  reviewMap : gmap string bool;
  busyMap : gmap string bool;
  retryBusy : gmap string bool
}.

Definition setFilesList (v : list File) (st : UploadsState) : UploadsState :=
  mkUploads v (loadingMap st) (reviewMap st) (busyMap st) (retryBusy st).
Definition setBusyMap (f : gmap string bool -> gmap string bool)
    (st : UploadsState) : UploadsState :=
  mkUploads (filesList st) (loadingMap st) (reviewMap st) (f (busyMap st))
            (retryBusy st).
Definition setRetryBusy (f : gmap string bool -> gmap string bool)
    (st : UploadsState) : UploadsState :=
  mkUploads (filesList st) (loadingMap st) (reviewMap st) (busyMap st)
            (f (retryBusy st)).

(** [!!m[f.id]]. *)
Definition flag (m : gmap string bool) (f : File) : bool :=
  default false (m !! ToString (id f)).

Inductive Action := View | ReviewAccept | Retry | Delete.

Record Button := mkButton {
  action : Action;
  label : string;
  disabled : bool
}.

(** The action buttons of one row of the list, left to right. *)
Definition row_buttons (st : UploadsState) (f : File) : list Button :=
  [mkButton View (if flag (loadingMap st) f then "Opening…" else "View")
            (flag (loadingMap st) f)]
  ++ (if negb (strict_eq (status f) (JStr "accepted"))
      then [mkButton ReviewAccept
                     (if flag (reviewMap st) f then "Reviewing…" else "Review/Accept")
                     (flag (reviewMap st) f)]
      else [])
  ++ (if negb (strict_eq (status f) (JStr "accepted"))
      then [mkButton Retry
                     (if flag (retryBusy st) f then "Retrying…" else "Retry")
                     (flag (retryBusy st) f)]
      else [])
  ++ [mkButton Delete (if flag (busyMap st) f then "Deleting…" else "Delete")
               (flag (busyMap st) f)].

Definition actions (bs : list Button) : list Action := map action bs.

(** [refreshList]: refetch the files and ask the page to reload its list;
    every failure is swallowed. *)
Definition refreshList (env : Env) (token : JsVal) : JS World JsVal :=
  try_catch
    (files <- apiService.getFiles env token ;;
     dispatchEvent "refresh-files" ;;;
     ret files)
    (fun _err => ret JNull).

Definition is_digit (c : ascii) : bool :=
  let n := N_of_ascii c in ((48 <=? n) && (n <=? 57))%N.

(** The longest run of digits a string starts with, and what follows it. *)
Fixpoint span_digits (s : string) : string * string :=
  match s with
  | String c rest =>
      if is_digit c
      then let '(ds, tl) := span_digits rest in (String c ds, tl)
      else (EmptyString, s)
  | EmptyString => (EmptyString, EmptyString)
  end.

Definition lower (c : ascii) : ascii :=
  let n := N_of_ascii c in
  if ((65 <=? n) && (n <=? 90))%N then ascii_of_N (n + 32) else c.

(** [s] starts with [pat], letters compared without case. *)
Fixpoint prefix_ci (pat s : string) : bool :=
  match pat, s with
  | EmptyString, _ => true
  | String p pat', String c s' =>
      Ascii.eqb (lower p) (lower c) && prefix_ci pat' s'
  | String _ _, EmptyString => false
  end.

(** Group 1 of [/([0-9]+) seconds/gi.exec(msg)] on a fresh regular expression:
    the leftmost position where digits are followed by [" seconds"].  The
    digits are taken greedily; giving some back cannot help, because what
    follows a shorter run is a digit and not the space. *)
Fixpoint exec_seconds (msg : string) : option string :=
  match msg with
  | EmptyString => None
  | String _ rest =>
      let '(digits, tl) := span_digits msg in
      if negb (String.eqb digits "") && prefix_ci " seconds" tl
      then Some digits
      else exec_seconds rest
  end.

(** What the [catch] of the retry handler shows for an error message. *)
Definition retry_failure_text (message : string) : string :=
  let msg := str_or message "" in
  match exec_seconds msg with
  | Some m1 =>
      if truthy (JStr m1)
      then "Please wait ~" ++ m1 ++ "s before retrying again."
      else str_or msg "Retry failed"
  | None => str_or msg "Retry failed"
  end.

(** The click handler of a row's Retry button. *)
Definition onRetry (env : Env) (token : JsVal) (f : File)
  : JS (UploadsState * World) unit :=
  setState (setRetryBusy (insert (ToString (id f)) true)) ;;;
  finally
    (try_catch
       (_ <- in_world (apiService.retryExtraction env (id f) token) ;;
        _ <- in_world (refreshList env token) ;;
        in_world (alert
          "Retry requested. The extraction has been re-run; open Review to check the new result."))
       (fun err => in_world (alert (retry_failure_text err))))
    (on_state (setRetryBusy (insert (ToString (id f)) false))).

(** [filesList.splice(idx, 1)] at the first row whose id is [f.id]. *)
Fixpoint remove_row (f : File) (rows : list File) : list File :=
  match rows with
  | [] => []
  | x :: rest => if strict_eq (id x) (id f) then rest else x :: remove_row f rest
  end.

(** The click handler of a row's Delete button. *)
Definition onDelete (env : Env) (token : JsVal) (f : File)
  : JS (UploadsState * World) unit :=
  confirmed <- in_world (window_confirm env
    "Delete this document and its data? This cannot be undone.") ;;
  if negb confirmed then ret tt
  else
    setState (setBusyMap (insert (ToString (id f)) true)) ;;;
    finally
      (try_catch
         (_ <- in_world (apiService.deleteFile env (id f) token) ;;
          setState (fun st => setFilesList (remove_row f (filesList st)) st) ;;;
          _ <- in_world (refreshList env token) ;;
          ret tt)
         (fun err => in_world (alert (str_or err "Delete failed"))))
      (on_state (setBusyMap (insert (ToString (id f)) false))).

(** *** ChatView *)

(** A transcript entry (its [id], a clock reading plus a random number used
    as React key, is left out). *)
Record ChatMessage := mkMessage {
  role : string;
  content : JsVal
}.

(** [text] and [sending], the state of [ChatView] itself: it lasts as long
    as the view is mounted. *)
Record ChatLocal := mkLocal {
  text : string;
  sending : bool
}.

Definition setText (v : string) (l : ChatLocal) : ChatLocal :=
  mkLocal v (sending l).
Definition setSending (b : bool) (l : ChatLocal) : ChatLocal :=
  mkLocal (text l) b.

(** What [setMessages] is called with.  React keeps the argument and runs it
    when it next renders the page, after the handler that made the call. *)
Inductive Updater :=
  | AppendEntry (entry : ChatMessage)
    (** [m => [...m, entry]] *)
  | AppendReply (data : JsVal)
    (** [m => [...m, { role: 'assistant', content: data.reply }]]: [data.reply]
        is read when the updater runs *)
  | Replace (m : list ChatMessage).
    (** a plain value *)

Definition run_updater (u : Updater) (m : list ChatMessage)
  : Except (list ChatMessage) :=
  match u with
  | AppendEntry entry => Return (m ++ [entry])%list
  | AppendReply data =>
      match get_prop data "reply" with
      | Throw e => Throw e
      | Return reply => Return (m ++ [mkMessage "assistant" reply])%list
      end
  | Replace m' => Return m'
  end.

Fixpoint run_queue (q : list Updater) (m : list ChatMessage)
  : Except (list ChatMessage) :=
  match q with
  | [] => Return m
  | u :: rest =>
      match run_updater u m with
      | Throw e => Throw e
      | Return m' => run_queue rest m'
      end
  end.

(** The chat as the page and the pane hold it together:
    - [messages]: [chatMessages] of [OnePageApp], as last rendered;
    - [queue]: the [setMessages] calls React has not run yet;
    - [pane]: the state of the mounted [ChatView]; the page renders the view
      only while [view === 'chat'], and every mounting starts from
      [useState('')] and [useState(false)];
    - [mounting]: how many times the view has been mounted;
    - [in_flight]: the calls of [send] suspended at their [await], each with
      the mounting that made it (whose [setSending] it holds) and with what
      its request settles with. *)
Record ChatState := mkChat {
  messages : list ChatMessage;
  queue : list Updater;
  pane : option ChatLocal;
  mounting : nat;
  in_flight : list (nat * FetchResult)
}.

(** [setMessages(u)]. *)
Definition setMessages (u : Updater) (st : ChatState) : ChatState :=
  mkChat (messages st) (queue st ++ [u]) (pane st) (mounting st) (in_flight st).
(** A setter of the mounted view. *)
Definition on_pane (f : ChatLocal -> ChatLocal) (st : ChatState) : ChatState :=
  mkChat (messages st) (queue st) (f <$> pane st) (mounting st) (in_flight st).
(** A setter held by a call made under mounting [i]: it sets nothing once
    that mounting is gone. *)
Definition on_mounting (i : nat) (f : ChatLocal -> ChatLocal) (st : ChatState)
  : ChatState :=
  if Nat.eqb (mounting st) i then on_pane f st else st.
Definition suspend (i : nat) (res : FetchResult) (st : ChatState) : ChatState :=
  mkChat (messages st) (queue st) (pane st) (mounting st)
         (in_flight st ++ [(i, res)]).
Definition resume (k : nat) (st : ChatState) : ChatState :=
  mkChat (messages st) (queue st) (pane st) (mounting st)
         (delete k (in_flight st)).

(** The render that follows a handler: React runs the queued updaters in
    order on [chatMessages].  What an updater throws is thrown by the render,
    outside every handler, and nothing of that render is kept. *)
Definition render : JS (ChatState * World) unit :=
  fun sw =>
    let st := fst sw in
    match run_queue (queue st) (messages st) with
    | Throw e => (Throw e, sw)
    | Return m =>
        (Return tt,
         (mkChat m [] (pane st) (mounting st) (in_flight st), snd sw))
    end.

Definition chat_request (env : Env) (token : JsVal) (message : string) : Request :=
  mkRequest POST (API_BASE_URL env ++ "/chat/")
            (Some ("Bearer " ++ ToString token))
            (JsonBody (JObj [("message", JStr message)])).

(** [send] up to its first [await], in the mounted view [l]: the guard, the
    user entry, and the request put on the wire.  [None] when the guard
    returned. *)
Definition send_start (env : Env) (token : JsVal) (l : ChatLocal)
  : JS (ChatState * World) (option FetchResult) :=
  if String.eqb (text l) "" || negb (truthy token) then ret None
  else
    setState (setMessages (AppendEntry (mkMessage "user" (JStr (text l))))) ;;;
    setState (on_pane (setText "")) ;;;
    setState (on_pane (setSending true)) ;;;
    res <- in_world (fetch_issue env (chat_request env token (text l))) ;;
    ret (Some res).

(** The rest of a call of [send] made under mounting [i], once its request
    has settled with [res]. *)
Definition send_settle (i : nat) (res : FetchResult)
  : JS (ChatState * World) unit :=
  finally
    (try_catch
       (response <- lift (fetch_settle res) ;;
        if negb (ok response) then throw "Chat request failed"
        else
          data <- lift (json response) ;;
          setState (setMessages (AppendReply data)))
       (fun _err =>
          setState (setMessages
            (AppendEntry
               (mkMessage "assistant" (JStr "Error: could not get response"))))))
    (on_state (on_mounting i (setSending false))).

(** [send] in a view that stays mounted until its request has settled: the
    call up to the [await], the render, the rest of the call, the render. *)
Definition send (env : Env) (token : JsVal) : JS (ChatState * World) unit :=
  fun sw =>
    match pane (fst sw) with
    | None => (Return tt, sw)
    | Some l =>
        (pending <- send_start env token l ;;
         render ;;;
         match pending with
         | None => ret tt
         | Some res => send_settle (mounting (fst sw)) res ;;; render
         end) sw
    end.

(** The Send button's [disabled={sending}]. *)
Definition send_disabled (l : ChatLocal) : bool := sending l.

(** A click on the Send button of the mounted view: a disabled button runs
    no handler; else [send] runs up to its [await], where the call is
    suspended, and the page renders. *)
Definition click_send (env : Env) (token : JsVal) : JS (ChatState * World) unit :=
  fun sw =>
    match pane (fst sw) with
    | None => (Return tt, sw)
    | Some l =>
        if send_disabled l then (Return tt, sw)
        else
          (pending <- send_start env token l ;;
           match pending with
           | None => ret tt
           | Some res => setState (suspend (mounting (fst sw)) res)
           end ;;;
           render) sw
    end.

(** The request of the suspended call at position [k] settles: the call runs
    to its end and the page renders. *)
Definition settle (k : nat) : JS (ChatState * World) unit :=
  fun sw =>
    match in_flight (fst sw) !! k with
    | None => (Return tt, sw)
    | Some (i, res) => (setState (resume k) ;;; send_settle i res ;;; render) sw
    end.

(** [setView(v)] of the page, as far as the chat goes: the view is mounted
    afresh when [v] becomes ['chat'] and unmounted when it becomes anything
    else. *)
Definition setView (v : string) (st : ChatState) : ChatState :=
  if String.eqb v "chat"
  then match pane st with
       | Some _ => st
       | None => mkChat (messages st) (queue st) (Some (mkLocal "" false))
                        (S (mounting st)) (in_flight st)
       end
  else mkChat (messages st) (queue st) None (mounting st) (in_flight st).

(** The floating chat button: [setView(v => v === 'chat' ? 'upload' : 'chat')];
    the view is ['chat'] exactly while the pane is mounted. *)
Definition toggleChat (st : ChatState) : ChatState :=
  match pane st with
  | Some _ => setView "upload" st
  | None => setView "chat" st
  end.

(** The Clear button of the chat card. *)
Definition clearChat (env : Env) : JS (ChatState * World) unit :=
  fun sw =>
    match pane (fst sw) with
    | None => (Return tt, sw)
    | Some _ =>
        (if (length (messages (fst sw)) =? 0)%nat then ret tt
         else
           confirmed <- in_world (window_confirm env "Clear chat history?") ;;
           if confirmed
           then setState (setMessages (Replace [])) ;;; render
           else ret tt) sw
    end.

(** What happens to the chat: the user types, clicks Send, changes the view,
    clicks the floating button or Clear, or a request settles. *)
Inductive ChatEvent :=
  | Typing (typed : string)
  | ClickSend
  | SetView (v : string)
  | ToggleChat
  | ClearChat
  | Settle (k : nat).

Definition act (env : Env) (token : JsVal) (a : ChatEvent)
  : JS (ChatState * World) unit :=
  match a with
  | Typing typed => setState (on_pane (setText typed))
  | ClickSend => click_send env token
  | SetView v => setState (setView v)
  | ToggleChat => setState toggleChat
  | ClearChat => clearChat env
  | Settle k => settle k
  end.

Fixpoint run (env : Env) (token : JsVal) (events : list ChatEvent)
  : JS (ChatState * World) unit :=
  match events with
  | [] => ret tt
  | a :: rest => act env token a ;;; run env token rest
  end.

(** The chat of a page that has just loaded, before the first render of a
    view. *)
Definition initial_chat : ChatState := mkChat [] [] None 0 [].

End Views.

(** ** The claims of the specification, in its own words *)

(** The message the specification gives a failed response: [detail] if it is
    a string, else [error] if it is a string, else the status text. *)
Definition claimed_message (r : Response) : string :=
  match json r with
  | Return data =>
      match as_string (get_opt data "detail") with
      | Some detail => detail
      | None =>
          match as_string (get_opt data "error") with
          | Some error => error
          | None => statusText r
          end
      end
  | Throw _ => statusText r
  end.

(** The two entries a send adds for the text typed: the user's, and the
    assistant's fixed fallback. *)
Definition user_entry (typed : string) : Views.ChatMessage :=
  Views.mkMessage "user" (JStr typed).
Definition fallback_entry : Views.ChatMessage :=
  Views.mkMessage "assistant" (JStr "Error: could not get response").

(** A request sent from the chat view as it is mounted now is still in
    flight. *)
Definition own_request_in_flight (st : Views.ChatState) : Prop :=
  Views.mounting st ∈ (Views.in_flight st).*1.

(** The chat view is mounted and its input is empty. *)
Definition input_empty (st : Views.ChatState) : Prop :=
  exists l, Views.pane st = Some l /\ Views.text l = "".

(** Between two events the chat is coherent: no update is waiting for a
    render, no mounting has two calls in flight, no call comes from a mounting
    yet to be, and the mounted view has [sending] up exactly while a call of
    its own is in flight. *)
Definition coherent (st : Views.ChatState) : Prop :=
  Views.queue st = [] /\
  NoDup (Views.in_flight st).*1 /\
  Forall (fun i => (i <= Views.mounting st)%nat) (Views.in_flight st).*1 /\
  forall l, Views.pane st = Some l ->
    (Views.sending l = true <-> own_request_in_flight st).

Fixpoint all_digits (s : string) : bool :=
  match s with
  | EmptyString => true
  | String c rest => Views.is_digit c && all_digits rest
  end.

(** The seconds count [n] stands in [msg] after [before]: a non-empty run of
    digits followed by a space and the word [seconds], in any letter case. *)
Definition seconds_count_at (msg before n after : string) : Prop :=
  msg = before ++ n ++ after /\ n <> "" /\ all_digits n = true /\
  Views.prefix_ci " seconds" after = true.

(** A message contains the seconds count [n]. *)
Definition seconds_count (msg n : string) : Prop :=
  exists before after, seconds_count_at msg before n after.

(** [n] is the leftmost seconds count of the message. *)
Definition first_seconds_count (msg n : string) : Prop :=
  exists before after,
    seconds_count_at msg before n after /\
    forall before' n' after',
      seconds_count_at msg before' n' after' ->
      (String.length before <= String.length before')%nat.

(** The question of the delete dialog. *)
Definition delete_prompt : string :=
  "Delete this document and its data? This cannot be undone.".

(** ** Sample pages *)

Definition empty_world : World := mkWorld [] ∅.

(** A backend that gives every request the same answer, and a user who
    accepts every dialog. *)
Definition always (res : FetchResult) : Env :=
  mkEnv "http://localhost:8000" (fun _ _ => res) (fun _ _ => true).

(** A backend that answers by method. *)
Definition by_method (answer : Method -> FetchResult) : Env :=
  mkEnv "http://localhost:8000" (fun _ rq => answer (method rq)) (fun _ _ => true).

Definition not_found : Response :=
  mkResponse 404 "Not Found" (Return (JObj [("detail", JStr "Medical profile not found")])).
Definition server_error : Response :=
  mkResponse 500 "Internal Server Error" (Throw "Unexpected token I in JSON at position 0").
(** A validation failure: [detail] is a list, not a string. *)
Definition unprocessable : Response :=
  mkResponse 422 "Unprocessable Entity"
    (Return (JObj [("detail", JArr [JObj [("msg", JStr "field required")]])])).
Definition sample_profile : JsVal :=
  JObj [("id", JNum 7); ("allergies", JStr "penicillin"); ("surgeries", JNull)].
Definition profile_found : Response := mkResponse 200 "OK" (Return sample_profile).

Definition unauthorized : Response :=
  mkResponse 401 "Unauthorized" (Return (JObj [("detail", JStr "Incorrect email or password")])).
Definition token_body : JsVal :=
  JObj [("access_token", JStr "abc"); ("token_type", JStr "bearer")].
(** A backend that accepts the credentials and then drops the connection. *)
Definition login_then_offline : Env :=
  by_method (fun m => match m with
                      | POST => Resp (mkResponse 200 "OK" (Return token_body))
                      | _ => NetworkError "Failed to fetch"
                      end).
Definition signed_out : AuthContext.State := AuthContext.mkState JNull JNull.

(** The edit view open on a loaded profile with nothing edited, and with
    one field edited. *)
Definition unedited : OnePageApp.State :=
  OnePageApp.mkState "edit-medical" sample_profile sample_profile false true.
Definition edited_profile : JsVal :=
  JObj [("id", JNum 7); ("allergies", JStr "penicillin, latex"); ("surgeries", JNull)].
Definition edited : OnePageApp.State :=
  OnePageApp.mkState "edit-medical" edited_profile sample_profile false true.
Definition first_save : OnePageApp.State :=
  OnePageApp.mkState "edit-medical" edited_profile OnePageApp.defaultProfile false false.

(** The chat pane with [Hello] typed, and a backend replying [Hi there]. *)
Definition hello_typed : Views.ChatState :=
  Views.mkChat [] [] (Some (Views.mkLocal "Hello" false)) 1 [].
(** A backend whose answer to the chat has the body [null]. *)
Definition null_body : Response := mkResponse 200 "OK" (Return JNull).
Definition hi_there : Response :=
  mkResponse 200 "OK" (Return (JObj [("reply", JStr "Hi there")])).

(** An uploaded file awaiting review, and the same file once accepted. *)
Definition rx_pending : Views.File :=
  Views.mkFile (JNum 3) (JStr "rx.pdf") JNull (JStr "2025-01-01T10:00:00")
               (JStr "awaiting_review") JNull.
Definition rx_accepted : Views.File :=
  Views.mkFile (JNum 3) (JStr "rx.pdf") JNull (JStr "2025-01-01T10:00:00")
               (JStr "accepted") JNull.
Definition uploads_idle : Views.UploadsState :=
  Views.mkUploads [rx_pending] ∅ ∅ ∅ ∅.
(** The backend refusing a retry during the cooldown. *)
Definition cooldown : Response :=
  mkResponse 429 "Too Many Requests"
    (Return (JObj [("detail", JStr "Retry cooldown active. Try again in 30 seconds.")])).
(** A user who declines every dialog. *)
Definition declining (res : FetchResult) : Env :=
  mkEnv "http://localhost:8000" (fun _ _ => res) (fun _ _ => false).

(** The token an operation is called with; [register] and [login] have
    none. *)
Definition token_of (op : Operation) : option JsVal :=
  match op with
  | OpRegister _ | OpLogin _ _ => None
  | OpGetMe t | OpUploadDocument _ t | OpGetFiles t | OpPresignFile _ t
  | OpGetMedicalProfile t | OpCreateMedicalProfile _ t
  | OpUpdateMedicalProfile _ t | OpPatchMedicalProfile _ t
  | OpGetExtraction _ t | OpAcceptExtraction _ t _ | OpRetryExtraction _ t
  | OpDeleteFile _ t | OpGetSchedule t => Some t
  end.

(** ** More of services/api.js: the base URL *)

(** WhiteSpace and LineTerminator among the code units below 256: tab, line
    feed, vertical tab, form feed, carriage return, space, no-break space. *)
Definition is_whitespace (c : ascii) : bool :=
  let n := N_of_ascii c in
  ((9 <=? n) && (n <=? 13) || (n =? 32) || (n =? 160))%N.

Fixpoint trimStart (s : string) : string :=
  match s with
  | EmptyString => EmptyString
  | String c rest => if is_whitespace c then trimStart rest else s
  end.

Fixpoint trimEnd (s : string) : string :=
  match s with
  | EmptyString => EmptyString
  | String c rest =>
      match trimEnd rest with
      | EmptyString => if is_whitespace c then EmptyString else String c EmptyString
      | String c' rest' => String c (String c' rest')
      end
  end.

(** [s.trim()]. *)
Definition trim (s : string) : string := trimEnd (trimStart s).

(** [s.startsWith(pat)]. *)
Fixpoint startsWith (pat s : string) : bool :=
  match pat, s with
  | EmptyString, _ => true
  | String p pat', String c s' => Ascii.eqb p c && startsWith pat' s'
  | String _ _, EmptyString => false
  end.

(** toLowerCase and toUpperCase on one code unit below 256: the letters A-Z
    and the Latin-1 capitals (192..222 but the multiplication sign) move by 32;
    small sharp s, y with diaeresis and the micro sign have no capital below
    256 and are left as they are by this embedding. *)
Definition lower_unit (c : ascii) : ascii :=
  let n := N_of_ascii c in
  if ((65 <=? n) && (n <=? 90) || (192 <=? n) && (n <=? 222) && negb (n =? 215))%N
  then ascii_of_N (n + 32) else c.
Definition upper_unit (c : ascii) : ascii :=
  let n := N_of_ascii c in
  if ((97 <=? n) && (n <=? 122) || (224 <=? n) && (n <=? 254) && negb (n =? 247))%N
  then ascii_of_N (n - 32) else c.

Fixpoint map_units (f : ascii -> ascii) (s : string) : string :=
  match s with
  | EmptyString => EmptyString
  | String c rest => String (f c) (map_units f rest)
  end.

Definition toLowerCase : string -> string := map_units lower_unit.
Definition toUpperCase : string -> string := map_units upper_unit.

(** [localStorage.getItem(k)]: the entry, or [null]. *)
Definition localStorage_getItem (k : string) : JS World JsVal :=
  fun w => (Return (match localStorage w !! k with
                    | Some v => JStr v
                    | None => JNull
                    end), w).

Module ApiConfig.

(** [parseEnvApi(val)], with [null] as [None]. *)
Definition parseEnvApi (val : JsVal) : option string :=
  if negb (truthy val) then None
  else
    let v := trim (ToString val) in
    if String.eqb v "" || String.eqb (toLowerCase v) "auto" then None
    else if startsWith "http://" v || startsWith "https://" v then Some v
    else Some ("http://" ++ v).

(** [window.location], when the module is loaded in a browser. *)
Record Location := mkLocation {
  hostname : string;
  protocol : string
}.

(** [s.replace(':', '')]: the first colon is dropped. *)
Fixpoint drop_first_colon (s : string) : string :=
  match s with
  | EmptyString => EmptyString
  | String c rest =>
      if Ascii.eqb c ":" then rest else String c (drop_first_colon rest)
  end.

Definition host (location : option Location) : string :=
  match location with
  | Some l => if String.eqb (hostname l) "" then "localhost" else hostname l
  | None => "localhost"
  end.

Definition protocol_name (location : option Location) : string :=
  match location with
  | Some l =>
      if String.eqb (protocol l) "" then "http" else drop_first_colon (protocol l)
  | None => "http"
  end.

(** [import.meta.env.VITE_API_PORT || '8000']. *)
Definition defaultBackendPort (VITE_API_PORT : JsVal) : JsVal :=
  js_or VITE_API_PORT (JStr "8000").

(** The constant [API_BASE_URL], from the two environment variables and the
    location of the page. *)
Definition resolve_API_BASE_URL (rawEnvApi VITE_API_PORT : JsVal)
    (location : option Location) : string :=
  let derived :=
    protocol_name location ++ "://" ++ host location ++ ":"
      ++ ToString (defaultBackendPort VITE_API_PORT) in
  match parseEnvApi rawEnvApi with
  | Some configured => str_or configured derived
  | None => derived
  end.

End ApiConfig.

(** ** More of context/AuthContext.jsx: the provider's first effect *)

Module AuthProvider.

(** The state of [AuthProvider]: the session of the context and [loading]. *)
Record State := mkState {
  session : AuthContext.State;
  loading : bool
}.

Definition setSession (f : AuthContext.State -> AuthContext.State) (st : State)
  : State :=
  mkState (f (session st)) (loading st).
Definition setLoading (b : bool) (st : State) : State :=
  mkState (session st) b.

(** What a provider starts with when the page loads. *)
Definition initial : State := mkState (AuthContext.mkState JNull JNull) true.

(** [isAuthenticated: !!token]. *)
Definition isAuthenticated (st : AuthContext.State) : bool :=
  truthy (AuthContext.token st).

(** [typeof v === 'object']. *)
Definition typeof_object (v : JsVal) : bool :=
  match v with JNull | JArr _ | JObj _ => true | _ => false end.

(** The effect run once on mount: restore a persisted session.  [JSON_parse]
    is [JSON.parse] of the engine, which throws on text that is not JSON. *)
Definition restore (JSON_parse : string -> Except JsVal)
  : JS (State * World) unit :=
  storedToken <- in_world (localStorage_getItem "token") ;;
  storedUser <- in_world (localStorage_getItem "user") ;;
  (if truthy storedToken && truthy storedUser
   then
     setState (setSession (AuthContext.setToken storedToken)) ;;;
     try_catch
       (emailOnly <-
          try_catch
            (parsed <- lift (JSON_parse (ToString storedUser)) ;;
             if truthy parsed && typeof_object parsed
             then ret (get_opt parsed "email")
             else ret parsed)
            (fun _err => ret storedUser) ;;
        setState (setSession (AuthContext.setUser
          (if truthy emailOnly then JObj [("email", emailOnly)] else JNull))))
       (fun _err => setState (setSession (AuthContext.setUser JNull)))
   else ret tt) ;;;
  setState (setLoading false).

(** A page reload: the provider starts over on the same [localStorage]. *)
Definition reload (JSON_parse : string -> Except JsVal) (w : World)
  : Except unit * (State * World) :=
  restore JSON_parse (initial, w).

End AuthProvider.

(** ** More of components/OnePageApp.jsx *)

(** The digits of a string, as [value.replace(/[^0-9]/g, '')] keeps them. *)
Fixpoint keep_digits (s : string) : string :=
  match s with
  | EmptyString => EmptyString
  | String c rest =>
      if Views.is_digit c then String c (keep_digits rest) else keep_digits rest
  end.

(** The number a string of decimal digits denotes. *)
Definition digits_value (s : string) : Z :=
  fold_left (fun acc c => 10 * acc + (Z.of_N (N_of_ascii c) - 48))
            (list_ascii_of_string s) 0.

(** The integer that the double nearest to [n] holds, for [n] not negative:
    [n] itself below 2^53; from there on the 53 leading bits of [n], rounded
    to nearest with ties to even, times the power of two that was cut off.
    [None] from 2^1024 on, where the double is [Infinity]. *)
Definition round_to_double (n : Z) : option Z :=
  if n <? 2 ^ 53 then Some n
  else
    let e := Z.log2 n - 52 in
    let q := n / 2 ^ e in
    let r := n mod 2 ^ e in
    let half := 2 ^ (e - 1) in
    let q' := if (half <? r) || ((r =? half) && Z.odd q) then q + 1 else q in
    if q' * 2 ^ e <? 2 ^ 1024 then Some (q' * 2 ^ e) else None.

(** [Number(s)] for the strings the age input can hold, which are strings of
    digits (see [keep_digits]): the double nearest to the number written.
    [Infinity], which an age of 309 digits or more gives, has no value among
    [JsVal]; it stands as [null], which is what [JSON.stringify] writes for
    it in the body of the request.  Any text that is not all digits is
    outside the embedding and stands as [null] too. *)
Definition Number_of_digits (s : string) : JsVal :=
  if all_digits s
  then match round_to_double (digits_value s) with
       | Some d => JNum d
       | None => JNull
       end
  else JNull.

Module OnePage.

(** The fields of the sign-in and registration forms. *)
Record Form := mkForm {
  authTab : string;
  email : string;
  password : string;
  name : string;
  age : string;
  gender : string;
  phone : string
}.

(** The upload form: the chosen file (its handle), or [null], and the
    optional display name. *)
Record Upload := mkUpload {
  file : option string;
  fileName : string
}.

(** What the page loads from the backend. *)
Record Loaded := mkLoaded {
  me : JsVal;
  filesList : JsVal;
  loadingProfile : bool
}.

(** The state of [OnePageApp]: the part [saveProfile] works on, the forms,
    the loaded data and the chat transcript. *)
Record State := mkState {
  core : OnePageApp.State;
  form : Form;
  upload : Upload;
  loaded : Loaded;
  chatMessages : list Views.ChatMessage
}.

Definition on_core (f : OnePageApp.State -> OnePageApp.State) (st : State) : State :=
  mkState (f (core st)) (form st) (upload st) (loaded st) (chatMessages st).
Definition on_form (f : Form -> Form) (st : State) : State :=
  mkState (core st) (f (form st)) (upload st) (loaded st) (chatMessages st).
Definition on_upload (f : Upload -> Upload) (st : State) : State :=
  mkState (core st) (form st) (f (upload st)) (loaded st) (chatMessages st).
Definition on_loaded (f : Loaded -> Loaded) (st : State) : State :=
  mkState (core st) (form st) (upload st) (f (loaded st)) (chatMessages st).

Definition setAuthTab (v : string) (f : Form) : Form :=
  mkForm v (email f) (password f) (name f) (age f) (gender f) (phone f).
Definition setAge (v : string) (f : Form) : Form :=
  mkForm (authTab f) (email f) (password f) (name f) v (gender f) (phone f).
Definition setFile (v : option string) (u : Upload) : Upload :=
  mkUpload v (fileName u).
Definition setFileName (v : string) (u : Upload) : Upload :=
  mkUpload (file u) v.
Definition setMe (v : JsVal) (l : Loaded) : Loaded :=
  mkLoaded v (filesList l) (loadingProfile l).
Definition setFilesList (v : JsVal) (l : Loaded) : Loaded :=
  mkLoaded (me l) v (loadingProfile l).
Definition setLoadingProfile (b : bool) (l : Loaded) : Loaded :=
  mkLoaded (me l) (filesList l) b.

(** The age input: [onChange] keeps the digits of what was typed. *)
Definition onAgeChange (typed : string) (st : State) : State :=
  on_form (setAge (keep_digits typed)) st.

(** The handlers that call into the auth context run over the page state and
    the context's state. *)
Definition with_auth {A} (m : JS (AuthContext.State * World) A)
  : JS ((State * AuthContext.State) * World) A :=
  fun sw =>
    match m (snd (fst sw), snd sw) with
    | (r, (a', w')) => (r, ((fst (fst sw), a'), w'))
    end.
Definition on_page (f : State -> State) (s : State * AuthContext.State)
  : State * AuthContext.State :=
  (f (fst s), snd s).

(** [doLogin]. *)
Definition doLogin (env : Env) : JS ((State * AuthContext.State) * World) unit :=
  fun sw =>
    let f := form (fst (fst sw)) in
    (setState (on_page (on_core (OnePageApp.setBusy true))) ;;;
     finally
       (try_catch
          (_ <- with_auth (AuthContext.login env (email f) (password f)) ;;
           in_world (toast_success "Welcome back!"))
          (fun err => in_world (toast_error (str_or err "Login failed"))))
       (on_state (on_page (on_core (OnePageApp.setBusy false))))) sw.

(** The object [payload] that [doRegister] builds. *)
Definition register_payload (f : Form) : JsVal :=
  let payload := [("name", JStr (name f)); ("email", JStr (email f));
                  ("password", JStr (password f))] in
  let payload := if truthy (JStr (age f))
                 then obj_set payload "age" (Number_of_digits (age f))
                 else payload in
  let payload := if truthy (JStr (gender f))
                 then obj_set payload "gender" (JStr (toUpperCase (gender f)))
                 else payload in
  let payload := if truthy (JStr (phone f))
                 then obj_set payload "phone" (JStr (phone f))
                 else payload in
  JObj payload.

(** [doRegister]. *)
Definition doRegister (env : Env) : JS (State * World) unit :=
  fun sw =>
    let f := form (fst sw) in
    (setState (on_core (OnePageApp.setBusy true)) ;;;
     finally
       (try_catch
          (_ <- in_world (apiService.register env (register_payload f)) ;;
           in_world (toast_success "Account created. Please sign in.") ;;;
           setState (on_form (setAuthTab "login")))
          (fun err => in_world (toast_error (str_or err "Registration failed"))))
       (on_state (on_core (OnePageApp.setBusy false)))) sw.

(** The [FormData] that [doUpload] fills. *)
Definition upload_form_data (chosen : string) (fileName : string)
  : list (string * string) :=
  [("file", chosen)]
  ++ (if truthy (JStr fileName) && truthy (JStr (trim fileName))
      then [("display_name", trim fileName)] else []).

(** [doUpload]: nothing is sent without a token or without a file. *)
Definition doUpload (env : Env) (token : JsVal) : JS (State * World) unit :=
  fun sw =>
    let u := upload (fst sw) in
    (match file u with
     | Some chosen =>
         if negb (truthy token) then in_world (toast_error "Select a file")
         else
           setState (on_core (OnePageApp.setBusy true)) ;;;
           finally
             (try_catch
                (_ <- in_world (apiService.uploadDocument env
                                  (upload_form_data chosen (fileName u)) token) ;;
                 in_world (toast_success "Uploaded!"))
                (fun err => in_world (toast_error (str_or err "Upload failed"))))
             (on_state (fun st =>
                on_upload (setFileName "")
                  (on_upload (setFile None)
                     (on_core (OnePageApp.setBusy false) st))))
     | None => in_world (toast_error "Select a file")
     end) sw.

(** The handler of the [refresh-files] event. *)
Definition onRefreshFiles (env : Env) (token : JsVal) : JS (State * World) unit :=
  try_catch
    (files <- in_world (apiService.getFiles env token) ;;
     setState (on_loaded (setFilesList (js_or files (JArr [])))))
    (fun _err => ret tt).

(** Whether the effect's cleanup has not run yet, read at an [await]. *)
Definition still_mounted {S} (mounted : list Event -> bool) : JS (S * World) bool :=
  fun sw => (Return (mounted (log (snd sw))), sw).

Definition profile_absent (st : State) : State :=
  on_core (fun c => OnePageApp.setProfileExists false
                      (OnePageApp.setOriginalProfile OnePageApp.defaultProfile
                         (OnePageApp.setProfile OnePageApp.defaultProfile c))) st.
Definition profile_present (pf : JsVal) (st : State) : State :=
  on_core (fun c => OnePageApp.setProfileExists true
                      (OnePageApp.setOriginalProfile pf
                         (OnePageApp.setProfile pf c))) st.

(** [load] of the data effect, for the [view] and [token] of the render and
    the auth context's [user].  A stage yields [false] when it hit
    [if (!mounted) return]. *)
Definition load (env : Env) (token user : JsVal) (view : string)
    (mounted : list Event -> bool) : JS (State * World) unit :=
  setState (on_loaded (setLoadingProfile true)) ;;;
  finally
    (go <-
       (if String.eqb view "profile"
        then
          go <-
            try_catch
              (meData <- in_world (apiService.getMe env token) ;;
               alive <- still_mounted mounted ;;
               if negb alive then ret false
               else
                 setState (on_loaded (setMe (js_or (js_or meData user) JNull))) ;;;
                 ret true)
              (fun _err =>
                 setState (on_loaded (setMe (js_or user JNull))) ;;;
                 ret true) ;;
          if negb go then ret false
          else
            try_catch
              (pf <- in_world (apiService.getMedicalProfile env token) ;;
               alive <- still_mounted mounted ;;
               if negb alive then ret false
               else
                 (if strict_eq pf JNull
                  then setState profile_absent
                  else setState (profile_present pf)) ;;;
                 ret true)
              (fun _err => setState profile_absent ;;; ret true)
        else ret true) ;;
     if negb go then ret tt
     else
       try_catch
         (files <- in_world (apiService.getFiles env token) ;;
          alive <- still_mounted mounted ;;
          if negb alive then ret tt
          else setState (on_loaded (setFilesList (js_or files (JArr [])))))
         (fun _err => setState (on_loaded (setFilesList (JArr [])))))
    (on_state (on_loaded (setLoadingProfile false))).

(** The initial value of [view]. *)
Definition initial_view : JS World string :=
  stored <- localStorage_getItem "view" ;;
  ret (ToString (js_or stored (JStr "home"))).

(** The effect that persists [view]. *)
Definition persist_view (isAuthenticated : bool) (view : string) : JS World unit :=
  if isAuthenticated then localStorage_setItem "view" (JStr view)
  else localStorage_removeItem "view".

(** The effect that runs when [isAuthenticated] changes. *)
Definition on_auth_change (isAuthenticated : bool) : JS (State * World) unit :=
  if negb isAuthenticated
  then setState (on_core (OnePageApp.setView "upload")) ;;;
       in_world (localStorage_removeItem "view")
  else ret tt.

(** A field of the edit form: [setProfile(p => ({ ...p, [k]: value }))]. *)
Definition edit_field (k value : string) (p : JsVal) : JsVal :=
  JObj (obj_set (own_props p) k (JStr value)).

End OnePage.

(** ** More of components/Views.jsx *)

(** The line feed, code unit 10. *)
Definition newline : string := String (ascii_of_nat 10) EmptyString.

Fixpoint spaces (n : nat) : string :=
  match n with
  | O => EmptyString
  | S n' => String " " (spaces n')
  end.

(** [JSON.stringify(v, null, 2)] at nesting depth [depth]: members and items
    one per line, indented by two spaces per level; an [undefined] property is
    left out, an [undefined] item prints as [null], and an object or array
    with nothing to print is written closed. *)
Fixpoint JSON_stringify_indent (depth : nat) (v : JsVal) : string :=
  match v with
  | JUndefined => ""
  | JNull => "null"
  | JBool true => "true"
  | JBool false => "false"
  | JNum n => pretty n
  | JStr s => json_quote s
  | JArr items =>
      match items with
      | [] => "[]"
      | _ :: _ =>
          "[" ++ newline ++
          (fix elems (xs : list JsVal) : string :=
             match xs with
             | [] => ""
             | x :: rest =>
                 spaces (2 * S depth)
                   ++ (if is_nullish x then "null"
                       else JSON_stringify_indent (S depth) x)
                   ++ (match rest with [] => "" | _ :: _ => "," end)
                   ++ newline ++ elems rest
             end) items
          ++ spaces (2 * depth) ++ "]"
      end
  | JObj props =>
      let body :=
        (fix members (ps : list (string * JsVal)) (first : bool) : string :=
           match ps with
           | [] => ""
           | (k, JUndefined) :: rest => members rest first
           | (k, x) :: rest =>
               (if first then "" else "," ++ newline)
                 ++ spaces (2 * S depth) ++ json_quote k ++ ": "
                 ++ JSON_stringify_indent (S depth) x ++ members rest false
           end) props true in
      if String.eqb body "" then "{}"
      else "{" ++ newline ++ body ++ newline ++ spaces (2 * depth) ++ "}"
  end.

Module ViewsMore.

(** [text.slice(0, n)] on a string. *)
Fixpoint slice_to (n : nat) (s : string) : string :=
  match n, s with
  | S n', String c rest => String c (slice_to n' rest)
  | _, _ => EmptyString
  end.

(** The horizontal ellipsis, one code unit in JavaScript (three bytes as
    written here). *)
Definition ellipsis : string := "…".

(** [truncate(text, n)] of [ProfileView], on a field of a flat profile: a
    string, or [None] for [null] and [undefined]. *)
Definition truncate (text : option string) (n : nat) : string :=
  match text with
  | Some t =>
      if negb (String.eqb t "") && (n <? String.length t)%nat
      then slice_to n t ++ ellipsis
      else str_or t "-"
  | None => "-"
  end.

(** [s.replace(/_/g, ' ')]. *)
Definition underscores_to_spaces : string -> string :=
  map_units (fun c => if Ascii.eqb c "_" then " "%char else c).

(** [badge(status)]: the style classes and the label of the status badge. *)
Definition badge_status (status : JsVal) : string :=
  toLowerCase (ToString (js_or status (JStr ""))).
Definition badge_class (status : JsVal) : string :=
  let s := badge_status status in
  if String.eqb s "accepted" then "bg-emerald-50 text-emerald-700 border-emerald-100"
  else if String.eqb s "uploaded" then "bg-blue-50 text-blue-700 border-blue-100"
  else if String.eqb s "awaiting_review"
  then "bg-amber-50 text-amber-700 border-amber-100"
  else "bg-gray-50 text-gray-600 border-gray-100".
Definition badge_label (status : JsVal) : string :=
  str_or (underscores_to_spaces (badge_status status)) "unknown".

Definition setLoadingMap (f : gmap string bool -> gmap string bool)
    (st : Views.UploadsState) : Views.UploadsState :=
  Views.mkUploads (Views.filesList st) (f (Views.loadingMap st))
                  (Views.reviewMap st) (Views.busyMap st) (Views.retryBusy st).
Definition setReviewMap (f : gmap string bool -> gmap string bool)
    (st : Views.UploadsState) : Views.UploadsState :=
  Views.mkUploads (Views.filesList st) (Views.loadingMap st)
                  (f (Views.reviewMap st)) (Views.busyMap st) (Views.retryBusy st).

(** A view together with the tabs it has opened with [window.open], oldest
    first. *)
Definition Tabs (S : Type) : Type := (S * list string)%type.
Definition on_view {S} (f : S -> S) (t : Tabs S) : Tabs S := (f (fst t), snd t).
(** [window.open(url, '_blank', ...)]. *)
Definition window_open {S} (url : JsVal) : JS (Tabs S * World) unit :=
  setState (fun t => (fst t, (snd t ++ [ToString url])%list)).

(** [baseUrl] of [openFile], with the two build-time variables of the
    bucket. *)
Definition baseUrl (VITE_S3_BUCKET VITE_S3_REGION : JsVal) (f : Views.File)
  : JsVal :=
  js_or (Views.s3_url f)
    (if truthy (Views.filename f)
     then JStr ("https://" ++ ToString (js_or VITE_S3_BUCKET (JStr "bucket"))
                ++ ".s3." ++ ToString (js_or VITE_S3_REGION (JStr "region"))
                ++ ".amazonaws.com/" ++ ToString (Views.filename f))
     else JStr "#").

(** [openFile(f)], the handler of a row's View button. *)
Definition openFile (env : Env) (VITE_S3_BUCKET VITE_S3_REGION token : JsVal)
    (f : Views.File) : JS (Tabs Views.UploadsState * World) unit :=
  let base := baseUrl VITE_S3_BUCKET VITE_S3_REGION f in
  setState (on_view (setLoadingMap (insert (ToString (Views.id f)) true))) ;;;
  finally
    (try_catch
       (res <- in_world (apiService.presignFile env (Views.id f) token) ;;
        window_open (js_or (get_opt res "presigned_url") base))
       (fun _err =>
          in_world (console_warn "Presign failed, falling back to base URL") ;;;
          window_open base))
    (on_state (on_view (setLoadingMap (insert (ToString (Views.id f)) false)))).

(** [f.status = 'accepted'] on the row at position [i]. *)
Definition accept_row (i : nat) (rows : list Views.File) : list Views.File :=
  match rows !! i with
  | Some f =>
      <[i := Views.mkFile (Views.id f) (Views.filename f) (Views.display_name f)
               (Views.upload_date f) (JStr "accepted") (Views.s3_url f)]> rows
  | None => rows
  end.

(** The question of the review dialog for an extraction. *)
Definition review_prompt (res : JsVal) : string :=
  "Accept extracted data for:" ++ newline ++ newline
  ++ JSON_stringify_indent 0
       (js_or (js_or (get_opt (get_opt res "extracted") "llm_parsed")
                     (get_opt res "extracted"))
              (JObj []))
  ++ newline ++ newline ++ "Click OK to accept and save.".

(** The click handler of the Review/Accept button of the row at position
    [i], whose record is [f]. *)
Definition onReview (env : Env) (token : JsVal) (i : nat) (f : Views.File)
  : JS (Views.UploadsState * World) unit :=
  setState (setReviewMap (insert (ToString (Views.id f)) true)) ;;;
  finally
    (try_catch
       (res <- in_world (apiService.getExtraction env (Views.id f) token) ;;
        accepted <- in_world (window_confirm env (review_prompt res)) ;;
        if accepted
        then
          _ <- in_world (apiService.acceptExtraction env (Views.id f) token
                           JUndefined) ;;
          setState (fun st => Views.setFilesList (accept_row i (Views.filesList st)) st)
        else ret tt)
       (fun _err => ret tt))
    (on_state (setReviewMap (insert (ToString (Views.id f)) false))).

(** [Array.isArray(s) ? s : []], as a list. *)
Definition array_or_empty (s : JsVal) : list JsVal :=
  match s with JArr items => items | _ => [] end.

(** The entries of the schedule preview above the uploads list. *)
Definition schedule_preview (showSchedule : bool) (schedule : list JsVal)
  : list JsVal :=
  if showSchedule && (0 <? length schedule)%nat then take 6 schedule else [].

(** The effect of [UploadsView] that loads the schedule for the preview: a
    failure is ignored, and so is an answer that comes after the view is
    gone. *)
Definition load_preview (env : Env) (token : JsVal)
    (mounted : list Event -> bool) : JS (list JsVal * World) unit :=
  try_catch
    (s <- in_world (apiService.getSchedule env token) ;;
     fun sw => if mounted (log (snd sw))
               then setState (fun _ => array_or_empty s) sw
               else (Return tt, sw))
    (fun _err => ret tt).

(** [ScheduleView]: its entries, [loading] and the per-entry busy flags. *)
Record ScheduleState := mkSchedule {
  schedule : list JsVal;
  loading : bool;
  opening : gmap string bool
}.

Definition setSchedule (v : list JsVal) (st : ScheduleState) : ScheduleState :=
  mkSchedule v (loading st) (opening st).
Definition setLoading (b : bool) (st : ScheduleState) : ScheduleState :=
  mkSchedule (schedule st) b (opening st).
Definition setOpening (f : gmap string bool -> gmap string bool)
    (st : ScheduleState) : ScheduleState :=
  mkSchedule (schedule st) (loading st) (f (opening st)).

(** The effect of [ScheduleView] that loads the schedule; [mounted] tells, at
    each place the source reads the flag, whether the view is still there. *)
Definition load_schedule (env : Env) (token : JsVal)
    (mounted : list Event -> bool) : JS (ScheduleState * World) unit :=
  let when_mounted (f : ScheduleState -> ScheduleState)
      : JS (ScheduleState * World) unit :=
    fun sw => if mounted (log (snd sw)) then setState f sw else (Return tt, sw) in
  setState (setLoading true) ;;;
  fun sw =>
    match
      try_catch
        (s <- in_world (apiService.getSchedule env token) ;;
         when_mounted (setSchedule (array_or_empty s)))
        (fun _err => when_mounted (setSchedule [])) sw
    with
    | (r, sw') =>
        (r, if mounted (log (snd sw')) then on_state (setLoading false) sw' else sw')
    end.

(** [openFromEntry(entry)]. *)
Definition openFromEntry (env : Env) (token : JsVal) (entry : JsVal)
  : JS (Tabs ScheduleState * World) unit :=
  if negb (truthy (get_opt entry "file_id")) then ret tt
  else
    setState (on_view (setOpening (insert (ToString (get_opt entry "id")) true))) ;;;
    finally
      (try_catch
         (res <- in_world (apiService.presignFile env (get_opt entry "file_id")
                             token) ;;
          let url := get_opt res "presigned_url" in
          if truthy url then window_open url else ret tt)
         (fun _err => ret tt))
      (on_state (on_view
         (setOpening (insert (ToString (get_opt entry "id")) false)))).

End ViewsMore.

(** ** More sample pages *)

(** A [JSON.parse] that knows the JSON texts of the values of a table and
    rejects every other text. *)
Fixpoint parse_known (table : list JsVal) (text : string) : Except JsVal :=
  match table with
  | [] => Throw "Unexpected token in JSON"
  | v :: rest =>
      if String.eqb (JSON_stringify v) text then Return v else parse_known rest text
  end.

(** A page served from a machine of the local network. *)
Definition lan_page : ApiConfig.Location :=
  ApiConfig.mkLocation "192.168.1.5" "https:".

(** A validation failure of the registration. *)
Definition invalid_registration : Response :=
  mkResponse 422 "Unprocessable Entity"
    (Return (JObj [("detail", JArr [JObj [("msg", JStr "field required")];
                                    JObj [("msg", JStr "value is not a valid email")]])])).

(** A user stored by an earlier version of the page, as a JSON object. *)
Definition legacy_user : JsVal :=
  JObj [("id", JNum 4); ("email", JStr "a@b.c")].

(** A browser whose [localStorage] holds a session. *)
Definition persisted (token user : string) : World :=
  mkWorld [] (<["user" := user]> (<["token" := token]> ∅)).

(** The registration form filled in, the age typed with a stray letter. *)
Definition ada_form : OnePage.Form :=
  OnePage.mkForm "register" "ada@b.c" "pw" "Ada" (keep_digits "3o6") "female" "".
Definition blank_page : OnePage.State :=
  OnePage.mkState first_save ada_form (OnePage.mkUpload None "")
                  (OnePage.mkLoaded JNull (JArr []) false) [].
Definition created : Response :=
  mkResponse 201 "Created" (Return (JObj [("id", JNum 1)])).

(** ** The API client *)

Ltac api_unfold :=
  unfold apiService.getMe, apiService.register, apiService.login,
    apiService.uploadDocument, apiService.getFiles, apiService.presignFile,
    apiService.getMedicalProfile, apiService.createMedicalProfile,
    apiService.updateMedicalProfile, apiService.patchMedicalProfile,
    apiService.getExtraction, apiService.acceptExtraction,
    apiService.retryExtraction, apiService.deleteFile, apiService.getSchedule.

Section ApiClient.
Variable env : Env.

Lemma fetch_response (rq : Request) (w : World) (r : Response) :
  net env (log w) rq = Resp r ->
  fetch env rq w = (Return r, logged (EvFetch rq) w).
Proof. intros H. unfold fetch, bind, fetch_issue, lift. simpl. now rewrite H. Qed.

Lemma fetch_rejected (rq : Request) (w : World) (e : string) :
  net env (log w) rq = NetworkError e ->
  fetch env rq w = (Throw e, logged (EvFetch rq) w).
Proof. intros H. unfold fetch, bind, fetch_issue, lift. simpl. now rewrite H. Qed.

(** Every operation puts exactly its request on the wire, whatever comes
    back. *)
Lemma perform_world (op : Operation) (w : World) :
  snd (perform env op w) = logged (EvFetch (request_of env op)) w.
Proof.
  destruct op; simpl; api_unfold; unfold bind, fetch, fetch_issue, lift,
    fetch_settle, ret, throw; simpl;
    match goal with
    | |- context [net env (log w) ?rq] => destruct (net env (log w) rq) as [e | r]
    end; simpl; try reflexivity;
    repeat match goal with
    | |- context [if ?b then _ else _] => destruct b; simpl
    | |- context [match json ?r with _ => _ end] => destruct (json r); simpl
    | |- context [match get_prop ?a ?b with _ => _ end] =>
        destruct (get_prop a b); simpl
    end; reflexivity.
Qed.

(** A failed response makes every operation but [register] throw what
    [parseError] extracts, or its own fallback when that is empty. *)
Lemma perform_failure (op : Operation) (w : World) (r : Response) :
  is_register op = false ->
  net env (log w) (request_of env op) = Resp r ->
  ok r = false ->
  (forall t, op = OpGetMedicalProfile t -> status r <> 404) ->
  fst (perform env op w) = Throw (str_or (parseError r) (fallback_message op)).
Proof.
  intros Hreg Hnet Hok H404.
  destruct op; try discriminate Hreg; simpl in *; api_unfold;
    unfold bind; rewrite (fetch_response _ _ _ Hnet); rewrite ?Hok; simpl;
    try reflexivity.
  destruct (Z.eqb_spec (status r) 404) as [E | _]; [| reflexivity].
  exfalso. exact (H404 token eq_refl E).
Qed.

(** When the request is rejected, every operation throws the rejection. *)
Lemma perform_rejected (op : Operation) (w : World) (e : string) :
  net env (log w) (request_of env op) = NetworkError e ->
  fst (perform env op w) = Throw e.
Proof.
  intros Hnet.
  destruct op; simpl in *; api_unfold; unfold bind;
    rewrite (fetch_rejected _ _ _ Hnet); reflexivity.
Qed.

Lemma pretty_N_go_nonempty (x : N) (s : string) :
  s <> "" -> pretty_N_go x s <> "".
Proof.
  revert s. induction (N.lt_wf_0 x) as [x _ IH]. intros s Hs.
  destruct (N.eq_dec x 0%N) as [-> | Hx]; [now rewrite pretty_N_go_0 |].
  rewrite pretty_N_go_step by lia.
  apply IH; [apply N.div_lt; lia | discriminate].
Qed.

Lemma pretty_Z_nonempty (n : Z) : pretty n <> "".
Proof.
  assert (Hpos : forall p : positive, pretty p <> "").
  { intros p. unfold pretty, pretty_positive, pretty, pretty_N.
    destruct (decide (N.pos p = 0%N)) as [E | _]; [discriminate E |].
    rewrite pretty_N_go_step by lia.
    apply pretty_N_go_nonempty. discriminate. }
  destruct n as [| p | p]; unfold pretty, pretty_Z.
  - discriminate.
  - apply Hpos.
  - discriminate.
Qed.

(** The JSON text of a value other than [undefined] is never empty. *)
Lemma JSON_stringify_nonempty (v : JsVal) :
  v <> JUndefined -> JSON_stringify v <> "".
Proof.
  destruct v as [| | [] | n | s | items | props]; intros Hv;
    try contradiction; try discriminate.
  apply pretty_Z_nonempty.
Qed.

Lemma ok_not_404 (r : Response) : ok r = true -> (status r =? 404) = false.
Proof. unfold ok. lia. Qed.

Lemma str_or_nonempty (a b : string) : a <> "" -> str_or a b = a.
Proof.
  intros H. unfold str_or. destruct (String.eqb_spec a ""); [contradiction | reflexivity].
Qed.

(** C1. For every response to the medical-profile fetch: a 404 makes
    [getMedicalProfile] return [null] and not throw; any other status outside
    200..299 makes it throw an error (with the message of [parseError], or
    its fallback); a status in 200..299 makes it return what
    [response.json()] yields, the parsed body. *)
Theorem getMedicalProfile_by_status (token : JsVal) (w : World) (r : Response) :
  net env (log w) (apiService.getMedicalProfile_request env token) = Resp r ->
  (status r = 404 ->
     fst (apiService.getMedicalProfile env token w) = Return JNull) /\
  (status r <> 404 -> ok r = false ->
     exists message,
       fst (apiService.getMedicalProfile env token w) = Throw message /\
       message = str_or (parseError r) "Failed to fetch medical profile") /\
  (ok r = true ->
     fst (apiService.getMedicalProfile env token w) = json r /\
     forall pf, json r = Return pf ->
       fst (apiService.getMedicalProfile env token w) = Return pf).
Proof.
  intros Hnet.
  unfold apiService.getMedicalProfile, bind.
  rewrite (fetch_response _ _ _ Hnet).
  split; [| split].
  - intros ->. reflexivity.
  - intros Hne Hok. destruct (Z.eqb_spec (status r) 404); [contradiction |].
    rewrite Hok. simpl. eauto.
  - intros Hok. rewrite (ok_not_404 _ Hok), Hok. simpl. unfold lift.
    split; [reflexivity |]. now intros pf ->.
Qed.

(** C5, as the code has it.  For every operation of the client except
    [register], and every response outside 200..299 (the 404 of the profile
    fetch apart, which is no error), the operation throws, and the message
    is: [detail] of the body if that is a non-empty string; else, [detail]
    not being a string, [error] if that is a non-empty string; else, neither
    being a string, the JSON text of the whole body (a parsed body is never
    [undefined]); the status text only when the body is not JSON (and
    [Request failed] when the status text is empty).  An empty [detail] or
    [error] string gives the operation's own fallback message. *)
Theorem failed_response_message (op : Operation) (w : World) (r : Response) :
  is_register op = false ->
  net env (log w) (request_of env op) = Resp r ->
  ok r = false ->
  (forall t, op = OpGetMedicalProfile t -> status r <> 404) ->
  exists message,
    fst (perform env op w) = Throw message /\
    (forall data detail, json r = Return data ->
       get_opt data "detail" = JStr detail ->
       message = if String.eqb detail "" then fallback_message op else detail) /\
    (forall data error, json r = Return data ->
       as_string (get_opt data "detail") = None ->
       get_opt data "error" = JStr error ->
       message = if String.eqb error "" then fallback_message op else error) /\
    (forall data, json r = Return data ->
       as_string (get_opt data "detail") = None ->
       as_string (get_opt data "error") = None ->
       data <> JUndefined ->
       message = JSON_stringify data) /\
    (forall e, json r = Throw e ->
       message = if String.eqb (statusText r) "" then "Request failed"
                 else statusText r).
Proof.
  intros Hreg Hnet Hok H404.
  exists (str_or (parseError r) (fallback_message op)).
  split; [now apply perform_failure |].
  unfold parseError. repeat split.
  - intros data detail -> ->. reflexivity.
  - intros data error -> -> ->. reflexivity.
  - intros data -> -> -> Hne.
    now apply str_or_nonempty, JSON_stringify_nonempty.
  - intros e ->. unfold str_or at 2.
    destruct (String.eqb (statusText r) "") eqn:E; [reflexivity |].
    apply str_or_nonempty. intros C. rewrite C in E. discriminate E.
Qed.

End ApiClient.

Lemma getMedicalProfile_by_status_witness :
  fst (apiService.getMedicalProfile (always (Resp not_found)) (JStr "t") empty_world)
    = Return JNull /\
  (exists message,
     fst (apiService.getMedicalProfile (always (Resp server_error)) (JStr "t")
            empty_world) = Throw message /\
     message = "Internal Server Error") /\
  fst (apiService.getMedicalProfile (always (Resp profile_found)) (JStr "t")
         empty_world) = Return sample_profile.
Proof.
  split; [| split].
  - exact (proj1 (getMedicalProfile_by_status (always (Resp not_found)) (JStr "t")
                    empty_world not_found eq_refl) eq_refl).
  - destruct (proj1 (proj2 (getMedicalProfile_by_status
                              (always (Resp server_error)) (JStr "t")
                              empty_world server_error eq_refl)))
      as (message & Hthrow & Hmessage); [discriminate | reflexivity |].
    exists message. split; [exact Hthrow | rewrite Hmessage; reflexivity].
  - exact (proj2 (proj2 (proj2 (getMedicalProfile_by_status
                                  (always (Resp profile_found)) (JStr "t")
                                  empty_world profile_found eq_refl)) eq_refl)
             sample_profile eq_refl).
Defined.

Lemma failed_response_message_witness :
  exists message,
    fst (perform (always (Resp unprocessable)) (OpGetFiles (JStr "t")) empty_world)
      = Throw message /\
    message = JSON_stringify
                (JObj [("detail", JArr [JObj [("msg", JStr "field required")]])]).
Proof.
  destruct (failed_response_message (always (Resp unprocessable))
              (OpGetFiles (JStr "t")) empty_world unprocessable
              eq_refl eq_refl eq_refl)
    as (message & Hthrow & _ & _ & Hbody & _).
  - intros t Ht. discriminate Ht.
  - exists message. split; [exact Hthrow |].
    apply (Hbody _ eq_refl eq_refl eq_refl). discriminate.
Defined.

(** C5 as stated fails: on a validation failure whose [detail] is a list the
    message is the JSON text of the body, where the claim has the status
    text. *)
Lemma validation_failure_message_is_body_text :
  fst (perform (always (Resp unprocessable)) (OpGetFiles (JStr "t")) empty_world)
    = Throw (JSON_stringify
               (JObj [("detail", JArr [JObj [("msg", JStr "field required")]])])) /\
  claimed_message unprocessable = "Unprocessable Entity" /\
  JSON_stringify (JObj [("detail", JArr [JObj [("msg", JStr "field required")]])])
    <> claimed_message unprocessable.
Proof.
  split; [reflexivity | split; [reflexivity |]].
  vm_compute. discriminate.
Qed.

(** [register] does not go through [parseError]: on a failure it reads
    [detail] of the body itself. *)
Lemma register_failure (env : Env) (userData : JsVal) (w : World) (r : Response)
    (errorData : JsVal) :
  net env (log w) (apiService.register_request env userData) = Resp r ->
  ok r = false ->
  json r = Return errorData ->
  is_nullish errorData = false ->
  fst (apiService.register env userData w)
    = Throw (ToString (js_or (get_opt errorData "detail") (JStr "Registration failed"))).
Proof.
  intros Hnet Hok Hjson Hnn.
  unfold apiService.register, bind. rewrite (fetch_response _ _ _ _ Hnet), Hok.
  simpl. unfold lift. rewrite Hjson. unfold get_prop. rewrite Hnn. reflexivity.
Qed.

(** ** The session store *)

Lemma requests_logged_other (e : Event) (w : World) :
  (forall rq, e <> EvFetch rq) ->
  requests (log (logged e w)) = requests (log w).
Proof.
  intros H. unfold requests, logged. simpl. rewrite omap_app. simpl.
  destruct e; try (now rewrite app_nil_r). now destruct (H rq).
Qed.

Lemma requests_logged_fetch (rq : Request) (w : World) :
  requests (log (logged (EvFetch rq) w)) = (requests (log w) ++ [rq])%list.
Proof. unfold requests, logged. simpl. now rewrite omap_app. Qed.

(** C3. From every session state, [logout] returns normally with the token
    and the user both [null] in memory and the entries [token] and [user]
    both absent from [localStorage]; its one observable effect is the console
    warning, so it puts no request on the wire. *)
Theorem logout_clears_session (st : AuthContext.State) (w : World) :
  exists st' w',
    AuthContext.logout (st, w) = (Return tt, (st', w')) /\
    AuthContext.token st' = JNull /\
    AuthContext.user st' = JNull /\
    localStorage w' !! "token" = None /\
    localStorage w' !! "user" = None /\
    log w' = (log w ++ [EvConsole ConsoleWarn
      "[Auth] Logging out – clearing token and user from localStorage"])%list /\
    requests (log w') = requests (log w).
Proof.
  eexists. eexists. split; [reflexivity |]. simpl. split_and!.
  - reflexivity.
  - reflexivity.
  - rewrite lookup_delete_ne by discriminate. apply lookup_delete_eq.
  - apply lookup_delete_eq.
  - reflexivity.
  - apply (requests_logged_other _ w). discriminate.
Qed.

(** C4. For every [login(email, password)]: if the credential exchange
    throws, [login] throws, the user and token in memory are what they were
    and [localStorage] is what it was; if the exchange returns a body with an
    access token, [login] returns that body (also when the follow-up [getMe]
    throws), the token is the one in memory and, as a string, the [token]
    entry of [localStorage] and the bearer of the [getMe] request, the [user]
    entry is the email of the user object, and when [getMe] throws the user
    in memory is the minimal object with just the email and the entry is that
    email. *)
Theorem login_outcomes (env : Env) (email password : string)
    (st : AuthContext.State) (w : World) :
  let exchanged := logged (EvFetch (apiService.login_request env email password)) w in
  (forall e, fst (apiService.login env email password w) = Throw e ->
     exists message w',
       AuthContext.login env email password (st, w) = (Throw message, (st, w')) /\
       localStorage w' = localStorage w) /\
  (forall tokenData access_token,
     fst (apiService.login env email password w) = Return tokenData ->
     get_prop tokenData "access_token" = Return access_token ->
     exists st' w',
       AuthContext.login env email password (st, w) = (Return tokenData, (st', w')) /\
       AuthContext.token st' = access_token /\
       localStorage w' !! "token" = Some (ToString access_token) /\
       localStorage w' !! "user"
         = Some (ToString (js_or (get_opt (AuthContext.user st') "email") (JStr ""))) /\
       (forall k, k <> "token" -> k <> "user" ->
          localStorage w' !! k = localStorage w !! k) /\
       requests (log w')
         = (requests (log w)
            ++ [apiService.login_request env email password;
                apiService.getMe_request env access_token])%list /\
       authorization (apiService.getMe_request env access_token)
         = Some ("Bearer " ++ ToString access_token) /\
       (forall e, fst (apiService.getMe env access_token exchanged) = Throw e ->
          AuthContext.user st' = JObj [("email", JStr email)] /\
          localStorage w' !! "user" = Some email) /\
       (forall me, fst (apiService.getMe env access_token exchanged) = Return me ->
          AuthContext.user st' = js_or me (JObj [("email", JStr email)]) /\
          forall address,
            truthy me = true -> get_opt me "email" = JStr address ->
            address <> "" ->
            localStorage w' !! "user" = Some address)).
Proof.
  intros exchanged.
  pose proof (perform_world env (OpLogin email password) w) as Hw1. simpl in Hw1.
  fold exchanged in Hw1.
  split.
  - intros e He.
    unfold AuthContext.login, try_catch, bind, in_world. simpl.
    destruct (apiService.login env email password w) as [r1 w1]. simpl in *.
    subst r1 w1. simpl. eexists. eexists. split; [reflexivity | reflexivity].
  - intros tokenData access_token Hlogin Htok.
    pose proof (perform_world env (OpGetMe access_token) exchanged) as Hw2.
    simpl in Hw2.
    unfold AuthContext.login, try_catch, bind, in_world, lift. simpl.
    destruct (apiService.login env email password w) as [r1 w1]. simpl in *.
    subst r1 w1. rewrite Htok.
    destruct (apiService.getMe env access_token exchanged) as [r2 w2]. simpl in *.
    subst w2.
    destruct r2 as [e2 | me2]; simpl.
    + eexists. eexists. split; [reflexivity |]. simpl. split_and!.
      * reflexivity.
      * rewrite lookup_insert_ne by discriminate. apply lookup_insert_eq.
      * rewrite lookup_insert_eq. reflexivity.
      * intros k H1 H2. now rewrite !lookup_insert_ne by congruence.
      * unfold requests. rewrite !omap_app. simpl.
        now rewrite ?app_nil_r, <- app_assoc.
      * reflexivity.
      * intros _ _. split; [reflexivity |].
        rewrite lookup_insert_eq. unfold js_or. simpl.
        destruct (String.eqb_spec email ""); simpl; congruence.
      * intros me H. discriminate H.
    + eexists. eexists. split; [reflexivity |]. simpl. split_and!.
      * reflexivity.
      * rewrite lookup_insert_ne by discriminate. apply lookup_insert_eq.
      * rewrite lookup_insert_eq. reflexivity.
      * intros k H1 H2. now rewrite !lookup_insert_ne by congruence.
      * unfold requests. rewrite !omap_app. simpl.
        now rewrite ?app_nil_r, <- app_assoc.
      * reflexivity.
      * intros e H. discriminate H.
      * intros me' [= <-]. split; [reflexivity |].
        intros address Hme Hemail Hne. rewrite lookup_insert_eq.
        unfold js_or at 2. rewrite Hme, Hemail. unfold js_or. simpl.
        destruct (String.eqb_spec address ""); [contradiction | reflexivity].
Qed.

Lemma login_outcomes_witness :
  (exists message w',
     AuthContext.login (always (Resp unauthorized)) "a@b.c" "pw"
       (signed_out, empty_world) = (Throw message, (signed_out, w')) /\
     localStorage w' = localStorage empty_world) /\
  (exists st' w',
     AuthContext.login login_then_offline "a@b.c" "pw" (signed_out, empty_world)
       = (Return token_body, (st', w')) /\
     AuthContext.token st' = JStr "abc" /\
     localStorage w' !! "token" = Some "abc" /\
     AuthContext.user st' = JObj [("email", JStr "a@b.c")] /\
     localStorage w' !! "user" = Some "a@b.c").
Proof.
  split.
  - exact (proj1 (login_outcomes (always (Resp unauthorized)) "a@b.c" "pw"
                    signed_out empty_world)
             "Incorrect email or password" eq_refl).
  - destruct (proj2 (login_outcomes login_then_offline "a@b.c" "pw"
                       signed_out empty_world)
                token_body (JStr "abc") eq_refl eq_refl)
      as (st' & w' & Hrun & Htoken & Hstored & _ & _ & _ & _ & Hoffline & _).
    destruct (Hoffline "Failed to fetch" eq_refl) as [Huser Hemail].
    exists st', w'. repeat split; assumption.
Defined.

(** ** Saving the medical profile *)

Section Changes.
Variables profile originalProfile : JsVal.

Local Abbreviation differs := (OnePageApp.differs profile originalProfile).
Local Abbreviation record_change :=
  (OnePageApp.record_change profile originalProfile).

Lemma collect_changes_fold (keys : list string) (changes : list (string * JsVal)) :
  is_nullish profile = false ->
  is_nullish originalProfile = false ->
  OnePageApp.collect_changes keys profile originalProfile changes
    = Return (fold_left record_change keys changes).
Proof.
  intros Hp Ho. revert changes.
  induction keys as [| k keys IH]; intros changes; simpl; [reflexivity |].
  unfold get_prop. rewrite Hp, Ho. apply IH.
Qed.

Lemma obj_set_keys (changes : list (string * JsVal)) (k k' : string) (v : JsVal) :
  In k' (map fst (obj_set changes k v)) <-> In k' (map fst changes) \/ k' = k.
Proof.
  induction changes as [| [j x] rest IH]; simpl.
  - intuition congruence.
  - destruct (String.eqb_spec j k) as [-> | Hne]; simpl.
    + intuition congruence.
    + rewrite IH. intuition congruence.
Qed.

Lemma obj_get_set (changes : list (string * JsVal)) (k k' : string) (v : JsVal) :
  obj_get (obj_set changes k v) k'
    = if String.eqb k k' then v else obj_get changes k'.
Proof.
  induction changes as [| [j x] rest IH]; simpl.
  - destruct (String.eqb k k'); reflexivity.
  - destruct (String.eqb_spec j k) as [-> | Hne]; simpl.
    + destruct (String.eqb k k'); reflexivity.
    + rewrite IH. destruct (String.eqb_spec j k') as [-> | Hne'].
      * destruct (String.eqb_spec k k'); [congruence | reflexivity].
      * reflexivity.
Qed.

Lemma obj_set_NoDup (changes : list (string * JsVal)) (k : string) (v : JsVal) :
  NoDup (map fst changes) -> NoDup (map fst (obj_set changes k v)).
Proof.
  induction changes as [| [j x] rest IH]; simpl; intros H.
  - constructor; [apply not_elem_of_nil | constructor].
  - apply NoDup_cons in H as [Hj Hrest].
    destruct (String.eqb_spec j k) as [-> | Hne]; simpl.
    + apply NoDup_cons. split; assumption.
    + apply NoDup_cons. split; [| now apply IH].
      rewrite list_elem_of_In, obj_set_keys, <- list_elem_of_In.
      intros [C | C]; [contradiction | congruence].
Qed.

(** What the loop leaves in [changes]: the keys it started with and the keys
    visited whose two values differ, each such key bound to the edited
    value. *)
Lemma fold_changes_keys (keys : list string) (changes : list (string * JsVal))
    (k : string) :
  In k (map fst (fold_left record_change keys changes))
  <-> In k (map fst changes) \/ (In k keys /\ differs k = true).
Proof.
  revert changes. induction keys as [| j keys IH]; intros changes; simpl.
  - intuition.
  - rewrite IH. unfold OnePageApp.record_change.
    destruct (differs j) eqn:Hj.
    + rewrite obj_set_keys. intuition (subst; auto).
    + intuition (subst; auto; congruence).
Qed.

Lemma fold_changes_value (keys : list string) (changes : list (string * JsVal))
    (k : string) :
  (In k (map fst changes) -> obj_get changes k = get_opt profile k) ->
  In k (map fst (fold_left record_change keys changes)) ->
  obj_get (fold_left record_change keys changes) k = get_opt profile k.
Proof.
  revert changes. induction keys as [| j keys IH]; intros changes Hinv; simpl.
  - exact Hinv.
  - apply IH. unfold OnePageApp.record_change. destruct (differs j); [| exact Hinv].
    rewrite obj_get_set, obj_set_keys.
    destruct (String.eqb_spec j k) as [-> | Hne]; [reflexivity |].
    intros [H | H]; [auto | congruence].
Qed.

Lemma fold_changes_NoDup (keys : list string) (changes : list (string * JsVal)) :
  NoDup (map fst changes) ->
  NoDup (map fst (fold_left record_change keys changes)).
Proof.
  revert changes. induction keys as [| j keys IH]; intros changes H; simpl.
  - exact H.
  - apply IH. unfold OnePageApp.record_change. destruct (differs j); [| exact H].
    now apply obj_set_NoDup.
Qed.

(** The object [changes] that [saveProfile] builds holds exactly the fields of
    the edited profile whose value differs from the loaded one, each once, with
    the edited value. *)
Lemma changed_fields_spec :
  is_nullish profile = false ->
  is_nullish originalProfile = false ->
  exists changes,
    OnePageApp.changed_fields profile originalProfile = Return changes /\
    NoDup (map fst changes) /\
    (forall k, In k (map fst changes)
               <-> In k (map fst (own_props profile)) /\ differs k = true) /\
    (forall k, In k (map fst changes) -> obj_get changes k = get_opt profile k).
Proof.
  intros Hp Ho. unfold OnePageApp.changed_fields, OnePageApp.Object_keys.
  rewrite Hp. rewrite (collect_changes_fold _ _ Hp Ho).
  eexists. split; [reflexivity |]. split_and!.
  - apply fold_changes_NoDup. constructor.
  - intros k. rewrite fold_changes_keys. simpl. intuition.
  - intros k. apply fold_changes_value. simpl. intuition.
Qed.

(** With no field differing the object stays empty. *)
Lemma changed_fields_none :
  is_nullish profile = false ->
  is_nullish originalProfile = false ->
  (forall k, In k (map fst (own_props profile)) -> differs k = false) ->
  OnePageApp.changed_fields profile originalProfile = Return [].
Proof.
  intros Hp Ho Hsame.
  destruct (changed_fields_spec Hp Ho) as (changes & Heq & _ & Hkeys & _).
  rewrite Heq. f_equal. destruct changes as [| [k v] rest]; [reflexivity |].
  destruct (proj1 (Hkeys k) (or_introl eq_refl)) as [Hin Hd].
  rewrite (Hsame k Hin) in Hd. discriminate Hd.
Qed.

End Changes.

Ltac run_handler :=
  unfold finally, try_catch, bind, in_world, setState, on_state, ret, lift,
    throw; simpl.

(** Closes a goal [run = (Return tt, (?st', ?w')) /\ log ?w' = log w ++ ?added
    /\ ...] once the run has been evaluated. *)
Ltac close_run :=
  do 3 eexists; split; [reflexivity |]; simpl;
  split; [rewrite <- ?app_assoc; reflexivity |].

Section SaveProfile.
Variable env : Env.
Variable token : JsVal.
Hypothesis signed_in : truthy token = true.

(** Without a profile on record the save posts the whole profile, and that
    is its only write. *)
Lemma saveProfile_create (st : OnePageApp.State) (w : World) :
  OnePageApp.profileExists st = false ->
  exists st' w' added,
    OnePageApp.saveProfile env token (st, w) = (Return tt, (st', w')) /\
    log w' = (log w ++ added)%list /\
    filter is_write (requests added)
      = [apiService.createMedicalProfile_request env (OnePageApp.profile st) token].
Proof.
  intros Hnew.
  pose proof (perform_world env
                (OpCreateMedicalProfile (OnePageApp.profile st) token) w) as Hw1.
  simpl in Hw1.
  unfold OnePageApp.saveProfile. simpl. rewrite signed_in, Hnew. simpl.
  run_handler.
  destruct (apiService.createMedicalProfile env (OnePageApp.profile st) token w)
    as [r1 w1]. simpl in Hw1. subst w1.
  destruct r1 as [e1 | created]; simpl; [close_run; reflexivity |].
  match goal with
  | |- context [apiService.getMedicalProfile env token ?w1] =>
      pose proof (perform_world env (OpGetMedicalProfile token) w1) as Hw2;
      simpl in Hw2;
      destruct (apiService.getMedicalProfile env token w1) as [r2 w2]
  end.
  simpl in Hw2. subst w2.
  destruct r2 as [e2 | pf]; simpl; close_run; reflexivity.
Qed.

(** With a profile on record and the object [changes] not empty, the save
    patches with [changes], and that is its only write. *)
Lemma saveProfile_patch (st : OnePageApp.State) (w : World)
    (changes : list (string * JsVal)) :
  OnePageApp.profileExists st = true ->
  OnePageApp.changed_fields (OnePageApp.profile st) (OnePageApp.originalProfile st)
    = Return changes ->
  changes <> [] ->
  exists st' w' added,
    OnePageApp.saveProfile env token (st, w) = (Return tt, (st', w')) /\
    log w' = (log w ++ added)%list /\
    filter is_write (requests added)
      = [apiService.patchMedicalProfile_request env (JObj changes) token].
Proof.
  intros Hex Hch Hne.
  pose proof (perform_world env (OpPatchMedicalProfile (JObj changes) token) w)
    as Hw1.
  simpl in Hw1.
  unfold OnePageApp.saveProfile. simpl. rewrite signed_in, Hex. simpl.
  run_handler. rewrite Hch.
  destruct changes as [| c rest]; [contradiction |]. simpl.
  destruct (apiService.patchMedicalProfile env (JObj (c :: rest)) token w)
    as [r1 w1]. simpl in Hw1. subst w1.
  destruct r1 as [e1 | patched]; simpl; [close_run; reflexivity |].
  match goal with
  | |- context [apiService.getMedicalProfile env token ?w1] =>
      pose proof (perform_world env (OpGetMedicalProfile token) w1) as Hw2;
      simpl in Hw2;
      destruct (apiService.getMedicalProfile env token w1) as [r2 w2]
  end.
  simpl in Hw2. subst w2.
  destruct r2 as [e2 | pf]; simpl; close_run; reflexivity.
Qed.

(** With a profile on record and nothing changed, the save sends the
    re-fetch and nothing else; it reports success when the re-fetch returns
    and the re-fetch's error when it throws. *)
Lemma saveProfile_unchanged (st : OnePageApp.State) (w : World) :
  OnePageApp.profileExists st = true ->
  OnePageApp.changed_fields (OnePageApp.profile st) (OnePageApp.originalProfile st)
    = Return [] ->
  exists st' w' added,
    OnePageApp.saveProfile env token (st, w) = (Return tt, (st', w')) /\
    log w' = (log w ++ added)%list /\
    requests added = [apiService.getMedicalProfile_request env token] /\
    (forall pf, fst (apiService.getMedicalProfile env token w) = Return pf ->
       added = [EvFetch (apiService.getMedicalProfile_request env token);
                EvToast ToastSuccess "Profile saved"] /\
       st' = OnePageApp.mkState "profile" (js_or pf OnePageApp.defaultProfile)
               (js_or pf OnePageApp.defaultProfile) false (truthy pf)) /\
    (forall e, fst (apiService.getMedicalProfile env token w) = Throw e ->
       added = [EvFetch (apiService.getMedicalProfile_request env token);
                EvToast ToastError (str_or e "Save failed")] /\
       st' = OnePageApp.setBusy false st).
Proof.
  intros Hex Hch.
  pose proof (perform_world env (OpGetMedicalProfile token) w) as Hw2.
  simpl in Hw2.
  unfold OnePageApp.saveProfile. simpl. rewrite signed_in, Hex. simpl.
  run_handler. rewrite Hch. simpl.
  destruct (apiService.getMedicalProfile env token w) as [r2 w2].
  simpl in Hw2. subst w2.
  destruct r2 as [e2 | pf]; simpl; close_run.
  - split; [reflexivity |]. split; [intros pf H; discriminate H |].
    intros e H. injection H as <-. split; [reflexivity |].
    destruct st; reflexivity.
  - split; [reflexivity |]. split; [| intros e H; discriminate H].
    intros pf' H. injection H as <-. split; reflexivity.
Qed.

End SaveProfile.

Lemma strict_eq_string (v : JsVal) (s : string) :
  strict_eq v (JStr s) = true <-> v = JStr s.
Proof.
  destruct v; simpl; try (split; [discriminate | discriminate]).
  destruct (String.eqb_spec s0 s); split; congruence.
Qed.

(** C2, as the code has it.  For every save made with a session token: with
    no profile on record, the save issues the create (POST) call with the
    full profile and no other write; with a profile on record, the fields
    whose edited value differs from the loaded one form the object
    [changes], and the save issues one patch (PATCH) call with exactly
    [changes] and no other write when [changes] is not empty, and no write at
    all when it is empty. *)
Theorem saveProfile_writes (env : Env) (token : JsVal) (st : OnePageApp.State)
    (w : World) :
  truthy token = true ->
  (OnePageApp.profileExists st = false ->
   exists st' w' added,
     OnePageApp.saveProfile env token (st, w) = (Return tt, (st', w')) /\
     log w' = (log w ++ added)%list /\
     filter is_write (requests added)
       = [apiService.createMedicalProfile_request env (OnePageApp.profile st)
            token]) /\
  (OnePageApp.profileExists st = true ->
   is_nullish (OnePageApp.profile st) = false ->
   is_nullish (OnePageApp.originalProfile st) = false ->
   exists changes,
     NoDup (map fst changes) /\
     (forall k, In k (map fst changes)
                <-> In k (map fst (own_props (OnePageApp.profile st))) /\
                    strict_eq (get_opt (OnePageApp.profile st) k)
                              (get_opt (OnePageApp.originalProfile st) k)
                      = false) /\
     (forall k, In k (map fst changes) ->
                obj_get changes k = get_opt (OnePageApp.profile st) k) /\
     exists st' w' added,
       OnePageApp.saveProfile env token (st, w) = (Return tt, (st', w')) /\
       log w' = (log w ++ added)%list /\
       filter is_write (requests added)
         = match changes with
           | [] => []
           | _ :: _ =>
               [apiService.patchMedicalProfile_request env (JObj changes) token]
           end).
Proof.
  intros Htoken. split.
  - intros Hex. now apply saveProfile_create.
  - intros Hex Hp Ho.
    destruct (changed_fields_spec _ _ Hp Ho)
      as (changes & Hch & Hnd & Hkeys & Hvals).
    exists changes. split_and!; try assumption.
    + intros k. rewrite Hkeys. unfold OnePageApp.differs.
      now rewrite negb_true_iff.
    + destruct changes as [| c rest].
      * destruct (saveProfile_unchanged env token Htoken st w Hex Hch)
          as (st' & w' & added & Hrun & Hlog & Hreq & _).
        exists st', w', added. split_and!; try assumption.
        now rewrite Hreq.
      * apply saveProfile_patch; [assumption .. | discriminate].
Qed.

Lemma saveProfile_writes_witness :
  (exists st' w' added,
     OnePageApp.saveProfile (always (Resp profile_found)) (JStr "t")
       (first_save, empty_world) = (Return tt, (st', w')) /\
     log w' = (log empty_world ++ added)%list /\
     filter is_write (requests added)
       = [apiService.createMedicalProfile_request (always (Resp profile_found))
            edited_profile (JStr "t")]) /\
  (exists st' w' added,
     OnePageApp.saveProfile (always (Resp profile_found)) (JStr "t")
       (edited, empty_world) = (Return tt, (st', w')) /\
     log w' = (log empty_world ++ added)%list /\
     filter is_write (requests added)
       = [apiService.patchMedicalProfile_request (always (Resp profile_found))
            (JObj [("allergies", JStr "penicillin, latex")]) (JStr "t")]).
Proof.
  split.
  - exact (proj1 (saveProfile_writes (always (Resp profile_found)) (JStr "t")
                    first_save empty_world eq_refl) eq_refl).
  - destruct (proj2 (saveProfile_writes (always (Resp profile_found)) (JStr "t")
                       edited empty_world eq_refl) eq_refl eq_refl eq_refl)
      as (changes & _ & _ & _ & st' & w' & added & Hrun & Hlog & Hwrites).
    exists st', w', added. split; [exact Hrun |]. split; [exact Hlog |].
    vm_compute in Hrun. injection Hrun as <- <-.
    vm_compute in Hlog. subst added. reflexivity.
Defined.

(** C2 as stated fails: saving a loaded profile with nothing edited issues
    no patch call at all; the only request is the re-fetch. *)
Lemma unedited_save_issues_no_patch :
  requests (log (snd (snd (OnePageApp.saveProfile (always (Resp profile_found))
                             (JStr "t") (unedited, empty_world)))))
    = [apiService.getMedicalProfile_request (always (Resp profile_found)) (JStr "t")]
  /\ method (apiService.getMedicalProfile_request (always (Resp profile_found))
               (JStr "t")) = GET
  /\ OnePageApp.profileExists unedited = true.
Proof. repeat split. Qed.

(** C10, as the code has it.  When a profile is on record and the edited
    profile equals the loaded one on every field, a save made with a session
    token issues no write: its only request is the re-fetch of the profile
    (a GET).  It reports success, and shows the profile view, when the
    re-fetch returns; when the re-fetch throws it reports that error. *)
Theorem saveProfile_nothing_edited (env : Env) (token : JsVal)
    (st : OnePageApp.State) (w : World) :
  truthy token = true ->
  OnePageApp.profileExists st = true ->
  is_nullish (OnePageApp.profile st) = false ->
  is_nullish (OnePageApp.originalProfile st) = false ->
  (forall k, In k (map fst (own_props (OnePageApp.profile st))) ->
     strict_eq (get_opt (OnePageApp.profile st) k)
               (get_opt (OnePageApp.originalProfile st) k) = true) ->
  exists st' w' added,
    OnePageApp.saveProfile env token (st, w) = (Return tt, (st', w')) /\
    log w' = (log w ++ added)%list /\
    requests added = [apiService.getMedicalProfile_request env token] /\
    filter is_write (requests added) = [] /\
    (forall pf, fst (apiService.getMedicalProfile env token w) = Return pf ->
       added = [EvFetch (apiService.getMedicalProfile_request env token);
                EvToast ToastSuccess "Profile saved"] /\
       OnePageApp.view st' = "profile") /\
    (forall e, fst (apiService.getMedicalProfile env token w) = Throw e ->
       added = [EvFetch (apiService.getMedicalProfile_request env token);
                EvToast ToastError (str_or e "Save failed")] /\
       OnePageApp.view st' = OnePageApp.view st).
Proof.
  intros Htoken Hex Hp Ho Hsame.
  assert (Hch : OnePageApp.changed_fields (OnePageApp.profile st)
                  (OnePageApp.originalProfile st) = Return []).
  { apply changed_fields_none; try assumption.
    intros k Hk. unfold OnePageApp.differs. now rewrite (Hsame k Hk). }
  destruct (saveProfile_unchanged env token Htoken st w Hex Hch)
    as (st' & w' & added & Hrun & Hlog & Hreq & Hok & Hfail).
  exists st', w', added. split_and!; try assumption.
  - now rewrite Hreq.
  - intros pf Hpf. destruct (Hok pf Hpf) as [-> ->]. split; reflexivity.
  - intros e He. destruct (Hfail e He) as [-> ->]. split; reflexivity.
Qed.

Lemma saveProfile_nothing_edited_witness :
  exists st' w',
    OnePageApp.saveProfile (always (Resp profile_found)) (JStr "t")
      (unedited, empty_world) = (Return tt, (st', w')) /\
    log w' = [EvFetch (apiService.getMedicalProfile_request
                         (always (Resp profile_found)) (JStr "t"));
              EvToast ToastSuccess "Profile saved"] /\
    OnePageApp.view st' = "profile".
Proof.
  destruct (saveProfile_nothing_edited (always (Resp profile_found)) (JStr "t")
              unedited empty_world eq_refl eq_refl eq_refl eq_refl)
    as (st' & w' & added & Hrun & Hlog & _ & _ & Hok & _).
  - intros k Hk. simpl in Hk.
    destruct Hk as [<- | [<- | [<- | []]]]; reflexivity.
  - exists st', w'. destruct (Hok sample_profile eq_refl) as [Hadded Hview].
    split; [exact Hrun |]. split; [| exact Hview].
    rewrite Hlog, Hadded. reflexivity.
Defined.

(** C10 as stated fails in its report: when the re-fetch fails, the save of
    an unedited profile reports the error and no success. *)
Lemma unedited_save_reports_refetch_error :
  log (snd (snd (OnePageApp.saveProfile (always (Resp server_error)) (JStr "t")
                   (unedited, empty_world))))
    = [EvFetch (apiService.getMedicalProfile_request (always (Resp server_error))
                  (JStr "t"));
       EvToast ToastError "Internal Server Error"].
Proof. reflexivity. Qed.

(** ** The chat pane *)

Lemma delete_lookup_NoDup {A} (l : list A) (k : nat) (x : A) :
  NoDup l -> l !! k = Some x -> x ∉ delete k l.
Proof.
  revert k. induction l as [| y l IH]; intros [| k] Hnd Hk; simpl in *;
    try discriminate.
  - injection Hk as ->. now apply NoDup_cons in Hnd as [H _].
  - apply NoDup_cons in Hnd as [Hy Hnd]. intros Hin.
    apply elem_of_cons in Hin as [-> | Hin].
    + apply Hy. now apply (list_elem_of_lookup_2 _ k).
    + now apply (IH k).
Qed.

Lemma delete_lookup_other {A} (l : list A) (k : nat) (x y : A) :
  l !! k = Some y -> x <> y -> (x ∈ delete k l <-> x ∈ l).
Proof.
  revert k. induction l as [| z l IH]; intros [| k] Hk Hne; simpl in *;
    try discriminate.
  - injection Hk as ->. rewrite elem_of_cons. intuition congruence.
  - rewrite !elem_of_cons, (IH k Hk Hne). reflexivity.
Qed.

Section Chat.
Variable env : Env.
Variable token : JsVal.

(** The synchronous part of [send] either returns at the guard, touching
    nothing, or queues the user entry, clears the input, raises [sending]
    and puts the request on the wire. *)
Lemma send_start_cases (l : Views.ChatLocal) (st : Views.ChatState) (w : World) :
  (Views.text l = "" \/ truthy token = false) /\
    Views.send_start env token l (st, w) = (Return None, (st, w))
  \/
  (Views.text l <> "" /\ truthy token = true) /\
    Views.send_start env token l (st, w)
      = (Return (Some (net env (log w)
                         (Views.chat_request env token (Views.text l)))),
         (Views.on_pane (Views.setSending true)
            (Views.on_pane (Views.setText "")
               (Views.setMessages (Views.AppendEntry (user_entry (Views.text l)))
                  st)),
          logged (EvFetch (Views.chat_request env token (Views.text l))) w)).
Proof.
  unfold Views.send_start.
  destruct (String.eqb_spec (Views.text l) "") as [E | E]; simpl.
  - left. split; [now left | reflexivity].
  - destruct (truthy token); simpl.
    + right. split; [now split | reflexivity].
    + left. split; [now right | reflexivity].
Qed.

(** The rest of [send] returns, whatever the request settled with: it has
    queued one update of the transcript and lowered [sending] in the view
    that made the call, if that view is still mounted. *)
Lemma send_settle_run (i : nat) (res : FetchResult) (st : Views.ChatState)
    (w : World) :
  exists u,
    Views.send_settle i res (st, w)
      = (Return tt,
         (Views.on_mounting i (Views.setSending false) (Views.setMessages u st),
          w)) /\
    (forall response data,
       res = Resp response -> ok response = true ->
       json response = Return data -> u = Views.AppendReply data) /\
    (forall e, res = NetworkError e -> u = Views.AppendEntry fallback_entry) /\
    (forall response, res = Resp response -> ok response = false ->
       u = Views.AppendEntry fallback_entry) /\
    (forall response e, res = Resp response -> json response = Throw e ->
       u = Views.AppendEntry fallback_entry).
Proof.
  unfold Views.send_settle. run_handler.
  destruct res as [e | response]; simpl.
  - exists (Views.AppendEntry fallback_entry).
    split_and!; try reflexivity; intros; discriminate.
  - destruct (ok response) eqn:Hok; simpl.
    + destruct (json response) as [e | data] eqn:Hjson; simpl.
      * exists (Views.AppendEntry fallback_entry).
        split_and!; try reflexivity; try discriminate.
        intros ? ? [= <-]. congruence.
      * exists (Views.AppendReply data).
        split_and!; try reflexivity; try discriminate.
        -- intros ? ? [= <-]. congruence.
        -- intros ? [= <-]. congruence.
        -- intros ? ? [= <-]. congruence.
    + exists (Views.AppendEntry fallback_entry).
      split_and!; try reflexivity; try discriminate.
      intros ? ? [= <-]. congruence.
Qed.

(** A send whose view stays mounted, from a rendered state: the first
    render puts the user entry in the transcript, the second runs the one
    update the rest of the call queued. *)
Lemma send_run (st : Views.ChatState) (w : World) (l : Views.ChatLocal) :
  Views.queue st = [] ->
  Views.pane st = Some l ->
  Views.text l <> "" ->
  truthy token = true ->
  let request := Views.chat_request env token (Views.text l) in
  let res := net env (log w) request in
  let sent := (Views.messages st ++ [user_entry (Views.text l)])%list in
  exists u,
    (forall response data,
       res = Resp response -> ok response = true ->
       json response = Return data -> u = Views.AppendReply data) /\
    (forall e, res = NetworkError e -> u = Views.AppendEntry fallback_entry) /\
    (forall response, res = Resp response -> ok response = false ->
       u = Views.AppendEntry fallback_entry) /\
    Views.send env token (st, w)
      = match Views.run_updater u sent with
        | Throw e =>
            (Throw e,
             (Views.mkChat sent [u] (Some (Views.mkLocal "" false))
                (Views.mounting st) (Views.in_flight st),
              logged (EvFetch request) w))
        | Return m =>
            (Return tt,
             (Views.mkChat m [] (Some (Views.mkLocal "" false))
                (Views.mounting st) (Views.in_flight st),
              logged (EvFetch request) w))
        end.
Proof.
  intros Hq Hpane Hne Htoken request res sent.
  unfold Views.send. simpl. rewrite Hpane.
  unfold bind at 1.
  destruct (send_start_cases l st w) as [[[H | H] _] | [_ ->]];
    [contradiction | congruence |].
  unfold bind at 1. unfold Views.render at 1. simpl. rewrite Hq, Hpane. simpl.
  fold request res sent. unfold bind.
  match goal with
  | |- context [Views.send_settle ?i res (?st1, ?w1)] =>
      destruct (send_settle_run i res st1 w1)
        as (u & Hsettle & Hreply & Hnet & Hstatus & _)
  end.
  exists u. split; [exact Hreply |]. split; [exact Hnet |].
  split; [exact Hstatus |].
  rewrite Hsettle.
  unfold Views.render, Views.on_mounting, Views.on_pane, Views.setMessages.
  simpl. rewrite Nat.eqb_refl. simpl.
  destruct (Views.run_updater u sent); reflexivity.
Qed.

End Chat.



(** When the chat answers with status 200 and the body [null], the handler's
    [try] has nothing to catch: [data.reply] is read by the queued updater,
    the render that runs it throws the [TypeError], and the transcript holds
    the user entry alone. *)
Lemma null_reply_reaches_the_render (env : Env) (token : JsVal)
    (st : Views.ChatState) (l : Views.ChatLocal) (w : World) (response : Response)
    (data : JsVal) :
  Views.queue st = [] ->
  Views.pane st = Some l ->
  Views.text l <> "" ->
  truthy token = true ->
  net env (log w) (Views.chat_request env token (Views.text l)) = Resp response ->
  ok response = true ->
  json response = Return data ->
  is_nullish data = true ->
  exists e st' w',
    Views.send env token (st, w) = (Throw e, (st', w')) /\
    Views.messages st' = (Views.messages st ++ [user_entry (Views.text l)])%list.
Proof.
  intros Hq Hpane Hne Htoken Hres Hok Hjson Hnull.
  destruct (send_run env token st w l Hq Hpane Hne Htoken)
    as (u & Hreply & _ & _ & Hrun).
  rewrite (Hreply response data Hres Hok Hjson) in Hrun. simpl in Hrun.
  unfold get_prop in Hrun. rewrite Hnull in Hrun.
  do 3 eexists. split; [exact Hrun | reflexivity].
Qed.

(** So it goes with [Hello] sent to a backend that answers [null]. *)
Lemma null_body_breaks_the_render :
  exists st' w',
    Views.send (always (Resp null_body)) (JStr "t") (hello_typed, empty_world)
      = (Throw "Cannot read properties of null (reading 'reply')", (st', w')) /\
    Views.messages st' = [user_entry "Hello"].
Proof.
  destruct (null_reply_reaches_the_render (always (Resp null_body)) (JStr "t")
              hello_typed (Views.mkLocal "Hello" false) empty_world null_body JNull
              eq_refl eq_refl ltac:(discriminate) eq_refl eq_refl eq_refl eq_refl
              eq_refl)
    as (e & st' & w' & Hrun & Hmessages).
  exists st', w'. split; [| exact Hmessages].
  rewrite Hrun. vm_compute in Hrun. now injection Hrun as <- _ _.
Qed.

(** ** The Send button and the requests in flight *)

Lemma initial_chat_coherent : coherent Views.initial_chat.
Proof.
  split_and!; [reflexivity | constructor | constructor |].
  intros l H. discriminate H.
Qed.

Lemma coherent_frame (st st' : Views.ChatState) :
  coherent st ->
  Views.queue st' = [] ->
  Views.mounting st' = Views.mounting st ->
  Views.in_flight st' = Views.in_flight st ->
  (forall l', Views.pane st' = Some l' ->
     exists l, Views.pane st = Some l /\ Views.sending l' = Views.sending l) ->
  coherent st'.
Proof.
  intros (Hq & Hnd & Hle & Hs) Hq' Hm Hf Hp. unfold coherent, own_request_in_flight.
  rewrite Hm, Hf. split_and!; try assumption.
  intros l' Hl'. destruct (Hp l' Hl') as (l & Hl & ->). exact (Hs l Hl).
Qed.

(** The state a call leaves once it has run to its end and the page has
    rendered. *)
Lemma coherent_settled (st : Views.ChatState) (k i : nat) (res : FetchResult)
    (m : list Views.ChatMessage) :
  coherent st ->
  Views.in_flight st !! k = Some (i, res) ->
  coherent (Views.mkChat m []
              (Views.pane (Views.on_mounting i (Views.setSending false) st))
              (Views.mounting st) (delete k (Views.in_flight st))).
Proof.
  intros (Hq & Hnd & Hle & Hs) Hk.
  assert ((Views.in_flight st).*1 !! k = Some i) as Hi
    by (rewrite list_lookup_fmap, Hk; reflexivity).
  unfold coherent, own_request_in_flight. simpl. rewrite list_fmap_delete.
  split_and!.
  - reflexivity.
  - exact (sublist_NoDup _ _ Hnd (sublist_delete _ _)).
  - now apply Forall_delete.
  - intros l'. unfold Views.on_mounting.
    destruct (Nat.eqb_spec (Views.mounting st) i) as [<- | Hne]; simpl.
    + destruct (Views.pane st) as [l |]; [| discriminate]. simpl.
      intros [= <-]. simpl. split; [discriminate |].
      intros Hin. exfalso. exact (delete_lookup_NoDup _ _ _ Hnd Hi Hin).
    + intros Hl'. rewrite (delete_lookup_other _ _ _ _ Hi Hne). exact (Hs l' Hl').
Qed.

Section Coherence.
Variable env : Env.
Variable token : JsVal.

Lemma click_send_coherent (st st' : Views.ChatState) (w w' : World) :
  coherent st ->
  Views.click_send env token (st, w) = (Return tt, (st', w')) ->
  coherent st'.
Proof.
  intros Hco Hrun.
  unfold Views.click_send in Hrun. simpl in Hrun.
  destruct (Views.pane st) as [l |] eqn:Hpane; [| now injection Hrun as <- _].
  unfold Views.send_disabled in Hrun.
  destruct (Views.sending l) eqn:Hsending; [now injection Hrun as <- _ |].
  pose proof Hco as (Hq & Hnd & Hle & Hs).
  unfold bind at 1 in Hrun. unfold bind at 1 in Hrun.
  destruct (send_start_cases env token l st w) as [[_ Hstart] | [_ Hstart]];
    rewrite Hstart in Hrun; simpl in Hrun.
  - unfold Views.render in Hrun. simpl in Hrun. rewrite Hq in Hrun. simpl in Hrun.
    injection Hrun as <- _.
    apply (coherent_frame st _ Hco);
      [first [reflexivity | exact Hq] | reflexivity | reflexivity |].
    simpl. intros l' Hl'. exists l'. split; [exact Hl' | reflexivity].
  - unfold Views.render in Hrun. simpl in Hrun.
    rewrite Hq, Hpane in Hrun. simpl in Hrun.
    injection Hrun as <- _.
    assert (Views.mounting st ∉ (Views.in_flight st).*1) as Hfresh.
    { intros Hin. apply (Hs l Hpane) in Hin. congruence. }
    unfold coherent, own_request_in_flight. simpl. rewrite fmap_app. simpl.
    split_and!.
    + reflexivity.
    + apply NoDup_app. split; [exact Hnd |]. split.
      * intros x Hx Hx'. apply list_elem_of_singleton in Hx'. now subst x.
      * apply NoDup_singleton.
    + apply Forall_app. split; [exact Hle |]. now constructor.
    + intros l' [= <-]. simpl. split; [intros _ | reflexivity].
      apply elem_of_app. right. now left.
Qed.

Lemma settle_coherent (k : nat) (st st' : Views.ChatState) (w w' : World) :
  coherent st ->
  Views.settle k (st, w) = (Return tt, (st', w')) ->
  coherent st'.
Proof.
  intros Hco Hrun. pose proof Hco as (Hq & _).
  unfold Views.settle in Hrun. simpl in Hrun.
  destruct (Views.in_flight st !! k) as [[i res] |] eqn:Hk;
    [| now injection Hrun as <- _].
  unfold bind at 1 in Hrun. simpl in Hrun. unfold bind in Hrun.
  match type of Hrun with
  | context [Views.send_settle i res (?st1, ?w1)] =>
      destruct (send_settle_run i res st1 w1) as (u & Hsettle & _)
  end.
  rewrite Hsettle in Hrun. unfold Views.render in Hrun. simpl in Hrun.
  unfold Views.on_mounting, Views.on_pane, Views.setMessages, Views.resume in Hrun.
  simpl in Hrun. rewrite Hq in Hrun. simpl in Hrun.
  destruct (Views.mounting st =? i)%nat eqn:Hm; simpl in Hrun;
    (destruct (Views.run_updater u (Views.messages st)) as [e | m];
     [discriminate Hrun |]);
    injection Hrun as <- _;
    pose proof (coherent_settled st k i res m Hco Hk) as Hgoal;
    unfold Views.on_mounting, Views.on_pane in Hgoal; rewrite Hm in Hgoal;
    exact Hgoal.
Qed.

Lemma act_coherent (a : Views.ChatEvent) (st st' : Views.ChatState)
    (w w' : World) :
  coherent st ->
  Views.act env token a (st, w) = (Return tt, (st', w')) ->
  coherent st'.
Proof.
  intros Hco Hrun.
  assert (forall v, coherent (Views.setView v st)) as Hview.
  { intros v. pose proof Hco as (Hq & Hnd & Hle & Hs). unfold Views.setView.
    destruct (String.eqb v "chat"); [destruct (Views.pane st) eqn:Hpane |].
    - exact Hco.
    - unfold coherent, own_request_in_flight. simpl. split_and!; try assumption.
      + eapply Forall_impl; [exact Hle |]. simpl. lia.
      + intros l' [= <-]. simpl. split; [discriminate |]. intros Hin.
        rewrite Forall_forall in Hle. apply Hle in Hin. lia.
    - unfold coherent, own_request_in_flight. simpl. split_and!; try assumption.
      intros l' H. discriminate H. }
  assert (Views.queue st = []) as Hq by apply Hco.
  destruct a as [typed | | v | | | k]; simpl in Hrun.
  - injection Hrun as <- _.
    apply (coherent_frame st _ Hco);
      [first [reflexivity | exact Hq] | reflexivity | reflexivity |].
    simpl. intros l' Hl'. destruct (Views.pane st) as [l |]; [| discriminate].
    injection Hl' as <-. now exists l.
  - exact (click_send_coherent st st' w w' Hco Hrun).
  - injection Hrun as <- _. apply Hview.
  - injection Hrun as <- _. unfold Views.toggleChat.
    destruct (Views.pane st); apply Hview.
  - unfold Views.clearChat in Hrun. simpl in Hrun.
    destruct (Views.pane st) as [l |] eqn:Hpane; [| now injection Hrun as <- _].
    destruct (length (Views.messages st) =? 0)%nat;
      [now injection Hrun as <- _ |].
    unfold bind, in_world, window_confirm in Hrun. simpl in Hrun.
    destruct (confirm_answer env (log w) "Clear chat history?"); simpl in Hrun.
    + unfold Views.render in Hrun. simpl in Hrun. rewrite Hq in Hrun.
      simpl in Hrun. injection Hrun as <- _.
      apply (coherent_frame st _ Hco);
      [first [reflexivity | exact Hq] | reflexivity | reflexivity |].
      simpl. intros l' Hl'. exists l'. split; [exact Hl' | reflexivity].
    + now injection Hrun as <- _.
  - exact (settle_coherent k st st' w w' Hco Hrun).
Qed.

(** Every state the chat reaches is coherent. *)
Lemma run_coherent (events : list Views.ChatEvent) (st st' : Views.ChatState)
    (w w' : World) :
  coherent st ->
  Views.run env token events (st, w) = (Return tt, (st', w')) ->
  coherent st'.
Proof.
  revert st w. induction events as [| a events IH]; intros st w Hco Hrun.
  - now injection Hrun as <- _.
  - simpl in Hrun. unfold bind in Hrun.
    destruct (Views.act env token a (st, w)) as [[e | []] [st1 w1]] eqn:Hact;
      [discriminate Hrun |].
    exact (IH st1 w1 (act_coherent a st st1 w w1 Hco Hact) Hrun).
Qed.

End Coherence.

(** C8, as the code has it.  In every state the chat reaches, a click on
    Send while a request sent from the chat view as it is mounted now is
    still in flight, or while the input is empty, changes nothing: the
    transcript and the rest of the state are what they were and no request is
    issued.  With the input not empty, a token and no such request in
    flight, the click does send: the user entry joins the transcript, one
    request goes out, and that request is then in flight. *)
Theorem click_send_blocked (env : Env) (token : JsVal)
    (events : list Views.ChatEvent) (w0 : World) (st : Views.ChatState)
    (w : World) :
  Views.run env token events (Views.initial_chat, w0) = (Return tt, (st, w)) ->
  (own_request_in_flight st \/ input_empty st ->
     Views.click_send env token (st, w) = (Return tt, (st, w))) /\
  (forall l,
     Views.pane st = Some l -> Views.text l <> "" -> truthy token = true ->
     ~ own_request_in_flight st ->
     exists st' w',
       Views.click_send env token (st, w) = (Return tt, (st', w')) /\
       Views.messages st' = (Views.messages st ++ [user_entry (Views.text l)])%list /\
       log w' = (log w ++ [EvFetch (Views.chat_request env token (Views.text l))])%list /\
       own_request_in_flight st').
Proof.
  intros Hrun.
  pose proof (run_coherent env token events _ _ _ _ initial_chat_coherent Hrun)
    as Hco.
  split.
  - intros Hblocked.
    unfold Views.click_send, Views.send_disabled. simpl.
    destruct (Views.pane st) as [l |] eqn:Hpane; [| reflexivity].
    destruct (Views.sending l) eqn:Hsending; [reflexivity |].
    pose proof Hco as (Hq & _ & _ & Hs).
    destruct Hblocked as [Hown | (l' & Hl' & Hempty)].
    + apply (Hs l Hpane) in Hown. congruence.
    + rewrite Hpane in Hl'. injection Hl' as <-.
      unfold bind at 1. unfold bind at 1.
      destruct (send_start_cases env token l st w) as [[_ ->] | [[Hne _] _]];
        [| contradiction].
      simpl. unfold Views.render. simpl. rewrite Hq. simpl.
      destruct st; simpl in *; subst; reflexivity.
  - intros l Hpane Hne Htoken Hfree. pose proof Hco as (Hq & _ & _ & Hs).
    unfold Views.click_send, Views.send_disabled. simpl. rewrite Hpane.
    destruct (Views.sending l) eqn:Hsending;
      [exfalso; apply Hfree; now apply (Hs l Hpane) |].
    unfold bind at 1. unfold bind at 1.
    destruct (send_start_cases env token l st w) as [[[H | H] _] | [_ ->]];
      [contradiction | congruence |].
    simpl. unfold Views.render. simpl. rewrite Hq. simpl.
    do 2 eexists. split; [reflexivity |]. simpl.
    split; [reflexivity |]. split; [reflexivity |].
    unfold own_request_in_flight. simpl. rewrite fmap_app.
    apply elem_of_app. right. now left.
Qed.

Lemma click_send_blocked_witness :
  let env := always (Resp hi_there) in
  let reached :=
    snd (Views.run env (JStr "t")
           [Views.SetView "chat"; Views.Typing "Hello"; Views.ClickSend;
            Views.Typing "again"]
           (Views.initial_chat, empty_world)) in
  own_request_in_flight (fst reached) /\
  Views.click_send env (JStr "t") reached = (Return tt, reached).
Proof.
  assert (own_request_in_flight
            (fst (snd (Views.run (always (Resp hi_there)) (JStr "t")
                         [Views.SetView "chat"; Views.Typing "Hello";
                          Views.ClickSend; Views.Typing "again"]
                         (Views.initial_chat, empty_world))))) as Hown.
  { unfold own_request_in_flight. vm_compute. now left. }
  split; [exact Hown |].
  exact (proj1 (click_send_blocked (always (Resp hi_there)) (JStr "t")
                  [Views.SetView "chat"; Views.Typing "Hello"; Views.ClickSend;
                   Views.Typing "again"]
                  empty_world _ _ eq_refl)
           (or_introl Hown)).
Defined.

(** C8 as stated fails once the chat view has been closed and opened again
    while a request is in flight: the new view starts with [sending] down, so
    with [Again] typed a click on Send adds a user entry and puts a second
    request on the wire, the first still unanswered. *)
Lemma reopened_pane_sends_again :
  exists st w st' w',
    Views.run (always (Resp hi_there)) (JStr "t")
      [Views.SetView "chat"; Views.Typing "Hello"; Views.ClickSend;
       Views.ToggleChat; Views.ToggleChat; Views.Typing "Again"]
      (Views.initial_chat, empty_world) = (Return tt, (st, w)) /\
    Views.in_flight st = [(1%nat, Resp hi_there)] /\
    Views.messages st = [user_entry "Hello"] /\
    requests (log w)
      = [Views.chat_request (always (Resp hi_there)) (JStr "t") "Hello"] /\
    Views.click_send (always (Resp hi_there)) (JStr "t") (st, w)
      = (Return tt, (st', w')) /\
    Views.messages st' = [user_entry "Hello"; user_entry "Again"] /\
    requests (log w')
      = [Views.chat_request (always (Resp hi_there)) (JStr "t") "Hello";
         Views.chat_request (always (Resp hi_there)) (JStr "t") "Again"].
Proof.
  pose (reached :=
          snd (Views.run (always (Resp hi_there)) (JStr "t")
                 [Views.SetView "chat"; Views.Typing "Hello"; Views.ClickSend;
                  Views.ToggleChat; Views.ToggleChat; Views.Typing "Again"]
                 (Views.initial_chat, empty_world))).
  pose (clicked :=
          snd (Views.click_send (always (Resp hi_there)) (JStr "t") reached)).
  exists (fst reached), (snd reached), (fst clicked), (snd clicked).
  split_and!; vm_compute; reflexivity.
Qed.

(** ** The uploads list *)

Lemma span_digits_spec (s : string) :
  s = fst (Views.span_digits s) ++ snd (Views.span_digits s) /\
  all_digits (fst (Views.span_digits s)) = true.
Proof.
  induction s as [| c rest [IH1 IH2]]; simpl; [split; reflexivity |].
  destruct (Views.is_digit c) eqn:Hc; [| split; reflexivity].
  destruct (Views.span_digits rest) as [ds tl]. simpl in *.
  split; [now rewrite IH1 at 1 | now rewrite Hc, IH2].
Qed.

Lemma space_is_no_digit (c : ascii) :
  Ascii.eqb (Views.lower " ") (Views.lower c) = true -> Views.is_digit c = false.
Proof.
  destruct c as [[] [] [] [] [] [] [] []]; vm_compute; congruence.
Qed.

(** A run of digits followed by the word is the longest such run. *)
Lemma span_digits_run (n after : string) :
  all_digits n = true ->
  Views.prefix_ci " seconds" after = true ->
  Views.span_digits (n ++ after) = (n, after).
Proof.
  intros Hn Hafter. induction n as [| c n IH]; simpl in *.
  - destruct after as [| a after']; [discriminate Hafter |].
    simpl in Hafter. apply andb_true_iff in Hafter as [Ha _].
    simpl. now rewrite (space_is_no_digit a Ha).
  - apply andb_true_iff in Hn as [Hc Hn]. rewrite Hc, (IH Hn). reflexivity.
Qed.

Lemma exec_seconds_step (c : ascii) (rest : string) :
  Views.exec_seconds (String c rest)
    = let '(digits, tl) := Views.span_digits (String c rest) in
      if negb (String.eqb digits "") && Views.prefix_ci " seconds" tl
      then Some digits
      else Views.exec_seconds rest.
Proof. reflexivity. Qed.

Lemma exec_seconds_first (msg n : string) :
  Views.exec_seconds msg = Some n -> first_seconds_count msg n.
Proof.
  revert n. induction msg as [| c rest IH]; [discriminate |].
  intros n H. rewrite exec_seconds_step in H.
  destruct (span_digits_spec (String c rest)) as [Hsplit Hdigits].
  destruct (Views.span_digits (String c rest)) as [ds tl] eqn:Hspan.
  simpl in Hsplit, Hdigits.
  destruct (negb (String.eqb ds "") && Views.prefix_ci " seconds" tl) eqn:Hhit.
  - injection H as <-. apply andb_true_iff in Hhit as [Hne Htl].
    exists "", tl. split.
    + split; [exact Hsplit |]. split; [| split; assumption].
      intros ->. discriminate Hne.
    + intros. simpl. lia.
  - destruct (IH n H) as (before & after & (Hrest & Hne & Hd & Hafter) & Hmin).
    exists (String c before), after. split.
    + split; [| now split_and!].
      change (String c before ++ n ++ after)
        with (String c (before ++ n ++ after)). now rewrite Hrest.
    + intros before' n' after' (Hmsg & Hne' & Hd' & Hafter').
      destruct before' as [| b before'].
      * exfalso. change ("" ++ n' ++ after') with (n' ++ after') in Hmsg.
        pose proof (span_digits_run n' after' Hd' Hafter') as Hrun.
        rewrite <- Hmsg, Hspan in Hrun. injection Hrun as -> ->.
        rewrite Hafter' in Hhit.
        destruct (String.eqb_spec n' ""); [contradiction | discriminate Hhit].
      * change (String b before' ++ n' ++ after')
          with (String b (before' ++ n' ++ after')) in Hmsg.
        injection Hmsg as _ Hmsg. simpl.
        apply le_n_S. apply (Hmin before' n' after'). now split_and!.
Qed.

Lemma exec_seconds_complete (msg n : string) :
  seconds_count msg n -> exists m, Views.exec_seconds msg = Some m.
Proof.
  intros (before & after & -> & Hne & Hd & Hafter).
  induction before as [| b before IH].
  - destruct n as [| c n']; [contradiction |].
    assert (Hrun := span_digits_run (String c n') after Hd Hafter).
    change ("" ++ String c n' ++ after) with (String c (n' ++ after)).
    change (String c n' ++ after) with (String c (n' ++ after)) in Hrun.
    rewrite exec_seconds_step, Hrun. cbn [String.eqb negb andb].
    rewrite Hafter. eauto.
  - change (String b before ++ n ++ after)
      with (String b (before ++ n ++ after)).
    rewrite exec_seconds_step.
    destruct (Views.span_digits (String b (before ++ n ++ after))) as [ds tl].
    destruct (negb (String.eqb ds "") && Views.prefix_ci " seconds" tl);
      [eauto | exact IH].
Qed.

Lemma exec_seconds_none (msg : string) :
  (forall n, ~ seconds_count msg n) -> Views.exec_seconds msg = None.
Proof.
  intros Hnone. destruct (Views.exec_seconds msg) as [n |] eqn:E; [| reflexivity].
  destruct (exec_seconds_first msg n E) as (before & after & Hat & _).
  destruct (Hnone n). now exists before, after.
Qed.

Lemma str_or_empty_r (a : string) : str_or a "" = a.
Proof. unfold str_or. now destruct (String.eqb_spec a "") as [-> | _]. Qed.

(** What the retry handler shows for an error message: the message itself
    when it holds no seconds count, else the fixed sentence around the
    leftmost count. *)
Lemma retry_failure_text_cases (e : string) :
  ((forall n, ~ seconds_count e n) ->
     Views.retry_failure_text e = if String.eqb e "" then "Retry failed" else e) /\
  ((exists n, seconds_count e n) ->
     exists n, first_seconds_count e n /\
               Views.retry_failure_text e
                 = "Please wait ~" ++ n ++ "s before retrying again.").
Proof.
  unfold Views.retry_failure_text. rewrite str_or_empty_r. split.
  - intros Hnone. now rewrite (exec_seconds_none e Hnone).
  - intros [n Hn]. destruct (exec_seconds_complete e n Hn) as [m Hm].
    pose proof (exec_seconds_first e m Hm) as Hfirst.
    exists m. split; [exact Hfirst |]. rewrite Hm.
    destruct Hfirst as (before & after & (_ & Hne & _) & _).
    simpl. destruct (String.eqb_spec m ""); [contradiction | reflexivity].
Qed.

(** C9, as the code has it.  For every failed [retryExtraction] call the
    retry handler returns normally and shows one alert.  When the error
    message holds no seconds count the alert is the message verbatim
    ([Retry failed] for an empty message).  When it holds one, the alert is
    not the message but the sentence [Please wait ~Ns before retrying again.]
    with [N] the leftmost seconds count of the message. *)
Theorem retry_failure_alert (env : Env) (token : JsVal) (f : Views.File)
    (st : Views.UploadsState) (w : World) (e : string) :
  fst (apiService.retryExtraction env (Views.id f) token w) = Throw e ->
  exists st' w' shown,
    Views.onRetry env token f (st, w) = (Return tt, (st', w')) /\
    log w' = (log w ++ [EvFetch (apiService.retryExtraction_request env (Views.id f)
                                   token);
                        EvAlert shown])%list /\
    ((forall n, ~ seconds_count e n) ->
       shown = if String.eqb e "" then "Retry failed" else e) /\
    ((exists n, seconds_count e n) ->
       exists n, first_seconds_count e n /\
                 shown = "Please wait ~" ++ n ++ "s before retrying again.").
Proof.
  intros Hfail.
  pose proof (perform_world env (OpRetryExtraction (Views.id f) token) w) as Hw1.
  simpl in Hw1.
  unfold Views.onRetry. run_handler.
  destruct (apiService.retryExtraction env (Views.id f) token w) as [r1 w1].
  simpl in Hfail, Hw1. subst r1 w1. simpl.
  exists (Views.setRetryBusy (insert (ToString (Views.id f)) false)
            (Views.setRetryBusy (insert (ToString (Views.id f)) true) st)).
  eexists. exists (Views.retry_failure_text e).
  split; [reflexivity |]. simpl. split; [now rewrite <- app_assoc |].
  apply retry_failure_text_cases.
Qed.

Lemma retry_failure_alert_witness :
  exists st' w',
    Views.onRetry (always (Resp cooldown)) (JStr "t") rx_pending
      (uploads_idle, empty_world) = (Return tt, (st', w')) /\
    log w' = [EvFetch (apiService.retryExtraction_request (always (Resp cooldown))
                         (JNum 3) (JStr "t"));
              EvAlert "Please wait ~30s before retrying again."].
Proof.
  destruct (retry_failure_alert (always (Resp cooldown)) (JStr "t") rx_pending
              uploads_idle empty_world
              "Retry cooldown active. Try again in 30 seconds." eq_refl)
    as (st' & w' & shown & Hrun & Hlog & _ & _).
  exists st', w'. split; [exact Hrun |].
  vm_compute in Hrun. injection Hrun as <- <-. reflexivity.
Defined.

(** C9 as stated fails: on a cooldown the alert is not the error message of
    the failed call. *)
Lemma cooldown_message_is_rewritten :
  fst (apiService.retryExtraction (always (Resp cooldown)) (JNum 3) (JStr "t")
         empty_world)
    = Throw "Retry cooldown active. Try again in 30 seconds." /\
  log (snd (snd (Views.onRetry (always (Resp cooldown)) (JStr "t") rx_pending
                   (uploads_idle, empty_world))))
    = [EvFetch (apiService.retryExtraction_request (always (Resp cooldown))
                  (JNum 3) (JStr "t"));
       EvAlert "Please wait ~30s before retrying again."] /\
  "Please wait ~30s before retrying again."
    <> "Retry cooldown active. Try again in 30 seconds.".
Proof. split; [reflexivity | split; [reflexivity | discriminate]]. Qed.

(** The delete handler opens with the confirmation dialog; declined, it does
    nothing more; accepted, the next thing it does is the DELETE request. *)
Lemma onDelete_run (env : Env) (token : JsVal) (f : Views.File)
    (st : Views.UploadsState) (w : World) :
  exists st' w' after,
    Views.onDelete env token f (st, w) = (Return tt, (st', w')) /\
    log w' = (log w
              ++ EvConfirm delete_prompt (confirm_answer env (log w) delete_prompt)
                 :: after)%list /\
    (confirm_answer env (log w) delete_prompt = false -> after = [] /\ st' = st) /\
    (confirm_answer env (log w) delete_prompt = true ->
       exists rest,
         after = EvFetch (apiService.deleteFile_request env (Views.id f) token)
                   :: rest).
Proof.
  unfold Views.onDelete. run_handler. fold delete_prompt.
  destruct (confirm_answer env (log w) delete_prompt) eqn:Hanswer; simpl.
  2: { exists st. eexists. exists []. split; [reflexivity |]. simpl.
       split; [reflexivity |]. split; [now split | discriminate]. }
  match goal with
  | |- context [apiService.deleteFile env ?i token ?w1] =>
      pose proof (perform_world env (OpDeleteFile i token) w1) as Hw1;
      simpl in Hw1;
      destruct (apiService.deleteFile env i token w1) as [r1 w1']
  end.
  simpl in Hw1. subst w1'.
  destruct r1 as [e1 | deleted]; simpl.
  - do 3 eexists. split; [reflexivity |]. simpl.
    split; [rewrite <- !app_assoc; simpl; reflexivity |].
    split; [discriminate | eauto].
  - unfold Views.refreshList, try_catch, bind.
    match goal with
    | |- context [apiService.getFiles env token ?w2] =>
        pose proof (perform_world env (OpGetFiles token) w2) as Hw2;
        simpl in Hw2;
        destruct (apiService.getFiles env token w2) as [r2 w2']
    end.
    simpl in Hw2. subst w2'.
    destruct r2 as [e2 | files]; simpl;
      (do 3 eexists; split; [reflexivity |]; simpl;
       split; [rewrite <- !app_assoc; simpl; reflexivity |];
       split; [discriminate | eauto]).
Qed.

(** C6. For every row of the uploads list: with status [accepted] neither
    Review/Accept nor Retry is among its buttons; with any other status both
    are; Delete is there for every status, and a click on it first shows
    the confirmation dialog: nothing else happens when the user declines, and
    the DELETE request comes only after the user accepts. *)
Theorem uploads_row_actions (env : Env) (token : JsVal) (st : Views.UploadsState)
    (f : Views.File) (w : World) :
  (Views.status f = JStr "accepted" ->
     ~ In Views.ReviewAccept (Views.actions (Views.row_buttons st f)) /\
     ~ In Views.Retry (Views.actions (Views.row_buttons st f))) /\
  (Views.status f <> JStr "accepted" ->
     In Views.ReviewAccept (Views.actions (Views.row_buttons st f)) /\
     In Views.Retry (Views.actions (Views.row_buttons st f))) /\
  In Views.Delete (Views.actions (Views.row_buttons st f)) /\
  exists st' w' after,
    Views.onDelete env token f (st, w) = (Return tt, (st', w')) /\
    log w' = (log w
              ++ EvConfirm delete_prompt (confirm_answer env (log w) delete_prompt)
                 :: after)%list /\
    (confirm_answer env (log w) delete_prompt = false -> after = [] /\ st' = st) /\
    (confirm_answer env (log w) delete_prompt = true ->
       exists rest,
         after = EvFetch (apiService.deleteFile_request env (Views.id f) token)
                   :: rest).
Proof.
  split_and!.
  - intros Hst. unfold Views.row_buttons, Views.actions. rewrite Hst. simpl.
    split; intros [H | [H | []]]; discriminate H.
  - intros Hst. unfold Views.row_buttons, Views.actions.
    destruct (strict_eq (Views.status f) (JStr "accepted")) eqn:E.
    + apply strict_eq_string in E. contradiction.
    + simpl. split; [right; now left | right; right; now left].
  - unfold Views.row_buttons, Views.actions.
    destruct (strict_eq (Views.status f) (JStr "accepted")); simpl; tauto.
  - apply onDelete_run.
Qed.

Lemma uploads_row_actions_witness :
  Views.actions (Views.row_buttons uploads_idle rx_accepted)
    = [Views.View; Views.Delete] /\
  Views.actions (Views.row_buttons uploads_idle rx_pending)
    = [Views.View; Views.ReviewAccept; Views.Retry; Views.Delete] /\
  (~ In Views.Retry (Views.actions (Views.row_buttons uploads_idle rx_accepted))) /\
  In Views.Retry (Views.actions (Views.row_buttons uploads_idle rx_pending)) /\
  log (snd (snd (Views.onDelete (declining (Resp profile_found)) (JStr "t")
                   rx_pending (uploads_idle, empty_world))))
    = [EvConfirm delete_prompt false].
Proof.
  pose proof (uploads_row_actions (declining (Resp profile_found)) (JStr "t")
                uploads_idle rx_accepted empty_world) as (Hacc & _ & _ & _).
  pose proof (uploads_row_actions (declining (Resp profile_found)) (JStr "t")
                uploads_idle rx_pending empty_world)
    as (_ & Hpend & _ & st' & w' & after & Hrun & Hlog & Hno & _).
  split; [reflexivity |]. split; [reflexivity |].
  split; [exact (proj2 (Hacc eq_refl)) |].
  split; [apply Hpend; discriminate |].
  destruct (Hno eq_refl) as [-> _]. rewrite Hrun. simpl. exact Hlog.
Defined.

(** * Further properties of the code *)

(** ** The base URL *)

Lemma trimStart_head (s : string) :
  trimStart s = "" \/
  exists c rest, trimStart s = String c rest /\ is_whitespace c = false.
Proof.
  induction s as [| c rest IH]; simpl; [now left |].
  destruct (is_whitespace c) eqn:Hc; [exact IH |]. right. eauto.
Qed.

Lemma trimEnd_cons (c : ascii) (rest : string) :
  trimEnd rest <> "" -> trimEnd (String c rest) = String c (trimEnd rest).
Proof.
  intros H. simpl. destruct (trimEnd rest); [contradiction | reflexivity].
Qed.

Lemma trimEnd_head (c : ascii) (rest : string) :
  is_whitespace c = false -> exists rest', trimEnd (String c rest) = String c rest'.
Proof.
  intros Hc. simpl. destruct (trimEnd rest); [rewrite Hc |]; eauto.
Qed.

Lemma trimEnd_idem (s : string) : trimEnd (trimEnd s) = trimEnd s.
Proof.
  induction s as [| c rest IH]; [reflexivity |].
  cbn [trimEnd]. destruct (trimEnd rest) as [| c' rest'] eqn:E.
  - destruct (is_whitespace c) eqn:Hc; [reflexivity |]. simpl. now rewrite Hc.
  - rewrite trimEnd_cons; [now rewrite IH |]. rewrite IH. discriminate.
Qed.

(** What [trim] returns starts with no white space and is left alone by
    another [trim]. *)
Lemma trim_head (s : string) :
  trim s = "" \/ exists c rest, trim s = String c rest /\ is_whitespace c = false.
Proof.
  unfold trim. destruct (trimStart_head s) as [-> | (c & rest & -> & Hc)];
    [now left |].
  right. destruct (trimEnd_head c rest Hc) as [rest' ->]. eauto.
Qed.

Lemma trim_idem (s : string) : trim (trim s) = trim s.
Proof.
  destruct (trim_head s) as [-> | (c & rest & E & Hc)]; [reflexivity |].
  unfold trim at 1. rewrite E. cbn [trimStart]. rewrite Hc.
  rewrite <- E. unfold trim. apply trimEnd_idem.
Qed.

Lemma startsWith_app (pat rest : string) : startsWith pat (pat ++ rest) = true.
Proof.
  induction pat as [| p pat IH]; [reflexivity |].
  change (String p pat ++ rest) with (String p (pat ++ rest)).
  cbn [startsWith]. now rewrite Ascii.eqb_refl, IH.
Qed.

Lemma startsWith_split (pat s : string) :
  startsWith pat s = true -> exists rest, s = pat ++ rest.
Proof.
  revert s. induction pat as [| p pat IH]; intros s H.
  - now exists s.
  - destruct s as [| c s]; [discriminate H |].
    cbn [startsWith] in H. apply andb_true_iff in H as [Hp H].
    apply Ascii.eqb_eq in Hp as <-. destruct (IH s H) as [rest ->].
    now exists rest.
Qed.

(** A text that carries a scheme is longer than the word [auto]. *)
Lemma scheme_is_not_auto (v rest : string) :
  v = "http" ++ rest -> rest <> "" -> String.eqb (toLowerCase v) "auto" = false.
Proof.
  intros -> Hrest. destruct rest as [| c rest]; [contradiction |]. reflexivity.
Qed.

Lemma prefixed_trim (pat t : string) (p : ascii) (pat' : string) :
  pat = String p pat' -> is_whitespace p = false ->
  trim t = t -> t <> "" ->
  trim (pat ++ t) = pat ++ t.
Proof.
  intros -> Hp Ht Hne.
  assert (Hend : trimEnd t = t /\ trimEnd t <> "").
  { destruct (trim_head t) as [E | (c & rest & E & Hc)]; [congruence |].
    rewrite Ht in E. subst t. unfold trim in Ht. cbn [trimStart] in Ht.
    rewrite Hc in Ht. split; [exact Ht | rewrite Ht; discriminate]. }
  destruct Hend as [Hend Hend'].
  unfold trim. change (String p pat' ++ t) with (String p (pat' ++ t)).
  cbn [trimStart]. rewrite Hp.
  assert (Hgo : forall q, trimEnd (q ++ t) = q ++ t /\ trimEnd (q ++ t) <> "").
  { induction q as [| a q [IH1 IH2]].
    - split; assumption.
    - change (String a q ++ t) with (String a (q ++ t)).
      rewrite trimEnd_cons by exact IH2. rewrite IH1. split; [reflexivity | discriminate]. }
  apply (Hgo (String p pat')).
Qed.

(** What [parseEnvApi] returns, when it returns a value: the trimmed text of
    the variable, which is not empty, behind [http://] when it has no scheme
    of its own. *)
Lemma parseEnvApi_cases (val : JsVal) (v : string) :
  ApiConfig.parseEnvApi val = Some v ->
  (if startsWith "http://" (trim (ToString val))
      || startsWith "https://" (trim (ToString val))
   then v = trim (ToString val)
   else v = "http://" ++ trim (ToString val)) /\
  trim (ToString val) <> "".
Proof.
  unfold ApiConfig.parseEnvApi. destruct (truthy val); cbn [negb];
    [| discriminate].
  cbv zeta.
  destruct (String.eqb_spec (trim (ToString val)) "") as [E | Hne];
    cbn [orb]; [discriminate |].
  destruct (String.eqb (toLowerCase (trim (ToString val))) "auto");
    [discriminate |].
  destruct (startsWith "http://" (trim (ToString val))) eqn:H1; cbn [orb].
  - intros [= <-]. split; [reflexivity | exact Hne].
  - destruct (startsWith "https://" (trim (ToString val))) eqn:H2.
    + intros [= <-]. split; [reflexivity | exact Hne].
    + intros [= <-]. split; [reflexivity | exact Hne].
Qed.

Lemma parseEnvApi_scheme (val : JsVal) (v : string) :
  ApiConfig.parseEnvApi val = Some v ->
  startsWith "http://" v = true \/ startsWith "https://" v = true.
Proof.
  intros H. destruct (parseEnvApi_cases val v H) as [Hv _].
  destruct (startsWith "http://" (trim (ToString val))) eqn:H1; cbn [orb] in Hv.
  - left. now rewrite Hv.
  - destruct (startsWith "https://" (trim (ToString val))) eqn:H2.
    + right. now rewrite Hv.
    + left. rewrite Hv. apply (startsWith_app "http://").
Qed.

(** X1. A configured base URL always carries a scheme: whatever
    [parseEnvApi] returns starts with [http://] or [https://], and it is the
    trimmed text of the variable, with [http://] put in front only when the
    text has no scheme of its own. *)
Theorem parseEnvApi_has_scheme (val : JsVal) (v : string) :
  ApiConfig.parseEnvApi val = Some v ->
  (startsWith "http://" v = true \/ startsWith "https://" v = true) /\
  (if startsWith "http://" (trim (ToString val))
      || startsWith "https://" (trim (ToString val))
   then v = trim (ToString val)
   else v = "http://" ++ trim (ToString val)) /\
  trim (ToString val) <> "".
Proof.
  intros H. split; [exact (parseEnvApi_scheme val v H) |].
  exact (parseEnvApi_cases val v H).
Qed.

(** X2. [parseEnvApi] is idempotent: a value it returned, given back to it as
    the variable, is returned unchanged. *)
Theorem parseEnvApi_idempotent (val : JsVal) (v : string) :
  ApiConfig.parseEnvApi val = Some v ->
  ApiConfig.parseEnvApi (JStr v) = Some v.
Proof.
  intros H. pose proof (parseEnvApi_scheme val v H) as Hscheme.
  destruct (parseEnvApi_cases val v H) as (Hv & Hne).
  set (t := trim (ToString val)) in *.
  assert (Ht : trim t = t) by apply trim_idem.
  assert (Htrim : trim v = v).
  { destruct (startsWith "http://" t || startsWith "https://" t) eqn:E.
    - now subst v.
    - subst v. now apply (prefixed_trim "http://" t "h" "ttp://"). }
  assert (Hlong : exists rest, v = "http" ++ rest /\ rest <> "").
  { destruct Hscheme as [Hs | Hs]; apply startsWith_split in Hs as [rest ->].
    - exists ("://" ++ rest). split; [reflexivity | discriminate].
    - exists ("s://" ++ rest). split; [reflexivity | discriminate]. }
  destruct Hlong as (rest & Hrest & Hrest').
  unfold ApiConfig.parseEnvApi. cbn [ToString truthy].
  rewrite Htrim.
  assert (Hv' : v <> "") by (rewrite Hrest; discriminate).
  destruct (String.eqb_spec v ""); [contradiction |]. cbn [negb orb].
  rewrite (scheme_is_not_auto v rest Hrest Hrest').
  destruct Hscheme as [-> | ->]; [reflexivity |].
  now rewrite orb_true_r.
Qed.

(** X3. The base URL is always absolute: configured or derived from the
    page, it is a scheme, [://] and the rest; and with a configured value
    that [parseEnvApi] accepts, the location of the page and the port
    variable play no part. *)
Theorem API_BASE_URL_is_absolute (rawEnvApi VITE_API_PORT : JsVal)
    (location : option ApiConfig.Location) :
  (exists scheme rest,
     ApiConfig.resolve_API_BASE_URL rawEnvApi VITE_API_PORT location
       = scheme ++ "://" ++ rest) /\
  (forall v, ApiConfig.parseEnvApi rawEnvApi = Some v ->
     ApiConfig.resolve_API_BASE_URL rawEnvApi VITE_API_PORT location = v) /\
  (ApiConfig.parseEnvApi rawEnvApi = None ->
     ApiConfig.resolve_API_BASE_URL rawEnvApi VITE_API_PORT location
       = ApiConfig.protocol_name location ++ "://" ++ ApiConfig.host location
         ++ ":" ++ ToString (js_or VITE_API_PORT (JStr "8000"))).
Proof.
  unfold ApiConfig.resolve_API_BASE_URL.
  destruct (ApiConfig.parseEnvApi rawEnvApi) as [v |] eqn:E.
  - destruct (parseEnvApi_scheme rawEnvApi v E) as [Hs | Hs];
      apply startsWith_split in Hs as [rest ->].
    + split; [now exists "http", rest |]. split; [| discriminate].
      now intros ? [= <-].
    + split; [now exists "https", rest |]. split; [| discriminate].
      now intros ? [= <-].
  - split; [eauto |]. split; [discriminate | reflexivity].
Qed.

(** ** The API client, whatever the answer *)

(** X4. Every operation of the client puts exactly one request on the wire,
    whatever comes back: the request goes to a URL under the base URL, it
    carries [Bearer] and the token for every operation but [register] and
    [login], which carry no authorization, and [localStorage] is not
    touched. *)
Theorem perform_single_request (env : Env) (op : Operation) (w : World) :
  exists rq,
    log (snd (perform env op w)) = (log w ++ [EvFetch rq])%list /\
    localStorage (snd (perform env op w)) = localStorage w /\
    startsWith (API_BASE_URL env) (url rq) = true /\
    authorization rq
      = match token_of op with
        | Some token => Some ("Bearer " ++ ToString token)
        | None => None
        end.
Proof.
  exists (request_of env op). rewrite perform_world.
  split; [reflexivity |]. split; [reflexivity |].
  split; [| destruct op; reflexivity].
  destruct op; apply startsWith_app.
Qed.

(** X5. When a request is rejected (no response at all), every operation
    throws the rejection as it is: none falls back to its own message, and
    the profile fetch does not turn it into [null]. *)
Theorem rejected_request_throws (env : Env) (op : Operation) (w : World)
    (e : string) :
  net env (log w) (request_of env op) = NetworkError e ->
  fst (perform env op w) = Throw e /\
  fst (perform env op w) <> Return JNull.
Proof.
  intros H. rewrite (perform_rejected env op w e H). split; [reflexivity | discriminate].
Qed.

Lemma rejected_request_throws_witness :
  fst (perform (always (NetworkError "Failed to fetch"))
         (OpGetMedicalProfile (JStr "t")) empty_world) = Throw "Failed to fetch".
Proof.
  exact (proj1 (rejected_request_throws (always (NetworkError "Failed to fetch"))
                  (OpGetMedicalProfile (JStr "t")) empty_world "Failed to fetch"
                  eq_refl)).
Defined.

(** X6. On a response with a status in 200..299 every operation, [register]
    included, returns what [response.json()] yields: the parsed body, or
    the [SyntaxError] thrown for a body that is not JSON. *)
Theorem successful_response_is_parsed (env : Env) (op : Operation) (w : World)
    (r : Response) :
  net env (log w) (request_of env op) = Resp r ->
  ok r = true ->
  fst (perform env op w) = json r.
Proof.
  intros Hnet Hok.
  destruct op; simpl in *; api_unfold; unfold bind;
    rewrite (fetch_response _ _ _ _ Hnet); rewrite ?(ok_not_404 _ Hok), ?Hok;
    reflexivity.
Qed.

Lemma successful_response_is_parsed_witness :
  fst (perform (always (Resp profile_found)) (OpRegister (JObj [])) empty_world)
    = Return sample_profile.
Proof.
  exact (successful_response_is_parsed (always (Resp profile_found))
           (OpRegister (JObj [])) empty_world profile_found eq_refl eq_refl).
Defined.

Lemma parseEnvApi_has_scheme_witness :
  (startsWith "http://" "http://192.168.1.5:8000" = true
   \/ startsWith "https://" "http://192.168.1.5:8000" = true) /\
  ApiConfig.parseEnvApi (JStr "  192.168.1.5:8000 ") = Some "http://192.168.1.5:8000".
Proof.
  split; [| reflexivity].
  exact (proj1 (parseEnvApi_has_scheme (JStr "  192.168.1.5:8000 ")
                  "http://192.168.1.5:8000" eq_refl)).
Defined.

Lemma parseEnvApi_idempotent_witness :
  ApiConfig.parseEnvApi (JStr "http://192.168.1.5:8000")
    = Some "http://192.168.1.5:8000".
Proof.
  exact (parseEnvApi_idempotent (JStr "  192.168.1.5:8000 ")
           "http://192.168.1.5:8000" eq_refl).
Defined.

Lemma API_BASE_URL_is_absolute_witness :
  ApiConfig.resolve_API_BASE_URL (JStr "192.168.1.5:8000") JUndefined (Some lan_page)
    = "http://192.168.1.5:8000" /\
  ApiConfig.resolve_API_BASE_URL (JStr " Auto ") JUndefined (Some lan_page)
    = "https://192.168.1.5:8000".
Proof.
  split.
  - exact (proj1 (proj2 (API_BASE_URL_is_absolute (JStr "192.168.1.5:8000")
                           JUndefined (Some lan_page)))
             "http://192.168.1.5:8000" eq_refl).
  - exact (proj2 (proj2 (API_BASE_URL_is_absolute (JStr " Auto ") JUndefined
                           (Some lan_page))) eq_refl).
Defined.

Lemma objects_print_alike (items : list JsVal) :
  Forall (fun x => exists props, x = JObj props) items ->
  ToString (JArr items)
    = String.concat "," (map (fun _ => "[object Object]") items).
Proof.
  induction 1 as [| x rest [props ->] _ IH]; [reflexivity |].
  destruct rest as [| y rest]; [reflexivity |].
  change (ToString (JArr (JObj props :: y :: rest)))
    with ("[object Object]" ++ "," ++ ToString (JArr (y :: rest))).
  rewrite IH. reflexivity.
Qed.

(** X7. [register] reports a failure in its own way.  On a response outside
    200..299 whose body is a JSON object, the message thrown is [detail] of
    the body when that is a non-empty string and [Registration failed] when
    [detail] is missing or falsy, whatever [error] the body has; a [detail]
    that is a list of objects, as a validation failure sends, gives one
    [[object Object]] per entry.  When the body is not JSON the
    [SyntaxError] of [response.json()] is thrown instead. *)
Theorem register_failure_message (env : Env) (userData : JsVal) (w : World)
    (r : Response) :
  net env (log w) (apiService.register_request env userData) = Resp r ->
  ok r = false ->
  (forall e, json r = Throw e -> fst (apiService.register env userData w) = Throw e) /\
  (forall props, json r = Return (JObj props) ->
     exists message,
       fst (apiService.register env userData w) = Throw message /\
       (forall detail, obj_get props "detail" = JStr detail ->
          message = if String.eqb detail "" then "Registration failed" else detail) /\
       (truthy (obj_get props "detail") = false ->
          message = "Registration failed") /\
       (forall items, obj_get props "detail" = JArr items ->
          Forall (fun x => exists ps, x = JObj ps) items ->
          message = String.concat "," (map (fun _ => "[object Object]") items))).
Proof.
  intros Hnet Hok. unfold apiService.register, bind.
  rewrite (fetch_response _ _ _ _ Hnet), Hok. cbn [negb]. unfold lift, throw.
  split.
  - intros e ->. reflexivity.
  - intros props ->. cbn. eexists. split; [reflexivity |]. split_and!.
    + intros detail ->. unfold js_or. cbn.
      destruct (String.eqb detail ""); reflexivity.
    + intros H. unfold js_or. now rewrite H.
    + intros items -> Hall. unfold js_or. cbn [truthy].
      now apply objects_print_alike.
Qed.

Lemma register_failure_message_witness :
  fst (apiService.register (always (Resp invalid_registration)) (JObj []) empty_world)
    = Throw "[object Object],[object Object]" /\
  fst (apiService.register (always (Resp server_error)) (JObj []) empty_world)
    = Throw "Unexpected token I in JSON at position 0".
Proof.
  split.
  - destruct (proj2 (register_failure_message (always (Resp invalid_registration))
                       (JObj []) empty_world invalid_registration eq_refl eq_refl)
                _ eq_refl) as (message & Hthrow & _ & _ & Hlist).
    rewrite Hthrow. f_equal. apply (Hlist _ eq_refl).
    repeat constructor; eauto.
  - exact (proj1 (register_failure_message (always (Resp server_error)) (JObj [])
                    empty_world server_error eq_refl eq_refl) _ eq_refl).
Defined.

(** ** The provider's first effect *)

Section Restore.
Variable JSON_parse : string -> Except JsVal.

Lemma restore_incomplete (st : AuthProvider.State) (w : World) :
  (localStorage w !! "token" = None \/ localStorage w !! "token" = Some ""
   \/ localStorage w !! "user" = None \/ localStorage w !! "user" = Some "") ->
  AuthProvider.restore JSON_parse (st, w)
    = (Return tt, (AuthProvider.setLoading false st, w)).
Proof.
  intros H. unfold AuthProvider.restore. run_handler.
  unfold localStorage_getItem. simpl.
  destruct (localStorage w !! "token") as [tk |] eqn:Ht;
    destruct (localStorage w !! "user") as [u |] eqn:Hu; simpl;
    try reflexivity.
  - destruct (String.eqb_spec tk "") as [-> | Hne]; simpl; [reflexivity |].
    destruct (String.eqb_spec u "") as [-> | Hne']; simpl; [reflexivity |].
    destruct H as [H | [H | [H | H]]]; congruence.
  - destruct (String.eqb tk ""); reflexivity.
Qed.

Lemma restore_complete (st : AuthProvider.State) (w : World) (tk u : string) :
  localStorage w !! "token" = Some tk -> tk <> "" ->
  localStorage w !! "user" = Some u -> u <> "" ->
  exists restored,
    AuthProvider.restore JSON_parse (st, w)
      = (Return tt,
         (AuthProvider.mkState (AuthContext.mkState restored (JStr tk)) false, w)) /\
    (forall e, JSON_parse u = Throw e -> restored = JObj [("email", JStr u)]) /\
    (forall parsed, JSON_parse u = Return parsed ->
       AuthProvider.typeof_object parsed = true ->
       restored = if truthy (get_opt parsed "email")
                  then JObj [("email", get_opt parsed "email")] else JNull) /\
    (forall parsed, JSON_parse u = Return parsed ->
       AuthProvider.typeof_object parsed = false ->
       restored = if truthy parsed then JObj [("email", parsed)] else JNull).
Proof.
  intros Ht Htk Hu Hne. unfold AuthProvider.restore. run_handler.
  unfold localStorage_getItem. simpl. rewrite Ht, Hu. simpl.
  destruct (String.eqb_spec tk ""); [contradiction |].
  destruct (String.eqb_spec u "") as [| _]; [contradiction |]. simpl.
  destruct (JSON_parse u) as [e | parsed] eqn:Hparse; simpl.
  - destruct (String.eqb_spec u ""); [contradiction |]. simpl.
    eexists. split; [reflexivity |]. split_and!; [reflexivity | discriminate ..].
  - destruct (truthy parsed) eqn:Htruthy; simpl.
    + destruct (AuthProvider.typeof_object parsed) eqn:Hobj; simpl.
      * eexists. split; [reflexivity |]. split_and!.
        -- discriminate.
        -- intros ? [= <-] _. reflexivity.
        -- intros ? [= <-] C. congruence.
      * rewrite Htruthy. eexists. split; [reflexivity |]. split_and!.
        -- discriminate.
        -- intros ? [= <-] C. congruence.
        -- intros ? [= <-] _. now rewrite Htruthy.
    + rewrite Htruthy. eexists. split; [reflexivity |]. split_and!.
      * discriminate.
      * intros ? [= <-] C. destruct parsed; try discriminate; reflexivity.
      * intros ? [= <-] _. now rewrite Htruthy.
Qed.

(** X8. Nothing is restored from an incomplete record: when the [token] or
    the [user] entry of [localStorage] is missing or empty, the effect
    returns normally, leaves the session as it is (a visitor who was not
    signed in stays so), lowers [loading], and changes nothing in the world:
    no request, no write to [localStorage]. *)
Theorem restore_needs_both_entries (st : AuthProvider.State) (w : World) :
  (localStorage w !! "token" = None \/ localStorage w !! "token" = Some ""
   \/ localStorage w !! "user" = None \/ localStorage w !! "user" = Some "") ->
  exists st',
    AuthProvider.restore JSON_parse (st, w) = (Return tt, (st', w)) /\
    AuthProvider.session st' = AuthProvider.session st /\
    AuthProvider.loading st' = false.
Proof.
  intros H. rewrite (restore_incomplete st w H). eexists.
  split; [reflexivity |]. split; reflexivity.
Qed.

(** X9. With both entries there, the effect returns normally without
    touching the world and restores the token as stored, so the visitor is
    signed in again.  The user comes from the [user] entry: the entry itself
    as email when it is not JSON text (the current, plain format); the
    [email] field when it is the JSON text of an object (the older format),
    and no user when such an object has no email; and when the entry happens
    to be the JSON text of a number, string or boolean, that parsed value as
    email, or no user if it is falsy. *)
Theorem restore_persisted_session (st : AuthProvider.State) (w : World)
    (tk u : string) :
  localStorage w !! "token" = Some tk -> tk <> "" ->
  localStorage w !! "user" = Some u -> u <> "" ->
  exists st',
    AuthProvider.restore JSON_parse (st, w) = (Return tt, (st', w)) /\
    AuthContext.token (AuthProvider.session st') = JStr tk /\
    AuthProvider.isAuthenticated (AuthProvider.session st') = true /\
    AuthProvider.loading st' = false /\
    (forall e, JSON_parse u = Throw e ->
       AuthContext.user (AuthProvider.session st') = JObj [("email", JStr u)]) /\
    (forall parsed, JSON_parse u = Return parsed ->
       AuthProvider.typeof_object parsed = true ->
       AuthContext.user (AuthProvider.session st')
         = if truthy (get_opt parsed "email")
           then JObj [("email", get_opt parsed "email")] else JNull) /\
    (forall parsed, JSON_parse u = Return parsed ->
       AuthProvider.typeof_object parsed = false ->
       AuthContext.user (AuthProvider.session st')
         = if truthy parsed then JObj [("email", parsed)] else JNull).
Proof.
  intros Ht Htk Hu Hne.
  destruct (restore_complete st w tk u Ht Htk Hu Hne)
    as (restored & Hrun & H1 & H2 & H3).
  eexists. split; [exact Hrun |]. simpl. split_and!; try assumption;
    try reflexivity.
  unfold AuthProvider.isAuthenticated. simpl.
  destruct (String.eqb_spec tk ""); [contradiction | reflexivity].
Qed.

(** X10. Logging out and loading the page again leaves the visitor signed
    out: from every session and whatever [localStorage] held, the provider
    that starts after [logout] has no token and no user. *)
Theorem logout_then_reload (st : AuthContext.State) (w : World) :
  let w' := snd (snd (AuthContext.logout (st, w))) in
  AuthProvider.reload JSON_parse w'
    = (Return tt,
       (AuthProvider.mkState (AuthContext.mkState JNull JNull) false, w')) /\
  AuthProvider.isAuthenticated (AuthContext.mkState JNull JNull) = false.
Proof.
  intros w'. split; [| reflexivity].
  unfold AuthProvider.reload.
  rewrite restore_incomplete; [reflexivity |].
  left. subst w'. simpl.
  rewrite lookup_delete_ne by discriminate. apply lookup_delete_eq.
Qed.

Lemma login_success_run (env : Env) (email password : string)
    (st : AuthContext.State) (w : World) (tokenData access_token : JsVal) :
  fst (apiService.login env email password w) = Return tokenData ->
  get_prop tokenData "access_token" = Return access_token ->
  exists userObject w',
    AuthContext.login env email password (st, w)
      = (Return tokenData, (AuthContext.mkState userObject access_token, w')) /\
    localStorage w'
      = <["user" := ToString (js_or (get_opt userObject "email") (JStr ""))]>
          (<["token" := ToString access_token]> (localStorage w)) /\
    exists console,
      log w' = (log w ++ EvFetch (apiService.login_request env email password)
                :: EvFetch (apiService.getMe_request env access_token)
                :: console)%list /\
      (console = [] \/
       console = [EvConsole ConsoleWarn
                    "[Auth] Unable to fetch /auth/me, using minimal user object"]).
Proof.
  intros Hlogin Htok.
  pose proof (perform_world env (OpLogin email password) w) as Hw1. simpl in Hw1.
  unfold AuthContext.login, try_catch, bind, in_world, lift. simpl.
  destruct (apiService.login env email password w) as [r1 w1]. simpl in *.
  subst r1 w1. rewrite Htok.
  match goal with
  | |- context [apiService.getMe env access_token ?w1] =>
      pose proof (perform_world env (OpGetMe access_token) w1) as Hw2;
      simpl in Hw2;
      destruct (apiService.getMe env access_token w1) as [r2 w2]
  end.
  simpl in Hw2. subst w2.
  destruct r2 as [e2 | me2]; simpl;
    (do 2 eexists; split; [reflexivity |]; simpl; split; [reflexivity |];
     eexists; split; [rewrite <- !app_assoc; simpl; reflexivity | auto]).
Qed.

Lemma login_failure_run (env : Env) (email password : string)
    (st : AuthContext.State) (w : World) (e : string) :
  fst (apiService.login env email password w) = Throw e ->
  AuthContext.login env email password (st, w)
    = (Throw (str_or e "Login failed. Please check your credentials."),
       (st, logged (EvConsole ConsoleError "[Auth] Login failed:")
              (logged (EvFetch (apiService.login_request env email password)) w))).
Proof.
  intros He.
  pose proof (perform_world env (OpLogin email password) w) as Hw1. simpl in Hw1.
  unfold AuthContext.login, try_catch, bind, in_world. simpl.
  destruct (apiService.login env email password w) as [r1 w1]. simpl in *.
  subst r1 w1. reflexivity.
Qed.

(** X11. A session that [login] persisted comes back when the page is
    loaded again: the provider starts with the same token, as a string, and
    with the user's email, provided neither is empty and the email is not
    itself JSON text. *)
Theorem login_then_reload (env : Env) (email password : string)
    (st : AuthContext.State) (w : World) (tokenData access_token : JsVal) :
  fst (apiService.login env email password w) = Return tokenData ->
  get_prop tokenData "access_token" = Return access_token ->
  let st' := fst (snd (AuthContext.login env email password (st, w))) in
  let w' := snd (snd (AuthContext.login env email password (st, w))) in
  let address :=
    ToString (js_or (get_opt (AuthContext.user st') "email") (JStr "")) in
  ToString access_token <> "" ->
  address <> "" ->
  (exists e, JSON_parse address = Throw e) ->
  AuthProvider.reload JSON_parse w'
    = (Return tt,
       (AuthProvider.mkState
          (AuthContext.mkState (JObj [("email", JStr address)])
                               (JStr (ToString access_token))) false, w')).
Proof.
  intros Hlogin Htok.
  destruct (login_success_run env email password st w tokenData access_token
              Hlogin Htok) as (userObject & w1 & Hrun & Hstore & _).
  rewrite Hrun. simpl. intros Htk Haddr [e He].
  unfold AuthProvider.reload.
  destruct (restore_complete AuthProvider.initial w1 (ToString access_token)
              (ToString (js_or (get_opt userObject "email") (JStr ""))))
    as (restored & Hrestore & Hplain & _); try assumption.
  - rewrite Hstore. rewrite lookup_insert_ne by discriminate.
    apply lookup_insert_eq.
  - rewrite Hstore. apply lookup_insert_eq.
  - rewrite Hrestore, (Hplain e He). reflexivity.
Qed.

End Restore.

Lemma restore_needs_both_entries_witness :
  exists st',
    AuthProvider.restore (parse_known []) (AuthProvider.initial, empty_world)
      = (Return tt, (st', empty_world)) /\
    AuthProvider.session st' = AuthContext.mkState JNull JNull /\
    AuthProvider.loading st' = false.
Proof.
  exact (restore_needs_both_entries (parse_known []) AuthProvider.initial
           empty_world (or_introl eq_refl)).
Defined.

Lemma restore_persisted_session_witness :
  (exists st',
     AuthProvider.restore (parse_known [legacy_user])
       (AuthProvider.initial, persisted "abc" "a@b.c")
       = (Return tt, (st', persisted "abc" "a@b.c")) /\
     AuthContext.token (AuthProvider.session st') = JStr "abc" /\
     AuthContext.user (AuthProvider.session st') = JObj [("email", JStr "a@b.c")]) /\
  (exists st',
     AuthProvider.restore (parse_known [legacy_user])
       (AuthProvider.initial, persisted "abc" (JSON_stringify legacy_user))
       = (Return tt, (st', persisted "abc" (JSON_stringify legacy_user))) /\
     AuthContext.user (AuthProvider.session st') = JObj [("email", JStr "a@b.c")]).
Proof.
  split.
  - destruct (restore_persisted_session (parse_known [legacy_user])
                AuthProvider.initial (persisted "abc" "a@b.c") "abc" "a@b.c")
      as (st' & Hrun & Htoken & _ & _ & Hplain & _);
      [reflexivity | discriminate | reflexivity | discriminate |].
    exists st'. split; [exact Hrun |]. split; [exact Htoken |].
    exact (Hplain _ eq_refl).
  - destruct (restore_persisted_session (parse_known [legacy_user])
                AuthProvider.initial
                (persisted "abc" (JSON_stringify legacy_user)) "abc"
                (JSON_stringify legacy_user))
      as (st' & Hrun & _ & _ & _ & _ & Hlegacy & _);
      [reflexivity | discriminate | reflexivity | discriminate |].
    exists st'. split; [exact Hrun |].
    exact (Hlegacy legacy_user eq_refl eq_refl).
Defined.

Lemma login_then_reload_witness :
  AuthProvider.reload (parse_known [])
    (snd (snd (AuthContext.login login_then_offline "a@b.c" "pw"
                 (signed_out, empty_world))))
  = (Return tt,
     (AuthProvider.mkState
        (AuthContext.mkState (JObj [("email", JStr "a@b.c")]) (JStr "abc")) false,
      snd (snd (AuthContext.login login_then_offline "a@b.c" "pw"
                  (signed_out, empty_world))))).
Proof.
  apply (login_then_reload (parse_known []) login_then_offline "a@b.c" "pw"
           signed_out empty_world token_body (JStr "abc") eq_refl eq_refl).
  - discriminate.
  - discriminate.
  - eexists. reflexivity.
Defined.

(** ** Signing in, registering and uploading *)

(** X12. [doLogin] never throws and always ends with [busy] down and the
    rest of the page state untouched.  When the credential exchange fails it
    shows one error toast, with the message of the failed exchange (a fixed
    sentence if that message is empty), and the session and [localStorage]
    are what they were; when the exchange returns a body with an access
    token, it shows the one toast [Welcome back!] and the context holds that
    token. *)
Theorem doLogin_outcome (env : Env) (st : OnePage.State)
    (auth : AuthContext.State) (w : World) :
  let f := OnePage.form st in
  (forall e,
     fst (apiService.login env (OnePage.email f) (OnePage.password f) w) = Throw e ->
     exists w',
       OnePage.doLogin env ((st, auth), w)
         = (Return tt, ((OnePage.on_core (OnePageApp.setBusy false) st, auth), w')) /\
       log w' = (log w ++
                 [EvFetch (apiService.login_request env (OnePage.email f)
                             (OnePage.password f));
                  EvConsole ConsoleError "[Auth] Login failed:";
                  EvToast ToastError
                    (if String.eqb e ""
                     then "Login failed. Please check your credentials."
                     else e)])%list /\
       localStorage w' = localStorage w) /\
  (forall tokenData access_token,
     fst (apiService.login env (OnePage.email f) (OnePage.password f) w)
       = Return tokenData ->
     get_prop tokenData "access_token" = Return access_token ->
     exists auth' w' before,
       OnePage.doLogin env ((st, auth), w)
         = (Return tt, ((OnePage.on_core (OnePageApp.setBusy false) st, auth'), w')) /\
       AuthContext.token auth' = access_token /\
       log w' = (log w ++ before ++ [EvToast ToastSuccess "Welcome back!"])%list /\
       (forall kind text, ~ In (EvToast kind text) before)).
Proof.
  intros f. split.
  - intros e He.
    unfold OnePage.doLogin. run_handler. unfold OnePage.with_auth. simpl.
    fold f. rewrite (login_failure_run env _ _ auth w e He). simpl.
    eexists. split; [reflexivity |]. simpl. split; [| reflexivity].
    rewrite <- !app_assoc. simpl. do 4 f_equal.
    destruct (String.eqb_spec e "") as [-> | Hne]; [reflexivity |].
    rewrite (str_or_nonempty e _ Hne). now rewrite (str_or_nonempty e _ Hne).
  - intros tokenData access_token Hlogin Htok.
    destruct (login_success_run env _ _ auth w tokenData access_token Hlogin Htok)
      as (userObject & w1 & Hrun & _ & console & Hlog & Hconsole).
    unfold OnePage.doLogin. run_handler. unfold OnePage.with_auth. simpl.
    fold f. rewrite Hrun. simpl.
    do 3 eexists. split; [reflexivity |]. simpl. split; [reflexivity |].
    split.
    + rewrite Hlog. rewrite <- app_assoc. reflexivity.
    + intros kind text [H | [H | H]]; try discriminate H.
      destruct Hconsole as [-> | ->]; [destruct H |].
      destruct H as [H | []]. discriminate H.
Qed.

Lemma doLogin_outcome_witness :
  (exists w',
     OnePage.doLogin (always (Resp unauthorized)) ((blank_page, signed_out), empty_world)
       = (Return tt,
          ((OnePage.on_core (OnePageApp.setBusy false) blank_page, signed_out), w')) /\
     log w' = [EvFetch (apiService.login_request (always (Resp unauthorized))
                          "ada@b.c" "pw");
               EvConsole ConsoleError "[Auth] Login failed:";
               EvToast ToastError "Incorrect email or password"]) /\
  (exists auth' w',
     OnePage.doLogin login_then_offline ((blank_page, signed_out), empty_world)
       = (Return tt,
          ((OnePage.on_core (OnePageApp.setBusy false) blank_page, auth'), w')) /\
     AuthContext.token auth' = JStr "abc").
Proof.
  split.
  - destruct (proj1 (doLogin_outcome (always (Resp unauthorized)) blank_page
                       signed_out empty_world) "Incorrect email or password" eq_refl)
      as (w' & Hrun & Hlog & _).
    exists w'. split; [exact Hrun | exact Hlog].
  - destruct (proj2 (doLogin_outcome login_then_offline blank_page signed_out
                       empty_world) token_body (JStr "abc") eq_refl eq_refl)
      as (auth' & w' & before & Hrun & Htoken & _).
    exists auth', w'. split; [exact Hrun | exact Htoken].
Defined.

Lemma keep_digits_all_digits (typed : string) :
  all_digits (keep_digits typed) = true.
Proof.
  induction typed as [| c rest IH]; [reflexivity |]. simpl.
  destruct (Views.is_digit c) eqn:Hc; [| exact IH]. simpl. now rewrite Hc.
Qed.

Lemma keep_digits_fixed (s : string) :
  all_digits s = true -> keep_digits s = s.
Proof.
  induction s as [| c rest IH]; [reflexivity |]. simpl.
  intros H. apply andb_true_iff in H as [Hc H]. rewrite Hc. now rewrite IH.
Qed.

(** [Number] rounds: the age 2^53 + 1 reaches the payload as 2^53, and
    2^53 + 3 as 2^53 + 4. *)
Lemma Number_rounds_ties_to_even :
  Number_of_digits "9007199254740993" = JNum 9007199254740992 /\
  Number_of_digits "9007199254740995" = JNum 9007199254740996.
Proof. split; vm_compute; reflexivity. Qed.

(** X13. The age field only ever holds digits: whatever is typed, the
    input keeps exactly its digits, typing digits keeps them all, and the
    filter applied twice is the filter applied once.  So an age below 2^53,
    where [Number] is exact, goes into the registration payload as the
    number its digits denote. *)
Theorem age_input_keeps_digits (typed : string) (st : OnePage.State) :
  let st' := OnePage.onAgeChange typed st in
  all_digits (OnePage.age (OnePage.form st')) = true /\
  (all_digits typed = true -> OnePage.age (OnePage.form st') = typed) /\
  OnePage.onAgeChange (OnePage.age (OnePage.form st')) st' = st' /\
  (OnePage.age (OnePage.form st') <> "" ->
   digits_value (OnePage.age (OnePage.form st')) < 2 ^ 53 ->
   get_opt (OnePage.register_payload (OnePage.form st')) "age"
     = JNum (digits_value (OnePage.age (OnePage.form st')))).
Proof.
  simpl. split_and!.
  - apply keep_digits_all_digits.
  - apply keep_digits_fixed.
  - unfold OnePage.onAgeChange, OnePage.on_form, OnePage.setAge. simpl.
    now rewrite (keep_digits_fixed _ (keep_digits_all_digits typed)).
  - intros Hne Hexact. unfold OnePage.register_payload. simpl.
    destruct (String.eqb_spec (keep_digits typed) ""); [contradiction |]. simpl.
    unfold Number_of_digits, round_to_double. rewrite keep_digits_all_digits.
    destruct (Z.ltb_spec (digits_value (keep_digits typed)) (2 ^ 53)); [| lia].
    destruct (String.eqb (OnePage.gender (OnePage.form st)) "");
      destruct (String.eqb (OnePage.phone (OnePage.form st)) ""); reflexivity.
Qed.

Lemma age_input_keeps_digits_witness :
  OnePage.age (OnePage.form (OnePage.onAgeChange "3o6" blank_page)) = "36" /\
  get_opt (OnePage.register_payload
             (OnePage.form (OnePage.onAgeChange "3o6" blank_page))) "age"
    = JNum 36.
Proof.
  split; [reflexivity |].
  exact (proj2 (proj2 (proj2 (age_input_keeps_digits "3o6" blank_page)))
           ltac:(discriminate) eq_refl).
Defined.

(** X14. The registration payload always has [name], [email] and
    [password], and has [age], [gender] and [phone] exactly when the field
    is filled in: an empty optional field is left out, not sent empty.  The
    gender is sent in capitals and no other key is ever sent. *)
Theorem register_payload_fields (f : OnePage.Form) :
  exists props,
    OnePage.register_payload f = JObj props /\
    NoDup (map fst props) /\
    obj_get props "name" = JStr (OnePage.name f) /\
    obj_get props "email" = JStr (OnePage.email f) /\
    obj_get props "password" = JStr (OnePage.password f) /\
    (In "age" (map fst props) <-> OnePage.age f <> "") /\
    (In "gender" (map fst props) <-> OnePage.gender f <> "") /\
    (In "phone" (map fst props) <-> OnePage.phone f <> "") /\
    (OnePage.gender f <> "" ->
       obj_get props "gender" = JStr (toUpperCase (OnePage.gender f))) /\
    (OnePage.phone f <> "" -> obj_get props "phone" = JStr (OnePage.phone f)) /\
    (forall k, In k (map fst props) ->
       In k ["name"; "email"; "password"; "age"; "gender"; "phone"]).
Proof.
  unfold OnePage.register_payload. simpl.
  destruct (String.eqb_spec (OnePage.age f) "") as [Ha | Ha];
    destruct (String.eqb_spec (OnePage.gender f) "") as [Hg | Hg];
    destruct (String.eqb_spec (OnePage.phone f) "") as [Hp | Hp]; simpl;
    (eexists; split; [reflexivity |]; simpl; split_and!;
     [ apply (bool_decide_unpack _); vm_compute; exact I
     | reflexivity | reflexivity | reflexivity
     | split; [intros H; decompose [or] H; congruence | tauto]
     | split; [intros H; decompose [or] H; congruence | tauto]
     | split; [intros H; decompose [or] H; congruence | tauto]
     | intros H; try contradiction; reflexivity
     | intros H; try contradiction; reflexivity
     | intros k H; decompose [or] H; subst; tauto ]).
Qed.

(** X15. [doRegister] never throws, sends exactly the one registration
    request with the payload of the form, shows exactly one toast, and ends
    with [busy] down.  Only when the registration returned does it switch
    the form to the sign-in tab; when it failed the tab stays and the toast
    carries the error's message. *)
Theorem doRegister_outcome (env : Env) (st : OnePage.State) (w : World) :
  let payload := OnePage.register_payload (OnePage.form st) in
  exists st' w' toast,
    OnePage.doRegister env (st, w) = (Return tt, (st', w')) /\
    log w' = (log w ++ [EvFetch (apiService.register_request env payload);
                        toast])%list /\
    (forall v, fst (apiService.register env payload w) = Return v ->
       toast = EvToast ToastSuccess "Account created. Please sign in." /\
       st' = OnePage.on_form (OnePage.setAuthTab "login")
               (OnePage.on_core (OnePageApp.setBusy false) st)) /\
    (forall e, fst (apiService.register env payload w) = Throw e ->
       toast = EvToast ToastError (str_or e "Registration failed") /\
       st' = OnePage.on_core (OnePageApp.setBusy false) st).
Proof.
  intros payload.
  pose proof (perform_world env (OpRegister payload) w) as Hw1. simpl in Hw1.
  unfold OnePage.doRegister. run_handler. fold payload.
  destruct (apiService.register env payload w) as [r1 w1]. simpl in Hw1. subst w1.
  destruct r1 as [e | v]; simpl;
    (do 3 eexists; split; [reflexivity |]; simpl;
     split; [rewrite <- !app_assoc; reflexivity |]).
  - split; [intros v H; discriminate H |]. intros e' [= <-]. split; reflexivity.
  - split; [| intros e H; discriminate H]. intros v' _. split; reflexivity.
Qed.

Lemma doRegister_outcome_witness :
  exists st' w',
    OnePage.doRegister (always (Resp created)) (blank_page, empty_world)
      = (Return tt, (st', w')) /\
    OnePage.authTab (OnePage.form st') = "login".
Proof.
  destruct (doRegister_outcome (always (Resp created)) blank_page empty_world)
    as (st' & w' & toast & Hrun & _ & Hok & _).
  exists st', w'. split; [exact Hrun |].
  destruct (Hok (JObj [("id", JNum 1)]) eq_refl) as [_ ->]. reflexivity.
Defined.

(** X16. [doUpload] sends nothing without a token or without a chosen file:
    it only shows [Select a file] and leaves the state alone.  With both it
    never throws, sends exactly one upload whose form data is the file and,
    only when the display name is not blank, the trimmed display name; it
    shows exactly one toast, and whether the upload succeeded or failed it
    ends with no file chosen, an empty display name and [busy] down. *)
Theorem doUpload_outcome (env : Env) (token : JsVal) (st : OnePage.State)
    (w : World) :
  (truthy token = false \/ OnePage.file (OnePage.upload st) = None ->
     OnePage.doUpload env token (st, w)
       = (Return tt, (st, logged (EvToast ToastError "Select a file") w))) /\
  (forall chosen,
     truthy token = true -> OnePage.file (OnePage.upload st) = Some chosen ->
     let name := trim (OnePage.fileName (OnePage.upload st)) in
     let parts := if String.eqb name "" then [("file", chosen)]
                  else [("file", chosen); ("display_name", name)] in
     exists st' w' toast,
       OnePage.doUpload env token (st, w) = (Return tt, (st', w')) /\
       log w' = (log w ++ [EvFetch (apiService.uploadDocument_request env parts
                                      token);
                           toast])%list /\
       (exists kind text, toast = EvToast kind text) /\
       OnePage.upload st' = OnePage.mkUpload None "" /\
       OnePageApp.busy (OnePage.core st') = false /\
       OnePage.form st' = OnePage.form st /\
       OnePage.loaded st' = OnePage.loaded st).
Proof.
  split.
  - intros H. unfold OnePage.doUpload. simpl.
    destruct (OnePage.file (OnePage.upload st)) as [chosen |] eqn:Hfile;
      [| reflexivity].
    destruct H as [H | H]; [| discriminate H]. now rewrite H.
  - intros chosen Htoken Hfile name parts.
    assert (Hparts : OnePage.upload_form_data chosen
                       (OnePage.fileName (OnePage.upload st)) = parts).
    { unfold OnePage.upload_form_data, parts, name. cbn [truthy].
      destruct (String.eqb_spec (OnePage.fileName (OnePage.upload st)) "") as [E | E].
      - now rewrite E.
      - destruct (String.eqb (trim (OnePage.fileName (OnePage.upload st))) "");
          reflexivity. }
    pose proof (perform_world env (OpUploadDocument parts token) w) as Hw1.
    simpl in Hw1.
    unfold OnePage.doUpload. simpl. rewrite Hfile, Htoken. simpl.
    run_handler. rewrite Hparts.
    destruct (apiService.uploadDocument env parts token w) as [r1 w1].
    simpl in Hw1. subst w1.
    destruct r1 as [e | v]; simpl;
      (do 3 eexists; split; [reflexivity |]; simpl;
       split; [rewrite <- !app_assoc; reflexivity |];
       split; [eauto |]; split_and!; reflexivity).
Qed.

Lemma doUpload_outcome_witness :
  OnePage.doUpload (always (Resp created)) (JStr "t") (blank_page, empty_world)
    = (Return tt, (blank_page, logged (EvToast ToastError "Select a file") empty_world))
  /\
  (exists st' w' toast,
     OnePage.doUpload (always (Resp created)) (JStr "t")
       (OnePage.on_upload (fun _ => OnePage.mkUpload (Some "rx.pdf") "  Rx Oct ")
          blank_page, empty_world) = (Return tt, (st', w')) /\
     log w' = [EvFetch (apiService.uploadDocument_request (always (Resp created))
                          [("file", "rx.pdf"); ("display_name", "Rx Oct")]
                          (JStr "t"));
               toast] /\
     OnePage.upload st' = OnePage.mkUpload None "").
Proof.
  split.
  - exact (proj1 (doUpload_outcome (always (Resp created)) (JStr "t") blank_page
                    empty_world) (or_intror eq_refl)).
  - destruct (proj2 (doUpload_outcome (always (Resp created)) (JStr "t")
                       (OnePage.on_upload
                          (fun _ => OnePage.mkUpload (Some "rx.pdf") "  Rx Oct ")
                          blank_page) empty_world) "rx.pdf" eq_refl eq_refl)
      as (st' & w' & toast & Hrun & Hlog & _ & Hupload & _).
    exists st', w', toast. split; [exact Hrun |]. split; [exact Hlog | exact Hupload].
Defined.

(** ** Editing and saving the profile *)

Lemma strict_eq_refl : forall v : JsVal, strict_eq v v = true.
Proof.
  fix IH 1. intros [| | b | n | s | items | props]; simpl.
  - reflexivity.
  - reflexivity.
  - now destruct b.
  - apply Z.eqb_refl.
  - apply String.eqb_refl.
  - revert items. fix IHitems 1. intros [| x items]; [reflexivity |].
    now rewrite IH, IHitems.
  - revert props. fix IHprops 1. intros [| [k x] props]; [reflexivity |].
    now rewrite String.eqb_refl, IH, IHprops.
Qed.

(** The loop of [saveProfile] over a profile in which the field [k] was
    set to [x] and that differs there from the loaded one. *)
Lemma fold_changes_one_edit (props : list (string * JsVal)) (k : string) (x : JsVal)
    (keys : list string) (acc : list (string * JsVal)) :
  strict_eq x (obj_get props k) = false ->
  acc = [] \/ acc = [(k, x)] ->
  fold_left (OnePageApp.record_change (JObj (obj_set props k x)) (JObj props)) keys acc
    = if existsb (String.eqb k) keys then [(k, x)] else acc.
Proof.
  intros Hd. revert acc. induction keys as [| j keys IH]; intros acc Hacc; simpl.
  - reflexivity.
  - unfold OnePageApp.record_change at 2. unfold OnePageApp.differs. simpl.
    rewrite obj_get_set. destruct (String.eqb_spec k j) as [<- | Hne]; simpl.
    + rewrite Hd. simpl.
      assert (obj_set acc k x = [(k, x)]) as ->.
      { destruct Hacc as [-> | ->]; simpl; [| rewrite String.eqb_refl]; reflexivity. }
      rewrite IH by now right. now destruct (existsb _ keys).
    + rewrite strict_eq_refl. simpl. now apply IH.
Qed.

Lemma edit_field_changes (props : list (string * JsVal)) (k v : string) :
  OnePageApp.changed_fields (OnePage.edit_field k v (JObj props)) (JObj props)
    = Return (if strict_eq (JStr v) (obj_get props k) then [] else [(k, JStr v)]).
Proof.
  unfold OnePage.edit_field. simpl own_props.
  destruct (strict_eq (JStr v) (obj_get props k)) eqn:Hd.
  - apply changed_fields_none; [reflexivity | reflexivity |].
    intros j _. unfold OnePageApp.differs. simpl. rewrite obj_get_set.
    destruct (String.eqb_spec k j) as [<- | Hne].
    + now rewrite Hd.
    + now rewrite strict_eq_refl.
  - unfold OnePageApp.changed_fields, OnePageApp.Object_keys. simpl.
    rewrite collect_changes_fold by reflexivity.
    rewrite (fold_changes_one_edit _ _ _ _ _ Hd) by now left.
    assert (existsb (String.eqb k) (map fst (obj_set props k (JStr v))) = true) as ->;
      [| reflexivity].
    apply existsb_exists. exists k. split; [| apply String.eqb_refl].
    apply obj_set_keys. now right.
Qed.

(** X17.  On a loaded profile, the save that follows an edit of one field
    patches with an object holding that field alone, bound to the text typed;
    when the text typed is the value the field already had, the save writes
    nothing. *)
Theorem edit_then_save (env : Env) (token : JsVal) (props : list (string * JsVal))
    (k v : string) (st : OnePageApp.State) (w : World) :
  truthy token = true ->
  OnePageApp.profileExists st = true ->
  OnePageApp.originalProfile st = JObj props ->
  OnePageApp.profile st = OnePage.edit_field k v (JObj props) ->
  exists st' w' added,
    OnePageApp.saveProfile env token (st, w) = (Return tt, (st', w')) /\
    log w' = (log w ++ added)%list /\
    filter is_write (requests added)
      = if strict_eq (JStr v) (obj_get props k) then []
        else [apiService.patchMedicalProfile_request env (JObj [(k, JStr v)]) token].
Proof.
  intros Htoken Hex Horig Hprofile.
  pose proof (edit_field_changes props k v) as Hch.
  rewrite <- Hprofile, <- Horig in Hch.
  destruct (strict_eq (JStr v) (obj_get props k)).
  - destruct (saveProfile_unchanged env token Htoken st w Hex Hch)
      as (st' & w' & added & Hrun & Hlog & Hreq & _).
    exists st', w', added. split; [exact Hrun |]. split; [exact Hlog |].
    rewrite Hreq. reflexivity.
  - apply (saveProfile_patch env token Htoken st w _ Hex Hch). discriminate.
Qed.

Lemma edit_then_save_witness :
  exists st' w' added,
    OnePageApp.saveProfile (always (Resp profile_found)) (JStr "t")
      (OnePageApp.setProfile
         (OnePage.edit_field "allergies" "latex" sample_profile) unedited,
       empty_world) = (Return tt, (st', w')) /\
    log w' = (log empty_world ++ added)%list /\
    filter is_write (requests added)
      = [apiService.patchMedicalProfile_request (always (Resp profile_found))
           (JObj [("allergies", JStr "latex")]) (JStr "t")].
Proof.
  exact (edit_then_save (always (Resp profile_found)) (JStr "t")
           [("id", JNum 7); ("allergies", JStr "penicillin"); ("surgeries", JNull)]
           "allergies" "latex"
           (OnePageApp.setProfile
              (OnePage.edit_field "allergies" "latex" sample_profile) unedited)
           empty_world eq_refl eq_refl eq_refl eq_refl).
Defined.

(** Splits on the outcome of the next call of the API client in the goal;
    the world after the call is the world before it with the request logged. *)
Ltac api_step env op call :=
  let H := fresh "Hw" in
  let e := fresh "e" in
  let v := fresh "v" in
  let w := fresh "w" in
  match goal with
  | |- context [call ?w1] =>
      pose proof (perform_world env op w1) as H; simpl in H;
      destruct (call w1) as [[e | v] w]; simpl in H; subst w; simpl
  end.

Ltac close_save fetched :=
  do 2 eexists; exists fetched; do 2 eexists;
  split; [reflexivity |]; simpl;
  split; [rewrite <- ?app_assoc; reflexivity |];
  split; [reflexivity |];
  first [ left; split; [reflexivity |]; first [now left | right; reflexivity]
        | right; split; [reflexivity |]; split; [reflexivity |];
          eexists; reflexivity ].

(** Every run of [saveProfile]: it returns; it logs requests and then one
    toast; on the error toast the state is the one it started from, with
    [busy] lowered when a token was there; on the success toast the state is
    the re-fetched profile, shown in the profile view. *)
Lemma saveProfile_run (env : Env) (token : JsVal) (st : OnePageApp.State) (w : World) :
  exists st' w' fetched kind text,
    OnePageApp.saveProfile env token (st, w) = (Return tt, (st', w')) /\
    log w' = (log w ++ map EvFetch fetched ++ [EvToast kind text])%list /\
    localStorage w' = localStorage w /\
    ((kind = ToastError /\ (st' = st \/ st' = OnePageApp.setBusy false st)) \/
     (kind = ToastSuccess /\ text = "Profile saved" /\
      exists pf,
        st' = OnePageApp.mkState "profile"
                (js_or pf OnePageApp.defaultProfile)
                (js_or pf OnePageApp.defaultProfile) false (truthy pf))).
Proof.
  unfold OnePageApp.saveProfile. simpl.
  destruct (truthy token); simpl.
  - run_handler.
    destruct (OnePageApp.profileExists st) eqn:Hex; simpl.
    + destruct (OnePageApp.changed_fields (OnePageApp.profile st)
                  (OnePageApp.originalProfile st)) as [e | changes]; simpl.
      * close_save (@nil Request).
      * destruct changes as [| c rest]; simpl.
        -- api_step env (OpGetMedicalProfile token)
             (apiService.getMedicalProfile env token);
             close_save [apiService.getMedicalProfile_request env token].
        -- api_step env (OpPatchMedicalProfile (JObj (c :: rest)) token)
             (apiService.patchMedicalProfile env (JObj (c :: rest)) token).
           ++ close_save
                [apiService.patchMedicalProfile_request env (JObj (c :: rest)) token].
           ++ api_step env (OpGetMedicalProfile token)
                (apiService.getMedicalProfile env token);
                close_save
                  [apiService.patchMedicalProfile_request env (JObj (c :: rest)) token;
                   apiService.getMedicalProfile_request env token].
    + api_step env (OpCreateMedicalProfile (OnePageApp.profile st) token)
        (apiService.createMedicalProfile env (OnePageApp.profile st) token).
      * close_save
          [apiService.createMedicalProfile_request env (OnePageApp.profile st) token].
      * api_step env (OpGetMedicalProfile token)
          (apiService.getMedicalProfile env token);
          close_save
            [apiService.createMedicalProfile_request env (OnePageApp.profile st) token;
             apiService.getMedicalProfile_request env token].
  - unfold in_world, toast_error, emit. simpl. close_save (@nil Request).
Qed.

(** X18.  Whatever the token, the state and the backend's answers,
    [saveProfile] returns and its last effect is one toast, the only one it
    raises; when that toast reports an error, the profile being edited, the
    loaded profile, the view and the record of the profile's existence are
    what they were; when it reports success, the view is the profile view and
    the profile being edited is the loaded one. *)
Theorem saveProfile_reports_once (env : Env) (token : JsVal)
    (st : OnePageApp.State) (w : World) :
  exists st' w' fetched kind text,
    OnePageApp.saveProfile env token (st, w) = (Return tt, (st', w')) /\
    log w' = (log w ++ map EvFetch fetched ++ [EvToast kind text])%list /\
    (kind = ToastError ->
       OnePageApp.profile st' = OnePageApp.profile st /\
       OnePageApp.originalProfile st' = OnePageApp.originalProfile st /\
       OnePageApp.view st' = OnePageApp.view st /\
       OnePageApp.profileExists st' = OnePageApp.profileExists st) /\
    (kind = ToastSuccess ->
       text = "Profile saved" /\
       OnePageApp.view st' = "profile" /\
       OnePageApp.profile st' = OnePageApp.originalProfile st' /\
       OnePageApp.busy st' = false).
Proof.
  destruct (saveProfile_run env token st w)
    as (st' & w' & fetched & kind & text & Hrun & Hlog & _ & Hcases).
  exists st', w', fetched, kind, text.
  split; [exact Hrun |]. split; [exact Hlog |].
  destruct Hcases as [[-> Hst] | (-> & -> & pf & ->)].
  - split; [| discriminate]. intros _.
    destruct Hst as [-> | ->]; repeat split.
  - split; [discriminate |]. intros _. repeat split.
Qed.

Lemma saveProfile_reports_once_witness :
  exists st' w' fetched kind text,
    OnePageApp.saveProfile (always (Resp server_error)) (JStr "t")
      (edited, empty_world) = (Return tt, (st', w')) /\
    log w' = (log empty_world ++ map EvFetch fetched ++ [EvToast kind text])%list /\
    kind = ToastError /\
    OnePageApp.profile st' = edited_profile /\
    OnePageApp.originalProfile st' = sample_profile.
Proof.
  destruct (saveProfile_reports_once (always (Resp server_error)) (JStr "t")
              edited empty_world)
    as (st' & w' & fetched & kind & text & Hrun & Hlog & Herr & _).
  exists st', w', fetched, kind, text.
  split; [exact Hrun |]. split; [exact Hlog |].
  assert (kind = ToastError) as Hkind.
  { vm_compute in Hrun. injection Hrun as _ Hw'. subst w'.
    destruct fetched as [| a [| b [| c rest]]]; simpl in Hlog;
      try discriminate Hlog.
    injection Hlog as _ Hk _. now symmetry. }
  split; [exact Hkind |].
  destruct (Herr Hkind) as (Hp & Ho & _). split; assumption.
Defined.

(** X19.  Saving again right after a save that reported success and found the
    profile on the backend writes nothing: the second save sends the re-fetch
    and no other request. *)
Theorem save_again_writes_nothing (env : Env) (token : JsVal)
    (st st1 : OnePageApp.State) (w w1 : World) :
  OnePageApp.saveProfile env token (st, w) = (Return tt, (st1, w1)) ->
  last (log w1) = Some (EvToast ToastSuccess "Profile saved") ->
  OnePageApp.profileExists st1 = true ->
  forall w2, exists st2 w3 added,
    OnePageApp.saveProfile env token (st1, w2) = (Return tt, (st2, w3)) /\
    log w3 = (log w2 ++ added)%list /\
    requests added = [apiService.getMedicalProfile_request env token].
Proof.
  intros Hrun Hlast Hex w2.
  assert (truthy token = true) as Htoken.
  { destruct (truthy token) eqn:Htoken; [reflexivity |].
    unfold OnePageApp.saveProfile in Hrun. simpl in Hrun.
    rewrite Htoken in Hrun. simpl in Hrun.
    unfold in_world, toast_error, emit in Hrun. simpl in Hrun.
    injection Hrun as _ <-. simpl in Hlast.
    rewrite last_snoc in Hlast. discriminate Hlast. }
  destruct (saveProfile_run env token st w)
    as (st' & w' & fetched & kind & text & Hrun' & Hlog & _ & Hcases).
  rewrite Hrun in Hrun'. injection Hrun' as <- <-.
  rewrite Hlog, !app_assoc, last_snoc in Hlast. injection Hlast as -> ->.
  destruct Hcases as [[Hkind _] | (_ & _ & pf & ->)]; [discriminate Hkind |].
  simpl in Hex. unfold js_or. rewrite Hex.
  assert (is_nullish pf = false) as Hpf by (now destruct pf).
  destruct (saveProfile_unchanged env token Htoken
              (OnePageApp.mkState "profile" pf pf false true) w2 eq_refl)
    as (st2 & w3 & added & Hrun2 & Hlog2 & Hreq & _).
  { apply changed_fields_none; [exact Hpf | exact Hpf |].
    intros k _. unfold OnePageApp.differs. now rewrite strict_eq_refl. }
  exists st2, w3, added. split; [exact Hrun2 |]. split; [exact Hlog2 | exact Hreq].
Qed.

Lemma save_again_writes_nothing_witness :
  exists st2 w3 added,
    OnePageApp.saveProfile (always (Resp profile_found)) (JStr "t")
      (fst (snd (OnePageApp.saveProfile (always (Resp profile_found)) (JStr "t")
                   (edited, empty_world))), empty_world) = (Return tt, (st2, w3)) /\
    log w3 = (log empty_world ++ added)%list /\
    requests added
      = [apiService.getMedicalProfile_request (always (Resp profile_found)) (JStr "t")].
Proof.
  apply (save_again_writes_nothing (always (Resp profile_found)) (JStr "t")
           edited _ empty_world
           (snd (snd (OnePageApp.saveProfile (always (Resp profile_found)) (JStr "t")
                        (edited, empty_world))))).
  - vm_compute. reflexivity.
  - vm_compute. reflexivity.
  - vm_compute. reflexivity.
Defined.

(** X20.  When the network rejects every write, a save that attempts a write
    sends that request and nothing after it: no re-fetch follows, the error
    toast carries the rejection's message (or [Save failed] when it is
    empty), and the state is the one the save started from with [busy]
    lowered. *)
Theorem failed_write_stops_save (env : Env) (token : JsVal)
    (st : OnePageApp.State) (w : World) (e : string) :
  (forall l rq, is_write rq = true -> net env l rq = NetworkError e) ->
  exists st' w' added,
    OnePageApp.saveProfile env token (st, w) = (Return tt, (st', w')) /\
    log w' = (log w ++ added)%list /\
    (forall rq, In rq (requests added) -> is_write rq = true ->
       added = [EvFetch rq; EvToast ToastError (str_or e "Save failed")] /\
       st' = OnePageApp.setBusy false st).
Proof.
  intros Hnet.
  destruct (truthy token) eqn:Htoken.
  - destruct (OnePageApp.profileExists st) eqn:Hex.
    + destruct (OnePageApp.changed_fields (OnePageApp.profile st)
                  (OnePageApp.originalProfile st)) as [e' | changes] eqn:Hch.
      * unfold OnePageApp.saveProfile. simpl. rewrite Htoken, Hex. simpl.
        run_handler. rewrite Hch. simpl. close_run.
        intros rq [].
      * destruct changes as [| c rest].
        -- destruct (saveProfile_unchanged env token Htoken st w Hex Hch)
             as (st' & w' & added & Hrun & Hlog & Hreq & _).
           exists st', w', added. split; [exact Hrun |]. split; [exact Hlog |].
           rewrite Hreq. intros rq [<- | []] Hwrite. discriminate Hwrite.
        -- pose proof (perform_rejected env
                         (OpPatchMedicalProfile (JObj (c :: rest)) token) w e
                         (Hnet (log w)
                            (apiService.patchMedicalProfile_request env
                               (JObj (c :: rest)) token) eq_refl)) as Hthrow.
           pose proof (perform_world env
                         (OpPatchMedicalProfile (JObj (c :: rest)) token) w) as Hw.
           simpl in Hthrow, Hw.
           unfold OnePageApp.saveProfile. simpl. rewrite Htoken, Hex. simpl.
           run_handler. rewrite Hch. simpl.
           destruct (apiService.patchMedicalProfile env (JObj (c :: rest)) token w)
             as [r1 w1]. simpl in Hthrow, Hw. subst r1 w1. simpl. close_run.
           intros rq [<- | []] _. split; [reflexivity | now destruct st].
    + pose proof (perform_rejected env
                    (OpCreateMedicalProfile (OnePageApp.profile st) token) w e
                    (Hnet (log w)
                       (apiService.createMedicalProfile_request env
                          (OnePageApp.profile st) token) eq_refl)) as Hthrow.
      pose proof (perform_world env
                    (OpCreateMedicalProfile (OnePageApp.profile st) token) w) as Hw.
      simpl in Hthrow, Hw.
      unfold OnePageApp.saveProfile. simpl. rewrite Htoken, Hex. simpl.
      run_handler.
      destruct (apiService.createMedicalProfile env (OnePageApp.profile st) token w)
        as [r1 w1]. simpl in Hthrow, Hw. subst r1 w1. simpl. close_run.
      intros rq [<- | []] _. split; [reflexivity | now destruct st].
  - unfold OnePageApp.saveProfile. simpl. rewrite Htoken. simpl.
    unfold in_world, toast_error, emit. simpl. close_run.
    intros rq [].
Qed.

Lemma failed_write_stops_save_witness :
  exists st' w' added,
    OnePageApp.saveProfile (always (NetworkError "Failed to fetch")) (JStr "t")
      (first_save, empty_world) = (Return tt, (st', w')) /\
    log w' = (log empty_world ++ added)%list /\
    added = [EvFetch (apiService.createMedicalProfile_request
                        (always (NetworkError "Failed to fetch"))
                        edited_profile (JStr "t"));
             EvToast ToastError "Failed to fetch"] /\
    st' = first_save.
Proof.
  destruct (failed_write_stops_save (always (NetworkError "Failed to fetch"))
              (JStr "t") first_save empty_world "Failed to fetch"
              (fun _ _ _ => eq_refl))
    as (st' & w' & added & Hrun & Hlog & Hwrite).
  exists st', w', added. split; [exact Hrun |]. split; [exact Hlog |].
  apply Hwrite; [| reflexivity].
  vm_compute in Hrun. injection Hrun as _ Hw'. subst w'.
  simpl in Hlog. subst added. now left.
Defined.

(** ** Loading the page's data *)

Ltac load_steps env token mounted :=
  repeat first
    [ api_step env (OpGetMe token) (apiService.getMe env token)
    | api_step env (OpGetMedicalProfile token) (apiService.getMedicalProfile env token)
    | api_step env (OpGetFiles token) (apiService.getFiles env token)
    | match goal with
      | |- context [mounted ?l] => destruct (mounted l) eqn:?; simpl
      | |- context [strict_eq ?pf JNull] => destruct (strict_eq pf JNull) eqn:?; simpl
      end ].

Ltac close_load env token :=
  let me := constr:(apiService.getMe_request env token) in
  let pf := constr:(apiService.getMedicalProfile_request env token) in
  let files := constr:(apiService.getFiles_request env token) in
  let close fetched :=
    (do 2 eexists; exists fetched; split; [reflexivity |]; simpl;
     split; [rewrite <- ?app_assoc; reflexivity |]) in
  first [ close [me; pf; files] | close [me; pf] | close [me] | close [files] ].

(** X21.  Whatever the backend answers and whenever the effect is cleaned
    up, [load] returns, sends only reads (the user, the profile and the files
    on the profile view, the files alone elsewhere) and raises no toast or
    dialog, and leaves the loading flag lowered; the forms, the upload form,
    the chat, the view and [busy] are untouched. *)
Theorem load_settles (env : Env) (token user : JsVal) (view : string)
    (mounted : list Event -> bool) (st : OnePage.State) (w : World) :
  exists st' w' fetched,
    OnePage.load env token user view mounted (st, w) = (Return tt, (st', w')) /\
    log w' = (log w ++ map EvFetch fetched)%list /\
    OnePage.loadingProfile (OnePage.loaded st') = false /\
    Forall (fun rq => is_write rq = false) fetched /\
    OnePage.form st' = OnePage.form st /\
    OnePage.upload st' = OnePage.upload st /\
    OnePage.chatMessages st' = OnePage.chatMessages st /\
    OnePageApp.view (OnePage.core st') = OnePageApp.view (OnePage.core st) /\
    OnePageApp.busy (OnePage.core st') = OnePageApp.busy (OnePage.core st) /\
    (view <> "profile" ->
       fetched = [apiService.getFiles_request env token] /\
       OnePage.core st' = OnePage.core st /\
       OnePage.me (OnePage.loaded st') = OnePage.me (OnePage.loaded st)).
Proof.
  unfold OnePage.load. run_handler. unfold OnePage.still_mounted. simpl.
  destruct (String.eqb_spec view "profile") as [Hview | Hview]; simpl;
    load_steps env token mounted; close_load env token.
  all: split; [reflexivity |].
  all: split; [repeat constructor |].
  all: do 5 (split; [reflexivity |]).
  all: try (intros C; contradiction).
  all: intros _; split_and!; reflexivity.
Qed.

(** X22.  When the fetch of the profile fails on the profile view (any
    failure but the 404 that [getMedicalProfile] turns into [null]), the page
    holds the default profile and records that no profile exists; whatever is
    typed next, the save that follows posts it as a new profile. *)
Theorem failed_profile_load_then_save_creates (env : Env) (token user : JsVal)
    (mounted : list Event -> bool) (st : OnePage.State) (w : World) :
  truthy token = true ->
  (forall w0, exists e, fst (apiService.getMedicalProfile env token w0) = Throw e) ->
  (forall l, mounted l = true) ->
  exists st' w',
    OnePage.load env token user "profile" mounted (st, w) = (Return tt, (st', w')) /\
    OnePageApp.profile (OnePage.core st') = OnePageApp.defaultProfile /\
    OnePageApp.profileExists (OnePage.core st') = false /\
    forall typed w2, exists st2 w3 added,
      OnePageApp.saveProfile env token
        (OnePageApp.setProfile typed (OnePage.core st'), w2) = (Return tt, (st2, w3)) /\
      log w3 = (log w2 ++ added)%list /\
      filter is_write (requests added)
        = [apiService.createMedicalProfile_request env typed token].
Proof.
  intros Htoken Hfail Hmounted.
  unfold OnePage.load. run_handler. unfold OnePage.still_mounted. simpl.
  api_step env (OpGetMe token) (apiService.getMe env token);
    rewrite ?Hmounted; simpl;
    match goal with
    | |- context [apiService.getMedicalProfile env token ?w1] =>
        let Hw := fresh "Hw" in
        destruct (Hfail w1) as [e' He'];
        pose proof (perform_world env (OpGetMedicalProfile token) w1) as Hw;
        simpl in Hw;
        destruct (apiService.getMedicalProfile env token w1) as [r w2];
        simpl in He', Hw; subst r w2; simpl
    end;
    api_step env (OpGetFiles token) (apiService.getFiles env token);
    rewrite ?Hmounted; simpl;
    do 2 eexists; (split; [reflexivity |]); simpl;
    (split; [reflexivity |]); (split; [reflexivity |]);
    intros typed w2;
    apply (saveProfile_create env token Htoken); reflexivity.
Qed.

Lemma failed_profile_load_then_save_creates_witness :
  exists st' w',
    OnePage.load (always (Resp server_error)) (JStr "t") JNull "profile"
      (fun _ => true) (blank_page, empty_world) = (Return tt, (st', w')) /\
    OnePageApp.profile (OnePage.core st') = OnePageApp.defaultProfile /\
    OnePageApp.profileExists (OnePage.core st') = false /\
    forall typed w2, exists st2 w3 added,
      OnePageApp.saveProfile (always (Resp server_error)) (JStr "t")
        (OnePageApp.setProfile typed (OnePage.core st'), w2) = (Return tt, (st2, w3)) /\
      log w3 = (log w2 ++ added)%list /\
      filter is_write (requests added)
        = [apiService.createMedicalProfile_request (always (Resp server_error))
             typed (JStr "t")].
Proof.
  apply (failed_profile_load_then_save_creates (always (Resp server_error))
           (JStr "t") JNull (fun _ => true) blank_page empty_world eq_refl).
  - intros w0. eexists. reflexivity.
  - reflexivity.
Defined.

(** X23.  When the fetch of the files fails, the load of the page empties the
    list of files it shows, while the handler of the [refresh-files] event
    keeps the list as it was; neither reports the failure. *)
Theorem files_failure_load_vs_refresh (env : Env) (token user : JsVal)
    (view : string) (mounted : list Event -> bool) (st : OnePage.State)
    (w : World) (e : string) :
  view <> "profile" ->
  fst (apiService.getFiles env token w) = Throw e ->
  (exists st',
     OnePage.load env token user view mounted (st, w)
       = (Return tt, (st', logged (EvFetch (apiService.getFiles_request env token)) w)) /\
     OnePage.filesList (OnePage.loaded st') = JArr []) /\
  OnePage.onRefreshFiles env token (st, w)
    = (Return tt, (st, logged (EvFetch (apiService.getFiles_request env token)) w)).
Proof.
  intros Hview Hthrow.
  pose proof (perform_world env (OpGetFiles token) w) as Hw. simpl in Hw.
  split.
  - unfold OnePage.load. run_handler.
    destruct (String.eqb_spec view "profile") as [C | _]; [contradiction |]. simpl.
    destruct (apiService.getFiles env token w) as [r w1].
    simpl in Hthrow, Hw. subst r w1. simpl.
    eexists. split; reflexivity.
  - unfold OnePage.onRefreshFiles. run_handler.
    destruct (apiService.getFiles env token w) as [r w1].
    simpl in Hthrow, Hw. subst r w1. simpl. now destruct st.
Qed.

Lemma files_failure_load_vs_refresh_witness :
  (exists st',
     OnePage.load (always (NetworkError "Failed to fetch")) (JStr "t") JNull
       "uploads" (fun _ => true)
       (OnePage.on_loaded (OnePage.setFilesList (JArr [JNum 1])) blank_page,
        empty_world)
       = (Return tt,
          (st', logged (EvFetch (apiService.getFiles_request
                                   (always (NetworkError "Failed to fetch"))
                                   (JStr "t"))) empty_world)) /\
     OnePage.filesList (OnePage.loaded st') = JArr []) /\
  OnePage.onRefreshFiles (always (NetworkError "Failed to fetch")) (JStr "t")
    (OnePage.on_loaded (OnePage.setFilesList (JArr [JNum 1])) blank_page,
     empty_world)
    = (Return tt,
       (OnePage.on_loaded (OnePage.setFilesList (JArr [JNum 1])) blank_page,
        logged (EvFetch (apiService.getFiles_request
                           (always (NetworkError "Failed to fetch"))
                           (JStr "t"))) empty_world)).
Proof.
  apply (files_failure_load_vs_refresh (always (NetworkError "Failed to fetch"))
           (JStr "t") JNull "uploads" (fun _ => true)
           (OnePage.on_loaded (OnePage.setFilesList (JArr [JNum 1])) blank_page)
           empty_world "Failed to fetch").
  - discriminate.
  - reflexivity.
Defined.

(** X24.  The view survives a reload only for a signed-in user: the effect
    that persists the view stores it, and the page then starts on it (on the
    home view when the view is the empty string); signed out, the effect
    removes the entry and the page starts on the home view.  The effect of the
    sign-out sets the view to [upload] and removes the entry too. *)
Theorem view_round_trip (view : string) (w : World) :
  fst (OnePage.initial_view (snd (OnePage.persist_view true view w)))
    = Return (if String.eqb view "" then "home" else view) /\
  fst (OnePage.initial_view (snd (OnePage.persist_view false view w)))
    = Return "home" /\
  forall st : OnePage.State,
    exists st' w',
      OnePage.on_auth_change false (st, w) = (Return tt, (st', w')) /\
      OnePageApp.view (OnePage.core st') = "upload" /\
      log w' = log w /\
      fst (OnePage.initial_view w') = Return "home".
Proof.
  unfold OnePage.initial_view, OnePage.persist_view, OnePage.on_auth_change,
    localStorage_getItem, localStorage_setItem, localStorage_removeItem.
  run_handler. split_and!.
  - rewrite lookup_insert_eq. unfold js_or. simpl.
    now destruct (String.eqb view "").
  - now rewrite lookup_delete_eq.
  - intros st. do 2 eexists. split; [reflexivity |]. simpl.
    split; [reflexivity |]. split; [reflexivity |].
    now rewrite lookup_delete_eq.
Qed.

(** ** The profile card and the uploads list, continued *)

Lemma slice_to_length (n : nat) (s : string) :
  (n <= String.length s)%nat -> String.length (ViewsMore.slice_to n s) = n.
Proof.
  revert s. induction n as [| n IH]; intros [| c s]; simpl; intros H;
    try reflexivity; try lia.
  f_equal. apply IH. lia.
Qed.

Lemma slice_to_prefix (n : nat) (s : string) :
  exists rest, s = ViewsMore.slice_to n s ++ rest.
Proof.
  revert s. induction n as [| n IH]; intros [| c s]; simpl;
    try (eexists; reflexivity).
  destruct (IH s) as [rest Hrest]. exists rest.
  change (String c s = String c (ViewsMore.slice_to n s ++ rest)).
  f_equal. exact Hrest.
Qed.

Lemma length_append (a b : string) :
  String.length (a ++ b) = (String.length a + String.length b)%nat.
Proof.
  induction a as [| c a IH]; [reflexivity |].
  change (S (String.length (a ++ b)) = S (String.length a + String.length b)).
  now rewrite IH.
Qed.

Lemma append_nonempty_r (a b : string) : b <> "" -> a ++ b <> "".
Proof. intros Hb. destruct a; simpl; [exact Hb | discriminate]. Qed.

(** X25.  [truncate] never shows an empty text: a missing or empty field
    shows as a dash; a text of at most [n] code units shows unchanged; a longer
    one shows as its first [n] code units followed by the ellipsis. *)
Theorem truncate_shape (text : option string) (n : nat) :
  ViewsMore.truncate text n <> "" /\
  (text = None \/ text = Some "" -> ViewsMore.truncate text n = "-") /\
  (forall t, text = Some t -> t <> "" -> (String.length t <= n)%nat ->
     ViewsMore.truncate text n = t) /\
  (forall t, text = Some t -> (n < String.length t)%nat ->
     ViewsMore.truncate text n = ViewsMore.slice_to n t ++ ViewsMore.ellipsis /\
     String.length (ViewsMore.slice_to n t) = n /\
     exists rest, rest <> "" /\ t = ViewsMore.slice_to n t ++ rest).
Proof.
  split_and!.
  - destruct text as [t |]; simpl; [| discriminate].
    destruct (String.eqb_spec t "") as [-> | Ht]; simpl; [discriminate |].
    destruct (n <? String.length t)%nat.
    + apply append_nonempty_r. discriminate.
    + unfold str_or. destruct (String.eqb_spec t ""); [discriminate | exact Ht].
  - intros [-> | ->]; reflexivity.
  - intros t -> Ht Hlen. simpl.
    destruct (String.eqb_spec t "") as [C | _]; [contradiction |]. simpl.
    destruct (Nat.ltb_spec n (String.length t)); [lia |].
    unfold str_or. destruct (String.eqb_spec t ""); [contradiction | reflexivity].
  - intros t -> Hlen. simpl.
    destruct (String.eqb_spec t "") as [-> | _]; [simpl in Hlen; lia |]. simpl.
    destruct (Nat.ltb_spec n (String.length t)); [| lia].
    split; [reflexivity |]. split; [apply slice_to_length; lia |].
    destruct (slice_to_prefix n t) as [rest Hrest]. exists rest.
    split; [| exact Hrest].
    intros ->. apply (f_equal String.length) in Hrest.
    rewrite length_append, slice_to_length in Hrest by lia.
    simpl in Hrest. lia.
Qed.

(** X26.  The status badge compares the status without regard to case, the
    row's buttons compare it exactly: a row whose status is [accepted] in
    another letter case carries the badge of an accepted document and still
    offers Review/Accept and Retry. *)
Theorem badge_ignores_case_buttons_do_not (st : Views.UploadsState)
    (f : Views.File) (s : string) :
  Views.status f = JStr s ->
  toLowerCase s = "accepted" ->
  ViewsMore.badge_class (Views.status f)
    = "bg-emerald-50 text-emerald-700 border-emerald-100" /\
  ViewsMore.badge_label (Views.status f) = "accepted" /\
  Views.actions (Views.row_buttons st f)
    = if String.eqb s "accepted" then [Views.View; Views.Delete]
      else [Views.View; Views.ReviewAccept; Views.Retry; Views.Delete].
Proof.
  intros Hst Hlow.
  assert (ViewsMore.badge_status (Views.status f) = "accepted") as Hbadge.
  { unfold ViewsMore.badge_status, js_or. rewrite Hst. simpl.
    destruct (String.eqb_spec s "") as [-> | _]; [discriminate Hlow | exact Hlow]. }
  unfold ViewsMore.badge_class, ViewsMore.badge_label. rewrite Hbadge.
  split; [reflexivity |]. split; [reflexivity |].
  unfold Views.row_buttons, Views.actions. rewrite Hst. simpl.
  destruct (String.eqb s "accepted"); reflexivity.
Qed.

Lemma badge_ignores_case_buttons_do_not_witness :
  ViewsMore.badge_class (JStr "Accepted")
    = "bg-emerald-50 text-emerald-700 border-emerald-100" /\
  ViewsMore.badge_label (JStr "Accepted") = "accepted" /\
  Views.actions
    (Views.row_buttons uploads_idle
       (Views.mkFile (JNum 3) (JStr "rx.pdf") JNull (JStr "2025-01-01T10:00:00")
                     (JStr "Accepted") JNull))
    = [Views.View; Views.ReviewAccept; Views.Retry; Views.Delete].
Proof.
  exact (badge_ignores_case_buttons_do_not uploads_idle
           (Views.mkFile (JNum 3) (JStr "rx.pdf") JNull (JStr "2025-01-01T10:00:00")
                         (JStr "Accepted") JNull)
           "Accepted" eq_refl eq_refl).
Defined.

(** X27.  The Review/Accept handler of a row, on every path: it returns and
    shows no alert, whatever fails; it asks for the extraction and shows it
    in a dialog; the accept request is sent only after the user has accepted
    the dialog; the row is marked accepted only when that request succeeds,
    and then the row offers View and Delete alone; the row's reviewing flag
    is lowered at the end. *)
Theorem review_outcomes (env : Env) (token : JsVal) (i : nat) (f : Views.File)
    (st : Views.UploadsState) (w : World) :
  Views.filesList st !! i = Some f ->
  let extraction := apiService.getExtraction_request env (Views.id f) token in
  let accept := apiService.acceptExtraction_request env (Views.id f) token JUndefined in
  let marked := Views.mkFile (Views.id f) (Views.filename f) (Views.display_name f)
                  (Views.upload_date f) (JStr "accepted") (Views.s3_url f) in
  exists st' w' added,
    ViewsMore.onReview env token i f (st, w) = (Return tt, (st', w')) /\
    log w' = (log w ++ added)%list /\
    Views.reviewMap st' !! ToString (Views.id f) = Some false /\
    ((exists e, fst (apiService.getExtraction env (Views.id f) token w) = Throw e) /\
       added = [EvFetch extraction] /\
       Views.filesList st' = Views.filesList st
     \/
     exists res,
       fst (apiService.getExtraction env (Views.id f) token w) = Return res /\
       let answer := confirm_answer env (log w ++ [EvFetch extraction])
                       (ViewsMore.review_prompt res) in
       let asked := logged (EvConfirm (ViewsMore.review_prompt res) answer)
                      (logged (EvFetch extraction) w) in
       (answer = false /\
          added = [EvFetch extraction;
                   EvConfirm (ViewsMore.review_prompt res) false] /\
          Views.filesList st' = Views.filesList st
        \/
        answer = true /\
          added = [EvFetch extraction;
                   EvConfirm (ViewsMore.review_prompt res) true;
                   EvFetch accept] /\
          ((exists e, fst (apiService.acceptExtraction env (Views.id f) token
                             JUndefined asked) = Throw e) /\
             Views.filesList st' = Views.filesList st
           \/
           (exists v, fst (apiService.acceptExtraction env (Views.id f) token
                             JUndefined asked) = Return v) /\
             Views.filesList st' = <[i := marked]> (Views.filesList st) /\
             Views.actions (Views.row_buttons st' marked)
               = [Views.View; Views.Delete]))).
Proof.
  intros Hrow extraction accept marked.
  pose proof (perform_world env (OpGetExtraction (Views.id f) token) w) as Hw1.
  simpl in Hw1.
  unfold ViewsMore.onReview. run_handler. unfold ViewsMore.accept_row.
  destruct (apiService.getExtraction env (Views.id f) token w) as [[e | res] w1];
    simpl in Hw1; subst w1; simpl.
  - close_run. split; [apply lookup_insert_eq |].
    left. split; [now exists e |]. split; reflexivity.
  - fold extraction.
    destruct (confirm_answer env (log w ++ [EvFetch extraction])
                (ViewsMore.review_prompt res)) eqn:Hanswer; simpl.
    + match goal with
      | |- context [apiService.acceptExtraction env (Views.id f) token JUndefined ?w2] =>
          pose proof (perform_world env
                        (OpAcceptExtraction (Views.id f) token JUndefined) w2) as Hw3;
          simpl in Hw3;
          destruct (apiService.acceptExtraction env (Views.id f) token JUndefined w2)
            as [[e | v] w3] eqn:Haccept;
          simpl in Hw3; subst w3; simpl; rewrite ?Hrow
      end.
      * close_run. split; [apply lookup_insert_eq |].
        right. exists res. split; [reflexivity |]. rewrite Hanswer.
        right. split; [reflexivity |]. split; [reflexivity |].
        left. split; [| reflexivity]. exists e. now rewrite Haccept.
      * close_run. split; [apply lookup_insert_eq |].
        right. exists res. split; [reflexivity |]. rewrite Hanswer.
        right. split; [reflexivity |]. split; [reflexivity |].
        right. split; [| split; reflexivity]. exists v. now rewrite Haccept.
    + close_run. split; [apply lookup_insert_eq |].
      right. exists res. split; [reflexivity |]. rewrite Hanswer.
      left. split; [reflexivity |]. split; reflexivity.
Qed.

Lemma review_outcomes_witness :
  exists st' w' added,
    ViewsMore.onReview (always (Resp created)) (JStr "t") 0 rx_pending
      (uploads_idle, empty_world) = (Return tt, (st', w')) /\
    log w' = (log empty_world ++ added)%list /\
    Views.reviewMap st' !! "3" = Some false /\
    Views.filesList st' = [rx_accepted].
Proof.
  destruct (review_outcomes (always (Resp created)) (JStr "t") 0 rx_pending
              uploads_idle empty_world eq_refl)
    as (st' & w' & added & Hrun & Hlog & Hflag & _).
  exists st', w', added. split; [exact Hrun |]. split; [exact Hlog |].
  split; [exact Hflag |].
  vm_compute in Hrun. injection Hrun as <- _. reflexivity.
Defined.

(** X28.  The View button of a row opens exactly one tab on every path: on
    the presigned URL when the backend gives one, else on the base URL; a
    failed presign request is logged to the console and falls back to the base
    URL.  An entry of the schedule opens at most one tab: none without a
    [file_id], none when the presign request fails or gives no URL, and it
    reports nothing.  Both lower their busy flag at the end. *)
Theorem documents_open_in_new_tabs (env : Env)
    (VITE_S3_BUCKET VITE_S3_REGION token : JsVal) (tabs : list string) (w : World) :
  (forall (f : Views.File) (st : Views.UploadsState),
     let base := ViewsMore.baseUrl VITE_S3_BUCKET VITE_S3_REGION f in
     let presign := apiService.presignFile_request env (Views.id f) token in
     exists st' url w',
       ViewsMore.openFile env VITE_S3_BUCKET VITE_S3_REGION token f ((st, tabs), w)
         = (Return tt, ((st', tabs ++ [url])%list, w')) /\
       Views.loadingMap st' !! ToString (Views.id f) = Some false /\
       Views.filesList st' = Views.filesList st /\
       (forall res,
          fst (apiService.presignFile env (Views.id f) token w) = Return res ->
          url = ToString (js_or (get_opt res "presigned_url") base) /\
          log w' = (log w ++ [EvFetch presign])%list) /\
       (forall e,
          fst (apiService.presignFile env (Views.id f) token w) = Throw e ->
          url = ToString base /\
          log w' = (log w ++ [EvFetch presign;
                              EvConsole ConsoleWarn
                                "Presign failed, falling back to base URL"])%list)) /\
  (forall (entry : JsVal) (st : ViewsMore.ScheduleState),
     let file_id := get_opt entry "file_id" in
     let presign := apiService.presignFile_request env file_id token in
     exists st' opened w',
       ViewsMore.openFromEntry env token entry ((st, tabs), w)
         = (Return tt, ((st', tabs ++ opened)%list, w')) /\
       ViewsMore.schedule st' = ViewsMore.schedule st /\
       (truthy file_id = false -> opened = [] /\ st' = st /\ w' = w) /\
       (truthy file_id = true ->
          log w' = (log w ++ [EvFetch presign])%list /\
          ViewsMore.opening st' !! ToString (get_opt entry "id") = Some false /\
          (forall e,
             fst (apiService.presignFile env file_id token w) = Throw e ->
             opened = []) /\
          (forall res,
             fst (apiService.presignFile env file_id token w) = Return res ->
             opened = if truthy (get_opt res "presigned_url")
                      then [ToString (get_opt res "presigned_url")] else []))).
Proof.
  split.
  - intros f st base presign.
    pose proof (perform_world env (OpPresignFile (Views.id f) token) w) as Hw.
    simpl in Hw.
    unfold ViewsMore.openFile, ViewsMore.window_open. run_handler.
    destruct (apiService.presignFile env (Views.id f) token w) as [[e | res] w1];
      simpl in Hw; subst w1; simpl;
      do 3 eexists; (split; [reflexivity |]); simpl;
      (split; [apply lookup_insert_eq |]); (split; [reflexivity |]);
      split; intros ? [= <-]; (split; [reflexivity |]);
      rewrite <- ?app_assoc; reflexivity.
  - intros entry st file_id presign.
    pose proof (perform_world env (OpPresignFile file_id token) w) as Hw.
    simpl in Hw.
    unfold ViewsMore.openFromEntry, ViewsMore.window_open. fold file_id.
    destruct (truthy file_id) eqn:Hid; simpl.
    + run_handler.
      destruct (apiService.presignFile env file_id token w) as [[e | res] w1];
        simpl in Hw; subst w1; simpl.
      * exists (ViewsMore.setOpening
                  (insert (ToString (get_opt entry "id")) false)
                  (ViewsMore.setOpening
                     (insert (ToString (get_opt entry "id")) true) st)),
          (@nil string).
        eexists. rewrite app_nil_r. split; [reflexivity |]. simpl.
        split; [reflexivity |]. split; [discriminate |]. intros _.
        split; [reflexivity |]. split; [apply lookup_insert_eq |].
        split; [reflexivity | discriminate].
      * destruct (truthy (get_opt res "presigned_url")) eqn:Hurl; simpl.
        -- do 3 eexists. split; [reflexivity |]. simpl.
           split; [reflexivity |]. split; [discriminate |]. intros _.
           split; [reflexivity |]. split; [apply lookup_insert_eq |].
           split; [discriminate |]. intros ? [= <-]. now rewrite Hurl.
        -- exists (ViewsMore.setOpening
                     (insert (ToString (get_opt entry "id")) false)
                     (ViewsMore.setOpening
                        (insert (ToString (get_opt entry "id")) true) st)),
             (@nil string).
           eexists. rewrite app_nil_r. split; [reflexivity |]. simpl.
           split; [reflexivity |]. split; [discriminate |]. intros _.
           split; [reflexivity |]. split; [apply lookup_insert_eq |].
           split; [discriminate |]. intros ? [= <-]. now rewrite Hurl.
    + exists st, (@nil string), w. rewrite app_nil_r.
      split; [now destruct st |]. split; [reflexivity |].
      split; [now intros _ | discriminate].
Qed.

(** X29.  Loading the schedule sends one request and never throws.  In
    [ScheduleView], while the view is mounted, the spinner is lowered and the
    schedule shown is the array the backend answered, entry for entry; it is
    empty on an answer that is no array and on a failure; once unmounted
    nothing is set.  The preview above the uploads list takes an answered
    array the same way while mounted, is emptied by an answer that is no
    array, keeps its entries when the request fails or the view is gone, and
    shows the first six of them, or none when switched off. *)
Theorem schedule_loads (env : Env) (token : JsVal) (mounted : list Event -> bool)
    (w : World) :
  let request := apiService.getSchedule_request env token in
  let answer := fst (apiService.getSchedule env token w) in
  let alive := mounted (log w ++ [EvFetch request])%list in
  (forall st : ViewsMore.ScheduleState,
     exists st',
       ViewsMore.load_schedule env token mounted (st, w)
         = (Return tt, (st', logged (EvFetch request) w)) /\
       ViewsMore.opening st' = ViewsMore.opening st /\
       (alive = true ->
          ViewsMore.loading st' = false /\
          (forall items, answer = Return (JArr items) ->
             ViewsMore.schedule st' = items) /\
          (forall v, answer = Return v -> (forall items, v <> JArr items) ->
             ViewsMore.schedule st' = []) /\
          (forall e, answer = Throw e -> ViewsMore.schedule st' = [])) /\
       (alive = false ->
          ViewsMore.loading st' = true /\
          ViewsMore.schedule st' = ViewsMore.schedule st)) /\
  (forall (entries : list JsVal) (showSchedule : bool),
     exists entries',
       ViewsMore.load_preview env token mounted (entries, w)
         = (Return tt, (entries', logged (EvFetch request) w)) /\
       (alive = true ->
          (forall items, answer = Return (JArr items) -> entries' = items) /\
          (forall v, answer = Return v -> (forall items, v <> JArr items) ->
             entries' = [])) /\
       (alive = false -> entries' = entries) /\
       (forall e, answer = Throw e -> entries' = entries) /\
       ViewsMore.schedule_preview showSchedule entries'
         = (if showSchedule then take 6 entries' else [])).
Proof.
  intros request answer alive. subst answer alive.
  pose proof (perform_world env (OpGetSchedule token) w) as Hw. simpl in Hw.
  fold request in Hw.
  assert (forall (showSchedule : bool) (l : list JsVal),
            ViewsMore.schedule_preview showSchedule l
              = if showSchedule then take 6 l else []) as Hsix.
  { intros showSchedule l. unfold ViewsMore.schedule_preview.
    destruct showSchedule; [| reflexivity]. now destruct l. }
  split.
  - intros st. unfold ViewsMore.load_schedule. run_handler.
    destruct (apiService.getSchedule env token w) as [[e | s] w1];
      simpl in Hw; subst w1; simpl;
      destruct (mounted (log w ++ [EvFetch request])%list) eqn:Hm; simpl;
      rewrite ?Hm; simpl;
      eexists; (split; [reflexivity |]); simpl; (split; [reflexivity |]);
      (split; [| intros; try discriminate; split; reflexivity]);
      intros; try discriminate; (split; [reflexivity |]);
      split_and!; try discriminate; try reflexivity.
    + intros items [= ->]. reflexivity.
    + intros v [= <-] Hno. destruct s; try reflexivity.
      exfalso. now apply (Hno items).
  - intros entries showSchedule. unfold ViewsMore.load_preview. run_handler.
    destruct (apiService.getSchedule env token w) as [[e | s] w1];
      simpl in Hw; subst w1; simpl.
    + exists entries. split; [now destruct w |].
      split; [intros _; split; intros; discriminate |].
      split; [reflexivity |]. split; [reflexivity | apply Hsix].
    + destruct (mounted (log w ++ [EvFetch request])%list) eqn:Hm; simpl;
        rewrite ?Hm; simpl; eexists; (split; [reflexivity |]).
      * split; [intros _ | split; [discriminate |
                                   split; [discriminate | apply Hsix]]].
        split.
        -- intros items [= ->]. reflexivity.
        -- intros v [= <-] Hno. destruct s; try reflexivity.
           exfalso. now apply (Hno items).
      * split; [discriminate |]. split; [reflexivity |].
        split; [discriminate | apply Hsix].
Qed.

(** The splice of the Delete handler takes out one row at most, and no row
    with another id. *)
Lemma remove_row_spec (f : Views.File) (rows : list Views.File) :
  length (Views.remove_row f rows)
    = (length rows
       - (if existsb (fun x => strict_eq (Views.id x) (Views.id f)) rows
          then 1 else 0))%nat /\
  (forall x, In x (Views.remove_row f rows) -> In x rows) /\
  (forall x, In x rows -> strict_eq (Views.id x) (Views.id f) = false ->
     In x (Views.remove_row f rows)).
Proof.
  induction rows as [| r rows (IHlen & IHin & IHkeep)]; simpl.
  - split; [reflexivity |]. split; [tauto | tauto].
  - destruct (strict_eq (Views.id r) (Views.id f)) eqn:Hid; simpl.
    + split; [lia |]. split; [tauto |].
      intros x [<- | Hx] Hother; [congruence | exact Hx].
    + rewrite IHlen. split.
      * destruct (existsb _ rows) eqn:Hex; [| lia].
        apply existsb_exists in Hex as (x & Hx & _).
        destruct rows; [contradiction | simpl; lia].
      * split.
        -- intros x [<- | Hx]; [now left | right; now apply IHin].
        -- intros x [<- | Hx] Hother; [now left | right; now apply IHkeep].
Qed.

(** X30.  Once the user has accepted the dialog, the Delete handler of a row
    returns and lowers the row's busy flag; when the request fails the list is
    kept and one alert shows the error's message (or [Delete failed]); when it
    succeeds, one row at most leaves the list, none with another id, and the
    files are re-fetched: the [refresh-files] event is dispatched when that
    re-fetch returns and is not when it throws, and no alert is shown either
    way. *)
Theorem delete_outcome (env : Env) (token : JsVal) (f : Views.File)
    (st : Views.UploadsState) (w : World) :
  confirm_answer env (log w) delete_prompt = true ->
  let asked := logged (EvConfirm delete_prompt true) w in
  let request := apiService.deleteFile_request env (Views.id f) token in
  let deleted := logged (EvFetch request) asked in
  let refetch := apiService.getFiles_request env token in
  exists st' w',
    Views.onDelete env token f (st, w) = (Return tt, (st', w')) /\
    Views.busyMap st' !! ToString (Views.id f) = Some false /\
    (forall e,
       fst (apiService.deleteFile env (Views.id f) token asked) = Throw e ->
       Views.filesList st' = Views.filesList st /\
       log w' = (log asked ++ [EvFetch request;
                               EvAlert (str_or e "Delete failed")])%list) /\
    (forall v,
       fst (apiService.deleteFile env (Views.id f) token asked) = Return v ->
       Views.filesList st' = Views.remove_row f (Views.filesList st) /\
       (length (Views.filesList st) - 1 <= length (Views.filesList st'))%nat /\
       (forall x, In x (Views.filesList st) ->
          strict_eq (Views.id x) (Views.id f) = false ->
          In x (Views.filesList st')) /\
       (forall files,
          fst (apiService.getFiles env token deleted) = Return files ->
          log w' = (log asked ++ [EvFetch request; EvFetch refetch;
                                  EvDispatch "refresh-files"])%list) /\
       (forall e,
          fst (apiService.getFiles env token deleted) = Throw e ->
          log w' = (log asked ++ [EvFetch request; EvFetch refetch])%list)).
Proof.
  intros Hanswer asked request deleted refetch.
  unfold Views.onDelete. run_handler. fold delete_prompt. rewrite Hanswer. simpl.
  fold asked.
  api_step env (OpDeleteFile (Views.id f) token)
    (apiService.deleteFile env (Views.id f) token).
  - do 2 eexists. split; [reflexivity |]. simpl.
    split; [apply lookup_insert_eq |].
    split; [| discriminate]. intros ? [= <-].
    split; [reflexivity |]. now rewrite <- app_assoc.
  - unfold Views.refreshList, try_catch, bind, dispatchEvent, emit, ret.
    fold request. fold deleted.
    pose proof (perform_world env (OpGetFiles token) deleted) as Hw2.
    simpl in Hw2.
    destruct (apiService.getFiles env token deleted) as [[e2 | files] w2];
      simpl in Hw2; subst w2; simpl;
      (do 2 eexists; split; [reflexivity |]; simpl;
       split; [apply lookup_insert_eq |];
       split; [discriminate |]; intros ? _;
       split; [reflexivity |];
       destruct (remove_row_spec f (Views.filesList st)) as (Hlen & _ & Hkeep);
       split; [rewrite Hlen; destruct (existsb _ _); lia |];
       split; [exact Hkeep |]).
    + split; [discriminate |]. intros ? _. now rewrite <- !app_assoc.
    + split; [| discriminate]. intros ? _. now rewrite <- !app_assoc.
Qed.

Lemma delete_outcome_witness :
  exists st' w',
    Views.onDelete (always (Resp created)) (JStr "t") rx_pending
      (uploads_idle, empty_world) = (Return tt, (st', w')) /\
    Views.busyMap st' !! "3" = Some false /\
    Views.filesList st' = [].
Proof.
  destruct (delete_outcome (always (Resp created)) (JStr "t") rx_pending
              uploads_idle empty_world eq_refl)
    as (st' & w' & Hrun & Hflag & _ & Hok).
  exists st', w'. split; [exact Hrun |]. split; [exact Hflag |].
  exact (proj1 (Hok (JObj [("id", JNum 1)]) eq_refl)).
Defined.
